(** * Vision-to-Workflow Navigator: goal classifier, oracle fallback,
      step executor and artifact generator

    A shallow embedding of the TypeScript sources
      - [src/types/index.ts]            (data model),
      - [src/App.tsx]                   (goal classifier, UI step executor,
                                         artifact generator),
      - [src/lib/speech.ts]             (oracle adapter and its fallback),
      - [src/lib/playwright-runner.ts]  (locator resolver, driver executor),
    followed by the properties of the specification that they decide.

    Conventions.  A JavaScript string is a [string]: its characters are
    the UTF-16 code units of the JavaScript string, so a [string] stands for
    a JavaScript string all of whose code units are below 256 (U+0000 to
    U+00FF), its length is [s.length] and its positions are those of
    [s.slice] and [s.includes]; the character U+00E9 is [ascii_of_nat 233],
    one character.  JavaScript strings with a code unit above 255 are
    outside this model.  A bounding-box coordinate is an IEEE-754 binary64
    number
    ([float]); an integer-valued number ([order], array indices and lengths)
    is a [Z] or a [nat]; an optional property is an [option].  The
    [boundingBox] of a [UIElement] is optional too: the interface declares
    it, but elements also arrive unchecked from the remote model, and the
    sources test for it before they use it. *)

From Stdlib Require Import List String Ascii ZArith Lia Bool PrimFloat.
From Stdlib Require Import DecimalString Sorted.
Import ListNotations.
Local Open Scope string_scope.

(* ===================================================================== *)
(** * The part of the JavaScript runtime the sources call                *)
(* ===================================================================== *)

Module JS.

(** [String.prototype.toLowerCase] on code units below 256.  Unicode gives
    a lower-case mapping to exactly these of them: [A]..[Z] (65..90), and
    the letters U+00C0..U+00D6 and U+00D8..U+00DE (192..214, 216..222); each
    is mapped to the code unit 32 above it, whatever stands around it, and
    every other code unit below 256 is kept (U+00D7, the multiplication
    sign, U+00DF and U+00FF among them). *)
Definition lowerChar (c : ascii) : ascii :=
  let n := nat_of_ascii c in
  if (65 <=? n)%nat && (n <=? 90)%nat
     || (192 <=? n)%nat && (n <=? 214)%nat
     || (216 <=? n)%nat && (n <=? 222)%nat
  then ascii_of_nat (n + 32) else c.

Fixpoint toLowerCase (s : string) : string :=
  match s with
  | EmptyString => EmptyString
  | String c rest => String (lowerChar c) (toLowerCase rest)
  end.

(** [s.includes(sub)]: [sub] occurs in [s] at some position. *)
Fixpoint includes (s sub : string) : bool :=
  match s with
  | EmptyString => prefix sub EmptyString
  | String _ rest => prefix sub s || includes rest sub
  end.

(** [xs.join(sep)]. *)
Definition join (sep : string) (xs : list string) : string :=
  String.concat sep xs.

(** [a || b] on an optional string: the empty string is falsy. *)
Definition orElse (a : option string) (b : string) : string :=
  match a with
  | Some s => if (s =? "")%string then b else s
  | None => b
  end.

(** The characters that cannot be written inside a string literal. *)
Definition dq : string := String (ascii_of_nat 34) EmptyString.
Definition nl : string := String (ascii_of_nat 10) EmptyString.

(** A multi-line template literal, given line by line. *)
Definition lines (ls : list string) : string := join nl ls.

(** [`${n}`] for an integer-valued number. *)
Definition showNat (n : nat) : string :=
  NilZero.string_of_uint (Nat.to_uint n).

Definition showZ (z : Z) : string :=
  NilZero.string_of_int (Z.to_int z).

(** [`${v}`] for an optional string: a missing one prints as
    [undefined]. *)
Definition showOpt (v : option string) : string :=
  match v with Some s => s | None => "undefined" end.

(** ** [Date.prototype.toISOString]

    The argument is the time value, in milliseconds since the epoch.
    The civil date is computed from the day number in the proleptic
    Gregorian calendar; years outside 0..9999 are printed with a sign and
    six digits. *)
Definition pad (width : nat) (n : Z) : string :=
  let digits := showZ n in
  let fix zeros (k : nat) : string :=
    match k with O => EmptyString | S k' => String "0" (zeros k') end in
  zeros (width - String.length digits) ++ digits.

Definition civilFromDays (days : Z) : Z * Z * Z :=
  let z := (days + 719468)%Z in
  let era := (z / 146097)%Z in
  let doe := (z - era * 146097)%Z in
  let yoe := ((doe - doe / 1460 + doe / 36524 - doe / 146096) / 365)%Z in
  let doy := (doe - (365 * yoe + yoe / 4 - yoe / 100))%Z in
  let mp := ((5 * doy + 2) / 153)%Z in
  let d := (doy - (153 * mp + 2) / 5 + 1)%Z in
  let m := (if mp <? 10 then mp + 3 else mp - 9)%Z in
  let y := (yoe + era * 400 + (if m <=? 2 then 1 else 0))%Z in
  (y, m, d).

Definition showYear (y : Z) : string :=
  if ((0 <=? y) && (y <=? 9999))%Z then pad 4 y
  else if (y <? 0)%Z then "-" ++ pad 6 (- y)
  else "+" ++ pad 6 y.

Definition toISOString (ms : Z) : string :=
  let day := (ms / 86400000)%Z in
  let rest := (ms mod 86400000)%Z in
  let '(y, m, d) := civilFromDays day in
  showYear y ++ "-" ++ pad 2 m ++ "-" ++ pad 2 d ++ "T"
    ++ pad 2 (rest / 3600000) ++ ":"
    ++ pad 2 (rest / 60000 mod 60) ++ ":"
    ++ pad 2 (rest / 1000 mod 60) ++ "."
    ++ pad 3 (rest mod 1000) ++ "Z".

(** ** [JSON.stringify] of a string (QuoteJSONString) *)
Definition hexDigit (n : nat) : ascii :=
  if (n <? 10)%nat then ascii_of_nat (48 + n) else ascii_of_nat (87 + n).

Definition escapeChar (c : ascii) : string :=
  let n := nat_of_ascii c in
  if (n =? 8)%nat then "\b"
  else if (n =? 9)%nat then "\t"
  else if (n =? 10)%nat then "\n"
  else if (n =? 12)%nat then "\f"
  else if (n =? 13)%nat then "\r"
  else if (n =? 34)%nat then "\" ++ dq
  else if (n =? 92)%nat then "\\"
  else if (n <? 32)%nat then
    "\u00" ++ String (hexDigit (n / 16)) (String (hexDigit (n mod 16)) "")
  else String c "".

Fixpoint escape (s : string) : string :=
  match s with
  | EmptyString => EmptyString
  | String c rest => escapeChar c ++ escape rest
  end.

Definition quote (s : string) : string := dq ++ escape s ++ dq.

(** ** [btoa]: the base-64 text of a string of code units below 256 *)

Definition base64Alphabet : string :=
  "ABCDEFGHIJKLMNOPQRSTUVWXYZabcdefghijklmnopqrstuvwxyz0123456789+/".

Definition base64Digit (n : N) : ascii :=
  match String.get (N.to_nat n) base64Alphabet with
  | Some c => c
  | None => "="%char
  end.

(** Three characters give four digits; one or two characters left over
    give two or three digits and are padded with [=]. *)
Fixpoint btoa (s : string) : string :=
  match s with
  | EmptyString => EmptyString
  | String a EmptyString =>
      let n := N_of_ascii a in
      String (base64Digit (n / 4))
        (String (base64Digit (n mod 4 * 16)) "==")
  | String a (String b EmptyString) =>
      let n := (N_of_ascii a * 256 + N_of_ascii b)%N in
      String (base64Digit (n / 1024))
        (String (base64Digit (n / 16 mod 64))
           (String (base64Digit (n mod 16 * 4)) "="))
  | String a (String b (String c rest)) =>
      let n := ((N_of_ascii a * 256 + N_of_ascii b) * 256 + N_of_ascii c)%N in
      String (base64Digit (n / 262144))
        (String (base64Digit (n / 4096 mod 64))
           (String (base64Digit (n / 64 mod 64))
              (String (base64Digit (n mod 64)) (btoa rest))))
  end%N.

(** ** The two regular expressions of the oracle adapter *)

(** [\w]: a letter, a digit or the underscore. *)
Definition isWord (c : ascii) : bool :=
  let n := nat_of_ascii c in
  ((48 <=? n) && (n <=? 57) || (65 <=? n) && (n <=? 90)
   || (97 <=? n) && (n <=? 122) || (n =? 95))%nat.

Fixpoint dropWord (s : string) : string :=
  match s with
  | String c rest => if isWord c then dropWord rest else s
  | EmptyString => s
  end.

Definition dropPrefix (p s : string) : option string :=
  if prefix p s
  then Some (substring (String.length p) (String.length s - String.length p) s)
  else None.

(** [s.replace(/^data:image\/\w+;base64,/, '')].  The character after
    the run of [\w] must be [;], which is not a word character, so only
    the longest run can match. *)
Definition stripDataUrl (s : string) : string :=
  match dropPrefix "data:image/" s with
  | Some t =>
      match t with
      | String c _ =>
          if isWord c then
            match dropPrefix ";base64," (dropWord t) with
            | Some payload => payload
            | None => s
            end
          else s
      | EmptyString => s
      end
  | None => s
  end.

(** [s.match(/\{[\s\S]*\}/)]: the leftmost opening brace up to the last
    closing brace after it; [None] when there is no such pair. *)
Fixpoint fromFirstBrace (s : string) : option string :=
  match s with
  | EmptyString => None
  | String c rest =>
      if (c =? "{")%char then Some rest else fromFirstBrace rest
  end.

Fixpoint throughLastBrace (s : string) : option string :=
  match s with
  | EmptyString => None
  | String c rest =>
      match throughLastBrace rest with
      | Some p => Some (String c p)
      | None => if (c =? "}")%char then Some (String c "") else None
      end
  end.

Definition matchBraces (s : string) : option string :=
  match fromFirstBrace s with
  | Some rest =>
      match throughLastBrace rest with
      | Some body => Some (String "{" body)
      | None => None
      end
  | None => None
  end.

(** ** Exceptions

    What a [throw] carries: an [Error] object with its message, or any
    other value. *)
Inductive exn : Set :=
| Error (message : string)
| Thrown.

(** The result of running code that may throw. *)
Inductive res (A : Type) : Type :=
| Ok (a : A)
| Throw (e : exn).
Arguments Ok {A} a.
Arguments Throw {A} e.

(** ** Parsed JSON, as [JSON.parse] returns it *)
#[warnings="-register-all"]
Inductive value : Type :=
| JNull
| JBool (b : bool)
| JNumber (n : float)
| JString (s : string)
| JArray (items : list value)
| JObject (props : list (string * value)).

(** [v.key]: reading a property of [null] throws; a missing property, and
    any property of a non-object, is [undefined]. *)
Definition getProp (v : value) (key : string) : res (option value) :=
  match v with
  | JNull => Throw (Error "Cannot read properties of null")
  | JObject props =>
      Ok (option_map snd
            (find (fun kv => (fst kv =? key)%string) (rev props)))
  | _ => Ok None
  end.

(** [v || d]: [undefined], [null], [false], [0], [NaN] and the empty
    string are falsy. *)
Definition truthy (v : value) : bool :=
  match v with
  | JNull => false
  | JBool b => b
  | JNumber n => negb (PrimFloat.eqb n 0) && PrimFloat.eqb n n
  | JString s => negb (s =? "")%string
  | JArray _ | JObject _ => true
  end.

Definition orDefault (v : option value) (d : value) : value :=
  match v with
  | Some x => if truthy x then x else d
  | None => d
  end.

End JS.

(* ===================================================================== *)
(** * Data model ([src/types/index.ts])                                  *)
(* ===================================================================== *)

Module BoundingBox.
Record t : Set := mk
  { x : float; y : float; width : float; height : float }.
End BoundingBox.

Module UIElement.
Record t : Set := mk
  { id : string;
    tag : string;
    text : string;
    boundingBox : option BoundingBox.t;
    selector : option string;
    clickable : option bool;
    inputable : option bool }.
End UIElement.

Module ActionType.
Inductive t : Set := click | type | select | wait | navigate | scroll.

Definition show (k : t) : string :=
  match k with
  | click => "click" | type => "type" | select => "select"
  | wait => "wait" | navigate => "navigate" | scroll => "scroll"
  end.
End ActionType.

Module ActionStatus.
Inductive t : Set :=
  pending | analyzing | ready | executing | completed | failed.

Definition show (s : t) : string :=
  match s with
  | pending => "pending" | analyzing => "analyzing" | ready => "ready"
  | executing => "executing" | completed => "completed"
  | failed => "failed"
  end.

(** The two statuses a finished step can have. *)
Definition terminal (s : t) : bool :=
  match s with completed | failed => true | _ => false end.
End ActionStatus.

Module Action.
Record t : Set := mk
  { id : string;
    type : ActionType.t;
    target : option UIElement.t;
    value : option string;
    description : string;
    order : Z;
    status : ActionStatus.t;
    reason : option string }.
End Action.

Module LogStatus.
Inductive t : Set := success | error | info.

Definition show (s : t) : string :=
  match s with
  | success => "success" | error => "error" | info => "info"
  end.

(** [s !== 'error']. *)
Definition notError (s : t) : bool :=
  match s with error => false | _ => true end.
End LogStatus.

Module ExecutionLog.
Record t : Set := mk
  { timestamp : string;
    action : string;
    status : LogStatus.t;
    details : option string }.
End ExecutionLog.

Module ArtifactType.
Inductive t : Set := screenshot | playwright_script | run_log | summary.
End ArtifactType.

Module Artifact.
Record t : Set := mk
  { type : ArtifactType.t;
    content : string;
    filename : option string }.
End Artifact.

Module AgentStatus.
Inductive t : Set :=
  idle | listening | analyzing | planning | executing | completed | error.
End AgentStatus.

Module AgentState.
Record t : Set := mk
  { status : AgentStatus.t;
    goal : option string;
    actions : list Action.t;
    logs : list ExecutionLog.t;
    artifacts : list Artifact.t;
    currentStep : option nat;
    error : option string }.
End AgentState.

(* ===================================================================== *)
(** * Effects: a world threaded through the calls, and exceptions        *)
(* ===================================================================== *)

Module Eff.

Import JS.

(** A computation over a world [W] that returns an [A] or throws. *)
Definition M (W A : Type) : Type := W -> res A * W.

Definition ret {W A : Type} (a : A) : M W A := fun w => (Ok a, w).

Definition bind {W A B : Type} (m : M W A) (k : A -> M W B) : M W B :=
  fun w =>
    match m w with
    | (Ok a, w') => k a w'
    | (Throw e, w') => (Throw e, w')
    end.

Definition throw {W A : Type} (e : exn) : M W A := fun w => (Throw e, w).

(** [try { body } catch (e) { handler e }]. *)
Definition tryCatch {W A : Type} (body : M W A) (handler : exn -> M W A)
  : M W A :=
  fun w =>
    match body w with
    | (Ok a, w') => (Ok a, w')
    | (Throw e, w') => handler e w'
    end.

Definition get {W : Type} : M W W := fun w => (Ok w, w).

Definition modify {W : Type} (f : W -> W) : M W unit :=
  fun w => (Ok tt, f w).

Definition lift {W A : Type} (r : res A) : M W A := fun w => (r, w).

End Eff.

Declare Scope eff_scope.
Delimit Scope eff_scope with eff.
Notation "x <- c ;; k" := (Eff.bind c (fun x => k))
  (at level 61, c at next level, right associativity) : eff_scope.
Notation "c ;;; k" := (Eff.bind c (fun _ => k))
  (at level 61, right associativity) : eff_scope.

(* ===================================================================== *)
(** * Goal classifier ([generateActionsFromGoal], [src/App.tsx])         *)
(* ===================================================================== *)

Module App.

Import JS.

(** [actions.push(a)]. *)
Definition push {A : Type} (xs : list A) (a : A) : list A := xs ++ [a].

Definition generateActionsFromGoal (goal : string) : list Action.t :=
  let goalLower := toLowerCase goal in
  let actions : list Action.t := [] in
  let actions :=
    if includes goalLower "product" || includes goalLower "find" then
      push actions
        {| Action.id := "1";
           Action.type := ActionType.click;
           Action.description := "Click on first product under $50";
           Action.order := 1;
           Action.status := ActionStatus.pending;
           Action.value := None;
           Action.reason := None;
           Action.target := Some
             {| UIElement.id := "prod-1";
                UIElement.tag := "div";
                UIElement.text := "Product Card - $29.99";
                UIElement.boundingBox := Some (BoundingBox.mk 10 20 20 15);
                UIElement.selector := None;
                UIElement.clickable := None;
                UIElement.inputable := None |} |}
    else actions in
  let actions :=
    if includes goalLower "cart" || includes goalLower "add" then
      push actions
        {| Action.id := "2";
           Action.type := ActionType.click;
           Action.description := "Click Add to Cart button";
           Action.order := 2;
           Action.status := ActionStatus.pending;
           Action.value := None;
           Action.reason := None;
           Action.target := Some
             {| UIElement.id := "add-cart";
                UIElement.tag := "button";
                UIElement.text := "Add to Cart";
                UIElement.boundingBox := Some (BoundingBox.mk 40 60 15 5);
                UIElement.selector := None;
                UIElement.clickable := None;
                UIElement.inputable := None |} |}
    else actions in
  let actions :=
    if includes goalLower "coupon" || includes goalLower "apply" then
      push actions
        {| Action.id := "3";
           Action.type := ActionType.type;
           Action.description := "Enter coupon code";
           Action.order := 3;
           Action.status := ActionStatus.pending;
           Action.value := Some "SAVE20";
           Action.reason := None;
           Action.target := Some
             {| UIElement.id := "coupon-input";
                UIElement.tag := "input";
                UIElement.text := "Coupon code";
                UIElement.boundingBox := Some (BoundingBox.mk 30 70 20 4);
                UIElement.selector := None;
                UIElement.clickable := None;
                UIElement.inputable := None |} |}
    else actions in
  let actions :=
    if includes goalLower "checkout" || includes goalLower "guest" then
      push actions
        {| Action.id := "4";
           Action.type := ActionType.click;
           Action.description := "Proceed to checkout as guest";
           Action.order := 4;
           Action.status := ActionStatus.pending;
           Action.value := None;
           Action.reason := None;
           Action.target := Some
             {| UIElement.id := "checkout-btn";
                UIElement.tag := "button";
                UIElement.text := "Checkout";
                UIElement.boundingBox := Some (BoundingBox.mk 35 85 15 5);
                UIElement.selector := None;
                UIElement.clickable := None;
                UIElement.inputable := None |} |}
    else actions in
  actions.

(** [xs.map((a, idx) => f idx a)]. *)
Fixpoint mapiFrom {A B : Type} (start : nat) (f : nat -> A -> B)
  (xs : list A) : list B :=
  match xs with
  | [] => []
  | a :: rest => f start a :: mapiFrom (S start) f rest
  end.

Definition mapi {A B : Type} (f : nat -> A -> B) (xs : list A) : list B :=
  mapiFrom 0 f xs.

(** ** The world of the component

    Its React state, every state it has been given so far (oldest first),
    the clock and the random number generator.  The [k]-th [new Date()]
    reads [clock k], the [k]-th [Math.random()] returns [random k].  A
    state update runs its updater on the latest state; updates take effect
    in the order of the [setAgentState] calls. *)
Record World : Type := mkWorld
  { agentState : AgentState.t;
    history : list AgentState.t;
    clock : nat -> Z;
    clockReads : nat;
    random : nat -> float;
    randomDraws : nat }.

Import Eff.
Local Open Scope eff_scope.

Definition newDate : M World Z :=
  fun w =>
    (Ok (clock w (clockReads w)),
     mkWorld (agentState w) (history w) (clock w) (S (clockReads w))
       (random w) (randomDraws w)).

Definition mathRandom : M World float :=
  fun w =>
    (Ok (random w (randomDraws w)),
     mkWorld (agentState w) (history w) (clock w) (clockReads w)
       (random w) (S (randomDraws w))).

Definition setAgentState (f : AgentState.t -> AgentState.t)
  : M World unit :=
  fun w =>
    let next := f (agentState w) in
    (Ok tt,
     mkWorld next (history w ++ [next]) (clock w) (clockReads w)
       (random w) (randomDraws w)).

(** ** Artifact generator

    [renderSummary] is the template of [generateSummary], with the text
    that [new Date().toISOString()] produced as an argument. *)
Definition renderSummary (generated : string) (goal : string)
  (actions : list Action.t) : string :=
  lines
    [ "# Execution Summary";
      "";
      "**Goal**: " ++ goal;
      "";
      "**Actions Executed**: " ++ showNat (List.length actions);
      join nl
        (mapi (fun i a =>
                 showNat (i + 1) ++ ". " ++ ActionType.show (Action.type a)
                 ++ ": " ++ Action.description a ++ " - "
                 ++ ActionStatus.show (Action.status a))
              actions);
      "";
      "**Why It Worked**:";
      "- Visual grounding: Each action mapped to actual UI elements";
      "- Bounding boxes validated before execution";
      "- Step-by-step execution with real-time feedback";
      "";
      "**Generated**: " ++ generated;
      "" ].

Definition generateSummary (goal : string) (actions : list Action.t)
  : M World string :=
  now <- newDate ;;
  ret (renderSummary (toISOString now) goal actions).

(** [a.target?.selector]. *)
Definition targetSelector (a : Action.t) : option string :=
  match Action.target a with
  | Some el => UIElement.selector el
  | None => None
  end.

Definition generatePlaywrightScript (actions : list Action.t) : string :=
  lines
    [ "import { test, expect } from '@playwright/test';";
      "";
      "test('Vision-to-Workflow Demo', async ({ page }) => {";
      "  // Navigate to demo site";
      "  await page.goto('https://demo.playwright.dev/todomvc');";
      "  ";
      "  " ++
      join ""
        (map (fun a =>
                match Action.type a with
                | ActionType.click =>
                    lines
                      [ "// " ++ Action.description a;
                        "  await page.click('"
                          ++ orElse (targetSelector a) "#element" ++ "');";
                        "" ]
                | ActionType.type =>
                    lines
                      [ "// " ++ Action.description a;
                        "  await page.fill('"
                          ++ orElse (targetSelector a) "#input" ++ "', '"
                          ++ showOpt (Action.value a) ++ "');";
                        "" ]
                | _ => ""
                end)
             actions);
      "});";
      "" ].

(** [JSON.stringify(logs, null, 2)]: the properties of a log entry in
    the order the object literals of the sources list them; a property
    that is [undefined] is left out. *)
Definition logProps (l : ExecutionLog.t) : list string :=
  [ quote "timestamp" ++ ": " ++ quote (ExecutionLog.timestamp l);
    quote "action" ++ ": " ++ quote (ExecutionLog.action l);
    quote "status" ++ ": "
      ++ quote (LogStatus.show (ExecutionLog.status l)) ]
  ++ match ExecutionLog.details l with
     | Some d => [ quote "details" ++ ": " ++ quote d ]
     | None => []
     end.

Definition stringifyLog (l : ExecutionLog.t) : string :=
  "{" ++ nl ++ "    " ++ join ("," ++ nl ++ "    ") (logProps l)
      ++ nl ++ "  }".

Definition generateRunLog (logs : list ExecutionLog.t) : string :=
  match logs with
  | [] => "[]"
  | _ =>
      "[" ++ nl ++ "  " ++ join ("," ++ nl ++ "  ") (map stringifyLog logs)
          ++ nl ++ "]"
  end.

(** The three artifacts, as the completion callback of [handleExecute]
    builds them. *)
Definition generateArtifacts (goal : option string)
  (actions : list Action.t) (logs : list ExecutionLog.t)
  : M World (list Artifact.t) :=
  summary <- generateSummary (orElse goal "") actions ;;
  ret [ {| Artifact.type := ArtifactType.summary;
           Artifact.content := summary;
           Artifact.filename := Some "execution-summary.md" |};
        {| Artifact.type := ArtifactType.playwright_script;
           Artifact.content := generatePlaywrightScript actions;
           Artifact.filename := Some "workflow.spec.ts" |};
        {| Artifact.type := ArtifactType.run_log;
           Artifact.content := generateRunLog logs;
           Artifact.filename := Some "run-log.json" |} ].

(** ** Step executor of the UI ([handleExecute]) *)

(** [await new Promise(resolve => setTimeout(resolve, ms))]: nothing
    but time passes, which the clock accounts for. *)
Definition sleep (ms : float) : M World unit := ret tt.

(** [{ ...a, status, reason }]. *)
Definition withStatus (a : Action.t) (s : ActionStatus.t)
  (r : option string) : Action.t :=
  {| Action.id := Action.id a;
     Action.type := Action.type a;
     Action.target := Action.target a;
     Action.value := Action.value a;
     Action.description := Action.description a;
     Action.order := Action.order a;
     Action.status := s;
     Action.reason := r |}.

(** One iteration of the loop, for the action at index [i] of the [n]
    captured actions. *)
Definition executeStep (n i : nat) (action : Action.t) : M World unit :=
  setAgentState (fun prev =>
    {| AgentState.status := AgentState.status prev;
       AgentState.goal := AgentState.goal prev;
       AgentState.actions :=
         mapi (fun idx a =>
                 if (idx =? i)%nat
                 then withStatus a ActionStatus.executing (Action.reason a)
                 else a)
              (AgentState.actions prev);
       AgentState.logs := AgentState.logs prev;
       AgentState.artifacts := AgentState.artifacts prev;
       AgentState.currentStep := Some i;
       AgentState.error := AgentState.error prev |}) ;;;
  d <- mathRandom ;;
  sleep (800 + d * 700) ;;;
  r <- mathRandom ;;
  let success := PrimFloat.ltb 0x1.999999999999ap-4 r in
  now <- newDate ;;
  setAgentState (fun prev =>
    {| AgentState.status := AgentState.status prev;
       AgentState.goal := AgentState.goal prev;
       AgentState.actions :=
         mapi (fun idx a =>
                 if (idx =? i)%nat
                 then withStatus a
                        (if success then ActionStatus.completed
                         else ActionStatus.failed)
                        (Some (if success
                               then "Action completed successfully"
                               else "Element not found"))
                 else a)
              (AgentState.actions prev);
       AgentState.logs :=
         AgentState.logs prev ++
         [ {| ExecutionLog.timestamp := toISOString now;
              ExecutionLog.action :=
                ActionType.show (Action.type action) ++ ": "
                ++ Action.description action;
              ExecutionLog.status :=
                if success then LogStatus.success else LogStatus.error;
              ExecutionLog.details :=
                Some (if success then "Target element clicked"
                      else "Retrying...") |} ];
       AgentState.artifacts := AgentState.artifacts prev;
       AgentState.currentStep := AgentState.currentStep prev;
       AgentState.error := AgentState.error prev |}) ;;;
  if negb success && (i <? n - 1)%nat then sleep 500 else ret tt.

(** [for (let i = 0; i < actions.length; i++)], from index [i] on. *)
Fixpoint executeSteps (n i : nat) (actions : list Action.t)
  : M World unit :=
  match actions with
  | [] => ret tt
  | action :: rest => executeStep n i action ;;; executeSteps n (S i) rest
  end.

Definition handleExecute : M World unit :=
  (* the state the callback closed over *)
  w <- get ;;
  let captured := agentState w in
  let actions := AgentState.actions captured in
  now <- newDate ;;
  setAgentState (fun prev =>
    {| AgentState.status := AgentStatus.executing;
       AgentState.goal := AgentState.goal prev;
       AgentState.actions := AgentState.actions prev;
       AgentState.logs :=
         AgentState.logs prev ++
         [ {| ExecutionLog.timestamp := toISOString now;
              ExecutionLog.action := "Starting execution";
              ExecutionLog.status := LogStatus.info;
              ExecutionLog.details := None |} ];
       AgentState.artifacts := AgentState.artifacts prev;
       AgentState.currentStep := Some 0%nat;
       AgentState.error := AgentState.error prev |}) ;;;
  executeSteps (List.length actions) 0 actions ;;;
  (* setTimeout(..., 1000): generate the artifacts *)
  artifacts <- generateArtifacts (AgentState.goal captured) actions
                 (AgentState.logs captured) ;;
  now <- newDate ;;
  setAgentState (fun prev =>
    {| AgentState.status := AgentStatus.completed;
       AgentState.goal := AgentState.goal prev;
       AgentState.actions := AgentState.actions prev;
       AgentState.logs :=
         AgentState.logs prev ++
         [ {| ExecutionLog.timestamp := toISOString now;
              ExecutionLog.action := "Execution complete";
              ExecutionLog.status := LogStatus.success;
              ExecutionLog.details :=
                Some (showNat (List.length artifacts)
                      ++ " artifacts generated") |} ];
       AgentState.artifacts := artifacts;
       AgentState.currentStep := AgentState.currentStep prev;
       AgentState.error := AgentState.error prev |}).

End App.

(* ===================================================================== *)
(** * Oracle adapter ([analyzeScreen], [generateMockAnalysis])           *)
(* ===================================================================== *)

Module AnalysisResult.
Record t : Set := mk
  { elements : list UIElement.t;
    summary : string;
    suggestedActions : list string }.
End AnalysisResult.

Module Gemini.

Import JS Eff.
Local Open Scope eff_scope.

Definition push {A : Type} (xs : list A) (a : A) : list A := xs ++ [a].

Definition generateMockAnalysis (goal : string) : AnalysisResult.t :=
  let goalLower := toLowerCase goal in
  let elements : list UIElement.t := [] in
  let elements :=
    if includes goalLower "product" || includes goalLower "find" then
      push
        (push elements
           {| UIElement.id := "prod-1";
              UIElement.tag := "div";
              UIElement.text := "Product - Wireless Headphones - $49.99";
              UIElement.boundingBox := Some (BoundingBox.mk 5 15 25 20);
              UIElement.selector := None;
              UIElement.clickable := Some true;
              UIElement.inputable := None |})
        {| UIElement.id := "prod-2";
           UIElement.tag := "div";
           UIElement.text := "Product - USB-C Cable - $12.99";
           UIElement.boundingBox := Some (BoundingBox.mk 35 15 25 20);
           UIElement.selector := None;
           UIElement.clickable := Some true;
           UIElement.inputable := None |}
    else elements in
  let elements :=
    if includes goalLower "cart" || includes goalLower "add" then
      push elements
        {| UIElement.id := "add-cart-btn";
           UIElement.tag := "button";
           UIElement.text := "Add to Cart";
           UIElement.boundingBox := Some (BoundingBox.mk 40 55 15 5);
           UIElement.selector := None;
           UIElement.clickable := Some true;
           UIElement.inputable := None |}
    else elements in
  let elements :=
    if includes goalLower "coupon" then
      push
        (push elements
           {| UIElement.id := "coupon-input";
              UIElement.tag := "input";
              UIElement.text := "Coupon code";
              UIElement.boundingBox := Some (BoundingBox.mk 25 65 25 4);
              UIElement.selector := None;
              UIElement.clickable := None;
              UIElement.inputable := Some true |})
        {| UIElement.id := "apply-coupon-btn";
           UIElement.tag := "button";
           UIElement.text := "Apply";
           UIElement.boundingBox := Some (BoundingBox.mk 52 65 8 4);
           UIElement.selector := None;
           UIElement.clickable := Some true;
           UIElement.inputable := None |}
    else elements in
  let elements :=
    if includes goalLower "checkout" then
      push
        (push elements
           {| UIElement.id := "checkout-btn";
              UIElement.tag := "button";
              UIElement.text := "Proceed to Checkout";
              UIElement.boundingBox := Some (BoundingBox.mk 30 80 20 6);
              UIElement.selector := None;
              UIElement.clickable := Some true;
              UIElement.inputable := None |})
        {| UIElement.id := "guest-checkout";
           UIElement.tag := "button";
           UIElement.text := "Checkout as Guest";
           UIElement.boundingBox := Some (BoundingBox.mk 35 40 18 5);
           UIElement.selector := None;
           UIElement.clickable := Some true;
           UIElement.inputable := None |}
    else elements in
  (* Always add navigation *)
  let elements :=
    push elements
      {| UIElement.id := "nav-cart";
         UIElement.tag := "a";
         UIElement.text := "Cart (0)";
         UIElement.boundingBox := Some (BoundingBox.mk 80 5 10 4);
         UIElement.selector := None;
         UIElement.clickable := Some true;
         UIElement.inputable := None |} in
  {| AnalysisResult.elements := elements;
     AnalysisResult.summary :=
       "E-commerce product listing page with multiple products, shopping cart, and checkout options";
     AnalysisResult.suggestedActions :=
       [ "Click on first product under $50";
         "Click Add to Cart";
         "Enter coupon code";
         "Click Apply";
         "Proceed to checkout as guest" ] |}.

(** What [analyzeScreen] resolves to: an [AnalysisResult] built by this
    module, or the three properties read off the remote model's JSON,
    which the source passes on without checking their shape. *)
Inductive analysis : Type :=
| Typed (r : AnalysisResult.t)
| Untyped (elements summary suggestedActions : value).

(** One [model.generateContent] request: the image and the prompt. *)
Record request : Set := mkRequest { image : string; prompt : string }.

(** The environment of the adapter: the configured key, the remote
    model (it answers a request with the text of its response, or the
    call throws) and [JSON.parse] (it returns a value or throws). *)
Record Env : Type := mkEnv
  { API_KEY : string;
    generateContent : request -> res string;
    JSON_parse : string -> res value }.

(** The world of the adapter: the requests sent to the remote model and
    the lines written by [console.error], oldest first. *)
Record World : Type := mkWorld
  { requests : list request;
    console : list string }.

Definition callModel (env : Env) (rq : request) : M World string :=
  fun w =>
    (generateContent env rq, mkWorld (requests w ++ [rq]) (console w)).

Definition consoleError (msg : string) : M World unit :=
  modify (fun w => mkWorld (requests w) (console w ++ [msg])).

Definition buildPrompt (goal : string) : string :=
  lines
    [ "";
      "You are a vision-based UI automation agent. Analyze this screenshot of a web page.";
      "";
      "User's goal: " ++ dq ++ goal ++ dq;
      "";
      "Task:";
      "1. Identify all clickable/interactive elements (buttons, links, inputs, dropdowns, etc.)";
      "2. For each element, provide: tag type, visible text, and bounding box (as percentage coordinates 0-100)";
      "3. Suggest a sequence of actions to achieve the user's goal";
      "";
      "Respond in this JSON format:";
      "{";
      "  " ++ dq ++ "elements" ++ dq ++ ": [";
      "    {";
      "      " ++ dq ++ "id" ++ dq ++ ": " ++ dq ++ "unique-id" ++ dq ++ ",";
      "      " ++ dq ++ "tag" ++ dq ++ ": " ++ dq ++ "button|input|a|div|..." ++ dq ++ ",";
      "      " ++ dq ++ "text" ++ dq ++ ": " ++ dq ++ "visible text or description" ++ dq ++ ",";
      "      " ++ dq ++ "boundingBox" ++ dq ++ ": { " ++ dq ++ "x" ++ dq ++ ": 0-100, "
        ++ dq ++ "y" ++ dq ++ ": 0-100, " ++ dq ++ "width" ++ dq ++ ": 0-100, "
        ++ dq ++ "height" ++ dq ++ ": 0-100 },";
      "      " ++ dq ++ "clickable" ++ dq ++ ": true|false,";
      "      " ++ dq ++ "inputable" ++ dq ++ ": true|false";
      "    }";
      "  ],";
      "  " ++ dq ++ "summary" ++ dq ++ ": " ++ dq ++ "What the page contains in 1-2 sentences" ++ dq ++ ",";
      "  " ++ dq ++ "suggestedActions" ++ dq ++ ": [" ++ dq ++ "action 1" ++ dq ++ ", "
        ++ dq ++ "action 2" ++ dq ++ ", ...]";
      "}";
      "" ].

Definition analyzeScreen (env : Env) (imageData goal : string)
  : M World analysis :=
  if (API_KEY env =? "")%string then
    (* Return mock data if no API key *)
    ret (Typed (generateMockAnalysis goal))
  else
    tryCatch
      (let base64Image := stripDataUrl imageData in
       let prompt := buildPrompt goal in
       responseText <- callModel env (mkRequest base64Image prompt) ;;
       match matchBraces responseText with
       | Some jsonMatch =>
           parsed <- lift (JSON_parse env jsonMatch) ;;
           elements <- lift (getProp parsed "elements") ;;
           summary <- lift (getProp parsed "summary") ;;
           suggestedActions <- lift (getProp parsed "suggestedActions") ;;
           ret (Untyped (orDefault elements (JArray []))
                        (orDefault summary (JString ""))
                        (orDefault suggestedActions (JArray [])))
       | None => ret (Typed (generateMockAnalysis goal))
       end)
      (fun error =>
         consoleError "Gemini API error:" ;;;
         ret (Typed (generateMockAnalysis goal))).

End Gemini.

(* ===================================================================== *)
(** * Locator resolver and driver executor ([playwright-runner.ts])      *)
(* ===================================================================== *)

Module ExecutionResult.
Record t : Set := mk
  { success : bool;
    logs : list ExecutionLog.t;
    screenshot : option string }.
End ExecutionResult.

Module Runner.

Import JS Eff.
Local Open Scope eff_scope.

(** A call on the browser-automation driver. *)
Inductive call : Set :=
| Query (selector : string)            (* page.$(selector) *)
| Click (selector : string)            (* page.click(selector) *)
| MouseClick (x y : float)             (* page.mouse.click(x, y) *)
| Fill (selector value : string)       (* page.fill(selector, value) *)
| WaitForTimeout (ms : Z)              (* page.waitForTimeout(ms) *)
| ScrollBy                             (* page.evaluate(scrollBy(0, 300)) *)
| Screenshot.                          (* page.screenshot({type: 'png'}) *)

(** What an observer of a run sees, in order: the driver calls, and the
    two points of the loop of [executeWorkflow] where a step begins
    (where [onStep?.(i, action)] is called) and where its log entry is
    appended ([logs.push(log)]). *)
Inductive event : Set :=
| Call (c : call)
| Began (step : nat) (action : Action.t)
| Logged (step : nat) (log : ExecutionLog.t).

(** The page behind the driver.  Its answers may depend on everything
    done to it before, so each is indexed by the number of driver calls
    made so far.  [query] tells whether the selector has a match,
    [perform] whether a click, a fill, a script or a wait succeeds,
    [capture] gives the bytes of the screenshot (the [Uint8Array], one
    character per byte).  Each may throw: [page.waitForTimeout] too
    rejects when the page is closed while it waits. *)
Record Page : Type := mkPage
  { query : nat -> string -> res bool;
    perform : nat -> call -> res unit;
    capture : nat -> res string }.

(** The world of the runner: the module variable [page] ([None] is
    [null]), the events so far (oldest first), the number of driver
    calls so far, the clock, whose [k]-th reading is [clock k], and the
    number of arguments one call can take in the JavaScript engine that
    runs the module. *)
Record World : Type := mkWorld
  { page : option Page;
    trace : list event;
    calls : nat;
    clock : nat -> Z;
    clockReads : nat;
    maxArguments : nat }.

Definition emit (e : event) : M World unit :=
  modify (fun w =>
    mkWorld (page w) (trace w ++ [e]) (calls w) (clock w) (clockReads w)
      (maxArguments w)).

(** [Date.now()], and the time value of [new Date()]. *)
Definition dateNow : M World Z :=
  fun w =>
    (Ok (clock w (clockReads w)),
     mkWorld (page w) (trace w) (calls w) (clock w) (S (clockReads w))
       (maxArguments w)).

(** [await page.m(...)] for a driver method [m] that may throw. *)
Definition driver {A : Type} (c : call) (answer : Page -> nat -> res A)
  : M World A :=
  fun w =>
    match page w with
    | Some p =>
        (answer p (calls w),
         mkWorld (page w) (trace w ++ [Call c]) (S (calls w)) (clock w)
           (clockReads w) (maxArguments w))
    | None => (Throw (Error "Cannot read properties of null"), w)
    end.

(** [await page.waitForTimeout(ms)]. *)
Definition waitForTimeout (ms : Z) : M World unit :=
  driver (WaitForTimeout ms) (fun p k => perform p k (WaitForTimeout ms)).

(** [String.fromCharCode(...bytes)]: the spread passes one argument per
    byte, and a call with more arguments than the engine takes throws a
    [RangeError]; otherwise the result has the bytes as its characters. *)
Definition fromCharCode (bytes : string) : M World string :=
  w <- get ;;
  if (String.length bytes <=? maxArguments w)%nat then ret bytes
  else throw (Error "Maximum call stack size exceeded").

Definition captureScreen : M World string :=
  w <- get ;;
  match page w with
  | None => throw (Error "No page initialized")
  | Some _ =>
      screenshot <- driver Screenshot (fun p k => capture p k) ;;
      (* Convert Uint8Array to base64 *)
      chars <- fromCharCode screenshot ;;
      let base64 := btoa chars in
      ret ("data:image/png;base64," ++ base64)
  end.

(** The selector strategies of [findElement], in the order tried. *)
Definition selectorsFor (text : string) : list string :=
  [ "text=" ++ text;
    "[aria-label*=" ++ dq ++ text ++ dq ++ "]";
    "button:has-text(" ++ dq ++ text ++ dq ++ ")";
    "a:has-text(" ++ dq ++ text ++ dq ++ ")";
    "input[placeholder*=" ++ dq ++ text ++ dq ++ "]" ].

(** [for (const selector of selectors)]: a strategy that throws is
    skipped. *)
Fixpoint trySelectors (selectors : list string) : M World (option string) :=
  match selectors with
  | [] => ret None
  | selector :: rest =>
      found <- tryCatch
                 (driver (Query selector) (fun p k => query p k selector))
                 (fun _ => ret false) ;;
      if found then ret (Some selector) else trySelectors rest
  end.

(** The argument is [None] when the caller passes [undefined]
    ([action.target!] of an action without target): reading its [text]
    throws. *)
Definition findElement (element : option UIElement.t)
  : M World (option string) :=
  w <- get ;;
  match page w with
  | None => ret None
  | Some _ =>
      match element with
      | Some el => trySelectors (selectorsFor (UIElement.text el))
      | None =>
          throw (Error "Cannot read properties of undefined (reading 'text')")
      end
  end.

(** A string or [null] in a condition: [null] and the empty string are
    falsy. *)
Definition nonEmpty (s : option string) : option string :=
  match s with
  | Some t => if (t =? "")%string then None else Some t
  | None => None
  end.

(** [action.target?.selector || await findElement(action.target!)]. *)
Definition resolveSelector (action : Action.t) : M World (option string) :=
  match nonEmpty (App.targetSelector action) with
  | Some s => ret (Some s)
  | None => findElement (Action.target action)
  end.

(** [action.target?.boundingBox]. *)
Definition targetBox (action : Action.t) : option BoundingBox.t :=
  match Action.target action with
  | Some el => UIElement.boundingBox el
  | None => None
  end.

(** The point of the coordinate click, for a viewport assumed to be
    800 by 600 pixels. *)
Definition clickPoint (box : BoundingBox.t) : float * float :=
  ((BoundingBox.x box + BoundingBox.width box / 2) / 100 * 800,
   (BoundingBox.y box + BoundingBox.height box / 2) / 100 * 600)%float.

(** The [switch (action.type)] of [executeAction]. *)
Definition performAction (action : Action.t) : M World unit :=
  match Action.type action with
  | ActionType.click =>
      selector <- resolveSelector action ;;
      match nonEmpty selector with
      | Some sel => driver (Click sel) (fun p k => perform p k (Click sel))
      | None =>
          (* Fallback: click by coordinates (from bounding box) *)
          match targetBox action with
          | Some box =>
              let c := MouseClick (fst (clickPoint box))
                                  (snd (clickPoint box)) in
              driver c (fun p k => perform p k c)
          | None => ret tt
          end
      end
  | ActionType.type =>
      selector <- resolveSelector action ;;
      match nonEmpty selector, nonEmpty (Action.value action) with
      | Some sel, Some v =>
          driver (Fill sel v) (fun p k => perform p k (Fill sel v))
      | _, _ => ret tt
      end
  | ActionType.wait => waitForTimeout 1000
  | ActionType.scroll =>
      driver ScrollBy (fun p k => perform p k ScrollBy)
  | _ => ret tt
  end.

Definition executeAction (action : Action.t) : M World ExecutionLog.t :=
  w <- get ;;
  match page w with
  | None =>
      now <- dateNow ;;
      ret {| ExecutionLog.timestamp := toISOString now;
             ExecutionLog.action := Action.description action;
             ExecutionLog.status := LogStatus.error;
             ExecutionLog.details := Some "No page initialized" |}
  | Some _ =>
      startTime <- dateNow ;;
      tryCatch
        (performAction action ;;;
         finished <- dateNow ;;
         let duration := (finished - startTime)%Z in
         now <- dateNow ;;
         ret {| ExecutionLog.timestamp := toISOString now;
                ExecutionLog.action := Action.description action;
                ExecutionLog.status := LogStatus.success;
                ExecutionLog.details :=
                  Some ("Completed in " ++ showZ duration ++ "ms") |})
        (fun error =>
           now <- dateNow ;;
           ret {| ExecutionLog.timestamp := toISOString now;
                  ExecutionLog.action := Action.description action;
                  ExecutionLog.status := LogStatus.error;
                  ExecutionLog.details :=
                    Some (match error with
                          | Error message => message
                          | Thrown => "Unknown error"
                          end) |})
  end.

(** [if (log.status === 'error') await page?.waitForTimeout(500)], the
    pause after a failed step ("Continue on error or stop? For demo, we
    continue"). *)
Definition pauseAfterError (log : ExecutionLog.t) : M World unit :=
  match ExecutionLog.status log with
  | LogStatus.error =>
      w <- get ;;
      match page w with
      | Some _ => waitForTimeout 500
      | None => ret tt
      end
  | _ => ret tt
  end.

(** [for (let i = 0; i < actions.length; i++)], from index [i] on, with
    the entries logged so far. *)
Fixpoint workflowLoop (i : nat) (actions : list Action.t)
  (logs : list ExecutionLog.t) : M World (list ExecutionLog.t) :=
  match actions with
  | [] => ret logs
  | action :: rest =>
      emit (Began i action) ;;;
      log <- executeAction action ;;
      emit (Logged i log) ;;;
      let logs := (logs ++ [log])%list in
      pauseAfterError log ;;;
      workflowLoop (S i) rest logs
  end.

Definition executeWorkflow (actions : list Action.t)
  : M World ExecutionResult.t :=
  logs <- workflowLoop 0 actions [] ;;
  finalScreenshot <- tryCatch
                       (s <- captureScreen ;; ret (Some s))
                       (fun _ => ret None) ;;
  ret {| ExecutionResult.success :=
           forallb (fun l => LogStatus.notError (ExecutionLog.status l))
                   logs;
         ExecutionResult.logs := logs;
         ExecutionResult.screenshot := finalScreenshot |}.

End Runner.

(** The goal of the demo scenario. *)
Definition demoGoal : string :=
  "Find a product under $50, add to cart, apply coupon SAVE20, checkout as guest".

(* ===================================================================== *)
(** * The classifier as the specification words it                      *)
(* ===================================================================== *)

Module Spec.

Import JS.

(** The four action templates. *)
Definition mkTarget (id tag text : string) (box : BoundingBox.t)
  : UIElement.t :=
  {| UIElement.id := id; UIElement.tag := tag; UIElement.text := text;
     UIElement.boundingBox := Some box; UIElement.selector := None;
     UIElement.clickable := None; UIElement.inputable := None |}.

Definition mkAction (id : string) (type : ActionType.t)
  (description : string) (order : Z) (value : option string)
  (target : UIElement.t) : Action.t :=
  {| Action.id := id; Action.type := type; Action.target := Some target;
     Action.value := value; Action.description := description;
     Action.order := order; Action.status := ActionStatus.pending;
     Action.reason := None |}.

Definition clickProduct : Action.t :=
  mkAction "1" ActionType.click "Click on first product under $50" 1 None
    (mkTarget "prod-1" "div" "Product Card - $29.99"
       (BoundingBox.mk 10 20 20 15)).

Definition clickAddToCart : Action.t :=
  mkAction "2" ActionType.click "Click Add to Cart button" 2 None
    (mkTarget "add-cart" "button" "Add to Cart"
       (BoundingBox.mk 40 60 15 5)).

Definition typeCoupon : Action.t :=
  mkAction "3" ActionType.type "Enter coupon code" 3 (Some "SAVE20")
    (mkTarget "coupon-input" "input" "Coupon code"
       (BoundingBox.mk 30 70 20 4)).

Definition clickCheckout : Action.t :=
  mkAction "4" ActionType.click "Proceed to checkout as guest" 4 None
    (mkTarget "checkout-btn" "button" "Checkout"
       (BoundingBox.mk 35 85 15 5)).

(** The vocabulary table: the keywords of each entry and its template,
    in table order. *)
Definition vocabulary : list (list string * Action.t) :=
  [ (["product"; "find"], clickProduct);
    (["cart"; "add"], clickAddToCart);
    (["coupon"; "apply"], typeCoupon);
    (["checkout"; "guest"], clickCheckout) ].

(** Every keyword of the table. *)
Definition keywords : list string := flat_map fst vocabulary.

(** An entry is hit when the lower-cased goal contains one of its
    keywords. *)
Definition hit (goalLower : string) (entry : list string * Action.t)
  : bool :=
  existsb (includes goalLower) (fst entry).

(** "For each vocabulary hit, append one predetermined Action template
    to the output, in vocabulary-table order." *)
Definition classify (goal : string) : list Action.t :=
  map snd (filter (hit (toLowerCase goal)) vocabulary).

(** [xs] is [ys] with some elements left out, the others in the same
    order. *)
Inductive Subseq {A : Type} : list A -> list A -> Prop :=
| Subseq_nil : Subseq [] []
| Subseq_skip : forall x xs ys, Subseq xs ys -> Subseq xs (x :: ys)
| Subseq_take : forall x xs ys, Subseq xs ys -> Subseq (x :: xs) (x :: ys).

(** The fallback analysis matches a plan exactly: it suggests the
    actions of the plan, one suggestion per action, in the same order. *)
Definition matchesPlan (r : AnalysisResult.t) (plan : list Action.t)
  : Prop :=
  AnalysisResult.suggestedActions r = map Action.description plan.

(** The navigation link that [generateMockAnalysis] always appends. *)
Definition navCart : UIElement.t :=
  {| UIElement.id := "nav-cart";
     UIElement.tag := "a";
     UIElement.text := "Cart (0)";
     UIElement.boundingBox := Some (BoundingBox.mk 80 5 10 4);
     UIElement.selector := None;
     UIElement.clickable := Some true;
     UIElement.inputable := None |}.

(** The request [analyzeScreen] sends for a screenshot and a goal. *)
Definition requestFor (imageData goal : string) : Gemini.request :=
  Gemini.mkRequest (stripDataUrl imageData) (Gemini.buildPrompt goal).

(** The ways the remote analysis fails: no key is configured, the remote
    call throws, or the text of the response has no parseable JSON block
    (no brace-delimited block at all, or one that [JSON.parse] rejects). *)
Definition noParseableBlock (env : Gemini.Env) (text : string) : Prop :=
  match matchBraces text with
  | None => True
  | Some block => exists e, Gemini.JSON_parse env block = Throw e
  end.

Definition remoteFailure (env : Gemini.Env) (imageData goal : string)
  : Prop :=
  Gemini.API_KEY env = ""
  \/ (exists e,
        Gemini.generateContent env (requestFor imageData goal) = Throw e)
  \/ (exists text,
        Gemini.generateContent env (requestFor imageData goal) = Ok text
        /\ noParseableBlock env text).

(** The text of the summary up to the timestamp of its last line. *)
Definition summaryHead (goal : string) (actions : list Action.t) : string :=
  lines
    [ "# Execution Summary";
      "";
      "**Goal**: " ++ goal;
      "";
      "**Actions Executed**: " ++ showNat (List.length actions);
      join nl
        (App.mapi (fun i a =>
                 showNat (i + 1) ++ ". " ++ ActionType.show (Action.type a)
                 ++ ": " ++ Action.description a ++ " - "
                 ++ ActionStatus.show (Action.status a))
              actions);
      "";
      "**Why It Worked**:";
      "- Visual grounding: Each action mapped to actual UI elements";
      "- Bounding boxes validated before execution";
      "- Step-by-step execution with real-time feedback";
      "";
      "**Generated**: " ].

(** A world of the component whose clock reads [start], [start + 1],
    [start + 2], ... milliseconds. *)
Definition tickingWorld (start : Z) : App.World :=
  App.mkWorld
    (AgentState.mk AgentStatus.idle None [] [] [] None None) []
    (fun k => (start + Z.of_nat k)%Z) 0 (fun _ => 0.5%float) 0.

(** The step boundaries among the events of a run. *)
Definition isMarker (e : Runner.event) : bool :=
  match e with
  | Runner.Call _ => false
  | Runner.Began _ _ | Runner.Logged _ _ => true
  end.

Definition markers (t : list Runner.event) : list Runner.event :=
  filter isMarker t.

(** The boundaries of a strictly sequential run over [actions], numbered
    from [i], that logged [logs]: step [i] begins, its entry is logged,
    step [i + 1] begins, its entry is logged, and so on. *)
Fixpoint sequential (i : nat) (actions : list Action.t)
  (logs : list ExecutionLog.t) : list Runner.event :=
  match actions, logs with
  | a :: actions', l :: logs' =>
      Runner.Began i a :: Runner.Logged i l :: sequential (S i) actions' logs'
  | _, _ => []
  end.

(** The steps begun, in the order in which they begin. *)
Fixpoint begun (t : list Runner.event) : list Action.t :=
  match t with
  | Runner.Began _ a :: rest => a :: begun rest
  | _ :: rest => begun rest
  | [] => []
  end.

(** [w'] is [w] after some driver calls and clock readings: same page,
    same clock, and no step boundary crossed. *)
Definition extends (w w' : Runner.World) : Prop :=
  Runner.page w' = Runner.page w
  /\ Runner.clock w' = Runner.clock w
  /\ exists cs, Runner.trace w' = (Runner.trace w ++ map Runner.Call cs)%list.

(** A computation that only calls the driver and reads the clock. *)
Definition quiet {A : Type} (m : Eff.M Runner.World A) : Prop :=
  forall w, extends w (snd (m w)).

(** A click whose target has no selector and a bounding box of width and
    height 0, and a page on which no selector matches and every operation
    succeeds. *)
Definition degenerateTarget : UIElement.t :=
  mkTarget "dot" "div" "Dot" (BoundingBox.mk 10 20 0 0).

Definition degenerateClick : Action.t :=
  mkAction "1" ActionType.click "Click the dot" 1 None degenerateTarget.

(** The eight bytes every PNG file starts with. *)
Definition pngSignature : string :=
  String (ascii_of_nat 137)
    ("PNG" ++ String (ascii_of_nat 13) (String (ascii_of_nat 10)
       (String (ascii_of_nat 26) (String (ascii_of_nat 10) "")))).

Definition blankPage : Runner.Page :=
  Runner.mkPage (fun _ _ => Ok false) (fun _ _ => Ok tt)
    (fun _ => Ok pngSignature).

(** A page that has a match for the selector [body] and for no other, and
    on which every operation succeeds. *)
Definition bodyPage : Runner.Page :=
  Runner.mkPage (fun _ sel => Ok (sel =? "body")%string) (fun _ _ => Ok tt)
    (fun _ => Ok pngSignature).

(** A page on which no selector matches and the first click, the sixth
    driver call, is rejected; its waits resolve. *)
Definition flakyPage : Runner.Page :=
  Runner.mkPage (fun _ _ => Ok false)
    (fun k c =>
       match c with
       | Runner.WaitForTimeout _ => Ok tt
       | _ => if (k =? 5)%nat then Throw (Error "Target closed") else Ok tt
       end)
    (fun _ => Ok pngSignature).

(** A page that has been closed: every call on it is rejected, the wait
    too. *)
Definition closedPage : Runner.Page :=
  let closed := Error "Target page, context or browser has been closed" in
  Runner.mkPage (fun _ _ => Throw closed) (fun _ _ => Throw closed)
    (fun _ => Throw closed).

(** The pause after a failed step resolves, whenever it is made. *)
Definition pausesResolve (w : Runner.World) : Prop :=
  forall p, Runner.page w = Some p ->
  forall k, Runner.perform p k (Runner.WaitForTimeout 500) = Ok tt.

(** A world of the runner with the given page, no event yet, a clock
    that reads 0, 1, 2, ... milliseconds, and an engine whose calls take
    up to 65536 arguments. *)
Definition freshWorld (page : option Runner.Page) : Runner.World :=
  Runner.mkWorld page [] 0 (fun k => Z.of_nat k) 0 (2 ^ 16).

(** A step not yet begun, and a step that is completed or failed. *)
Definition isPending (a : Action.t) : Prop :=
  Action.status a = ActionStatus.pending.

Definition isTerminal (a : Action.t) : Prop :=
  ActionStatus.terminal (Action.status a) = true.

(** A plan whose steps run one at a time, in list order: first the
    finished steps, then at most one step that is executing, then the
    steps not yet begun. *)
Definition oneAtATime (actions : list Action.t) : Prop :=
  exists finished rest,
    actions = (finished ++ rest)%list
    /\ Forall isTerminal finished
    /\ (Forall isPending rest
        \/ exists current rest',
             rest = current :: rest'
             /\ Action.status current = ActionStatus.executing
             /\ Forall isPending rest').

(** A world of the component that holds the given plan, ready to run:
    the clock reads [start], [start + 1], ... milliseconds and every random
    draw is 0.5. *)
Definition planningWorld (start : Z) (plan : list Action.t) : App.World :=
  App.mkWorld
    (AgentState.mk AgentStatus.planning (Some "goal") plan [] [] None None)
    [] (fun k => (start + Z.of_nat k)%Z) 0 (fun _ => 0.5%float) 0.

(** A well-formed plan whose [order] fields do not follow the list. *)
Definition swappedPlan : list Action.t := [clickAddToCart; clickProduct].

End Spec.

(* ===================================================================== *)
(** * Auxiliary definitions for the further properties                   *)
(* ===================================================================== *)

Module Facts.

Import JS.

(** The world of the runner after the page was asked for each of the
    selectors, in order. *)
Definition queried (w : Runner.World) (selectors : list string)
  : Runner.World :=
  Runner.mkWorld (Runner.page w)
    (Runner.trace w ++ map Runner.Call (map Runner.Query selectors))
    (Runner.calls w + List.length selectors)
    (Runner.clock w) (Runner.clockReads w) (Runner.maxArguments w).

(** The page has no match for the [i]-th of the selectors when it is asked
    for them in order, starting at driver call [k]: it answers no, or the
    query throws. *)
Definition noneMatches (p : Runner.Page) (k : nat) (selectors : list string)
  : Prop :=
  forall i s, nth_error selectors i = Some s ->
              Runner.query p (k + i) s <> Ok true.

(** The world of the runner after one more reading of the clock. *)
Definition tick (w : Runner.World) : Runner.World :=
  Runner.mkWorld (Runner.page w) (Runner.trace w) (Runner.calls w)
    (Runner.clock w) (S (Runner.clockReads w)) (Runner.maxArguments w).

(** The world of the runner after one more driver call. *)
Definition called (w : Runner.World) (c : Runner.call) : Runner.World :=
  Runner.mkWorld (Runner.page w) (Runner.trace w ++ [Runner.Call c])
    (S (Runner.calls w)) (Runner.clock w) (Runner.clockReads w)
    (Runner.maxArguments w).

(** The log entry [executeAction] returns for an action whose operation
    started at clock reading [started] and ended, with [outcome], in the
    world [w]. *)
Definition logFor (action : Action.t) (started : Z) (outcome : res unit)
  (w : Runner.World) : ExecutionLog.t :=
  match outcome with
  | Ok _ =>
      {| ExecutionLog.timestamp :=
           toISOString (Runner.clock w (S (Runner.clockReads w)));
         ExecutionLog.action := Action.description action;
         ExecutionLog.status := LogStatus.success;
         ExecutionLog.details :=
           Some ("Completed in "
                 ++ showZ (Runner.clock w (Runner.clockReads w) - started)
                 ++ "ms") |}
  | Throw e =>
      {| ExecutionLog.timestamp :=
           toISOString (Runner.clock w (Runner.clockReads w));
         ExecutionLog.action := Action.description action;
         ExecutionLog.status := LogStatus.error;
         ExecutionLog.details :=
           Some (match e with
                 | Error message => message
                 | Thrown => "Unknown error"
                 end) |}
  end.

(** The entry logged for an action when no page is open. *)
Definition noPageLog (action : Action.t) (now : Z) : ExecutionLog.t :=
  {| ExecutionLog.timestamp := toISOString now;
     ExecutionLog.action := Action.description action;
     ExecutionLog.status := LogStatus.error;
     ExecutionLog.details := Some "No page initialized" |}.

(** An action for which [executeAction] has nothing to do on the page: a
    'select' or a 'navigate', which its [switch] has no case for, or a
    'type' whose target carries a selector but whose value is missing or
    empty. *)
Definition inert (action : Action.t) : Prop :=
  Action.type action = ActionType.select
  \/ Action.type action = ActionType.navigate
  \/ (Action.type action = ActionType.type
      /\ Runner.nonEmpty (App.targetSelector action) <> None
      /\ Runner.nonEmpty (Action.value action) = None).

(** A target that cannot be acted on: it has no selector of its own, the
    page has no match for any selector strategy, and, for a click, it has
    no bounding box either. *)
Definition unreachable (action : Action.t) (el : UIElement.t)
  (p : Runner.Page) (k : nat) : Prop :=
  Action.target action = Some el
  /\ Runner.nonEmpty (UIElement.selector el) = None
  /\ noneMatches p k (Runner.selectorsFor (UIElement.text el))
  /\ ((Action.type action = ActionType.click
       /\ UIElement.boundingBox el = None)
      \/ Action.type action = ActionType.type).

End Facts.

(* ===================================================================== *)
(** * Browser life cycle ([initBrowser], [navigateTo], [closeBrowser],   *)
(**   [playwright-runner.ts])                                            *)
(* ===================================================================== *)

Module Lifecycle.

Import JS Eff.
Local Open Scope eff_scope.

(** A launched browser: what [browser.newPage()] gives when it is called
    for the [k]-th page, how [page.goto(url)] ends on that page, and how
    [browser.close()] ends.  Each may throw. *)
Record Browser : Type := mkBrowser
  { newPage : nat -> res Runner.Page;
    goto : nat -> string -> res unit;
    close : res unit }.

(** The world of the module: its variable [browser] ([None] is [null]),
    the world of the runner, which holds its variable [page], what the
    [k]-th [chromium.launch] gives, and the numbers of launches and of
    pages opened so far. *)
Record World : Type := mkWorld
  { browser : option Browser;
    runner : Runner.World;
    launch : nat -> res Browser;
    launches : nat;
    opened : nat }.

(** [page = v]. *)
Definition setPage (v : option Runner.Page) : M World unit :=
  modify (fun w =>
    mkWorld (browser w)
      (Runner.mkWorld v (Runner.trace (runner w)) (Runner.calls (runner w))
         (Runner.clock (runner w)) (Runner.clockReads (runner w))
         (Runner.maxArguments (runner w)))
      (launch w) (launches w) (opened w)).

(** [browser = v]. *)
Definition setBrowser (v : option Browser) : M World unit :=
  modify (fun w =>
    mkWorld v (runner w) (launch w) (launches w) (opened w)).

(** [await chromium.launch({ headless: true, args: ['--no-sandbox'] })]. *)
Definition chromiumLaunch : M World Browser :=
  fun w =>
    (launch w (launches w),
     mkWorld (browser w) (runner w) (launch w) (S (launches w)) (opened w)).

(** [await browser!.newPage()]. *)
Definition browserNewPage : M World Runner.Page :=
  fun w =>
    match browser w with
    | Some b =>
        (newPage b (opened w),
         mkWorld (browser w) (runner w) (launch w) (launches w)
           (S (opened w)))
    | None => (Throw (Error "Cannot read properties of null"), w)
    end.

(** [await page.goto(url)], on the page opened last. *)
Definition pageGoto (url : string) : M World unit :=
  fun w =>
    match browser w with
    | Some b => (goto b (opened w - 1) url, w)
    | None => (Throw (Error "Cannot read properties of null"), w)
    end.

Definition initBrowser : M World unit :=
  w <- get ;;
  match browser w with
  | None => b <- chromiumLaunch ;; setBrowser (Some b)
  | Some _ => ret tt
  end.

Definition navigateTo (url : string) : M World unit :=
  w <- get ;;
  (match browser w with
   | None => initBrowser
   | Some _ => ret tt
   end) ;;;
  p <- browserNewPage ;;
  setPage (Some p) ;;;
  pageGoto url.

Definition closeBrowser : M World unit :=
  w <- get ;;
  match browser w with
  | Some b =>
      lift (close b) ;;;
      setBrowser None ;;;
      setPage None
  | None => ret tt
  end.

(** A function of the runner, run in the world of the module. *)
Definition run {A : Type} (m : M Runner.World A) : M World A :=
  fun w =>
    let (r, rw) := m (runner w) in
    (r, mkWorld (browser w) rw (launch w) (launches w) (opened w)).

(** [navigateTo] for each of the addresses in turn, as long as none
    throws. *)
Fixpoint navigateAll (urls : list string) : M World unit :=
  match urls with
  | [] => ret tt
  | url :: rest => navigateTo url ;;; navigateAll rest
  end.

(** A page is open only while a browser is held. *)
Definition consistent (w : World) : Prop :=
  Runner.page (runner w) <> None -> browser w <> None.

(** The module as it is loaded: no browser, no page; every launch gives
    the browser [b]. *)
Definition loaded (b : Browser) : World :=
  mkWorld None (Spec.freshWorld None) (fun _ => Ok b) 0 0.

(** A browser that opens [Spec.blankPage] every time and on which every
    navigation and the closing succeed. *)
Definition steadyBrowser : Browser :=
  mkBrowser (fun _ => Ok Spec.blankPage) (fun _ _ => Ok tt) (Ok tt).

(** A browser that opens pages but on which every navigation fails. *)
Definition offlineBrowser : Browser :=
  mkBrowser (fun _ => Ok Spec.blankPage)
    (fun _ _ => Throw (Error "net::ERR_INTERNET_DISCONNECTED")) (Ok tt).

End Lifecycle.

(* ===================================================================== *)
(** * The other handlers of the component ([src/App.tsx])                *)
(* ===================================================================== *)

Module Handlers.

Import JS Eff App.
Local Open Scope eff_scope.

Definition initialState : AgentState.t :=
  {| AgentState.status := AgentStatus.idle;
     AgentState.goal := Some "";
     AgentState.actions := [];
     AgentState.logs := [];
     AgentState.artifacts := [];
     AgentState.currentStep := None;
     AgentState.error := None |}.

(** The three updates of [handleGoalSubmit]: at once, after 1500 ms and
    after 3000 ms. *)
Definition handleGoalSubmit (goal : string) : M World unit :=
  now <- newDate ;;
  setAgentState (fun prev =>
    {| AgentState.status := AgentStatus.analyzing;
       AgentState.goal := Some goal;
       AgentState.actions := AgentState.actions prev;
       AgentState.logs :=
         AgentState.logs prev ++
         [ {| ExecutionLog.timestamp := toISOString now;
              ExecutionLog.action := "Goal received";
              ExecutionLog.status := LogStatus.info;
              ExecutionLog.details := Some goal |} ];
       AgentState.artifacts := AgentState.artifacts prev;
       AgentState.currentStep := AgentState.currentStep prev;
       AgentState.error := AgentState.error prev |}) ;;;
  (* Simulate analysis phase *)
  now <- newDate ;;
  setAgentState (fun prev =>
    {| AgentState.status := AgentStatus.planning;
       AgentState.goal := AgentState.goal prev;
       AgentState.actions := AgentState.actions prev;
       AgentState.logs :=
         AgentState.logs prev ++
         [ {| ExecutionLog.timestamp := toISOString now;
              ExecutionLog.action := "Analyzing screen";
              ExecutionLog.status := LogStatus.info;
              ExecutionLog.details :=
                Some "Identifying interactive elements..." |} ];
       AgentState.artifacts := AgentState.artifacts prev;
       AgentState.currentStep := AgentState.currentStep prev;
       AgentState.error := AgentState.error prev |}) ;;;
  (* Generate mock actions based on goal *)
  let actions := generateActionsFromGoal goal in
  now <- newDate ;;
  setAgentState (fun prev =>
    {| AgentState.status := AgentStatus.planning;
       AgentState.goal := AgentState.goal prev;
       AgentState.actions := actions;
       AgentState.logs :=
         AgentState.logs prev ++
         [ {| ExecutionLog.timestamp := toISOString now;
              ExecutionLog.action := "Plan generated";
              ExecutionLog.status := LogStatus.success;
              ExecutionLog.details :=
                Some (showNat (List.length actions)
                      ++ " actions proposed") |} ];
       AgentState.artifacts := AgentState.artifacts prev;
       AgentState.currentStep := AgentState.currentStep prev;
       AgentState.error := AgentState.error prev |}).

Definition handleReset : M World unit :=
  setAgentState (fun _ => initialState).

(** Whether the step at index [j] of the run that [handleExecute] starts
    in the world [w] succeeds: each step draws two random numbers, the
    delay and the outcome, and succeeds when the second exceeds 0.1. *)
Definition stepSucceeds (w : World) (j : nat) : bool :=
  PrimFloat.ltb 0x1.999999999999ap-4
    (random w (randomDraws w + 2 * j + 1)).

(** The action at index [j] as that run leaves it, and its log entry; the
    run reads the clock once before the loop and once per step. *)
Definition finishedAction (w : World) (j : nat) (a : Action.t) : Action.t :=
  withStatus a
    (if stepSucceeds w j then ActionStatus.completed
     else ActionStatus.failed)
    (Some (if stepSucceeds w j then "Action completed successfully"
           else "Element not found")).

Definition stepEntry (w : World) (j : nat) (a : Action.t) : ExecutionLog.t :=
  {| ExecutionLog.timestamp :=
       toISOString (clock w (clockReads w + 1 + j));
     ExecutionLog.action :=
       ActionType.show (Action.type a) ++ ": " ++ Action.description a;
     ExecutionLog.status :=
       if stepSucceeds w j then LogStatus.success else LogStatus.error;
     ExecutionLog.details :=
       Some (if stepSucceeds w j then "Target element clicked"
             else "Retrying...") |}.

(** The state in which the run that [handleExecute] starts in the world
    [w] ends.  The artifacts are made from the goal, the actions and the
    log that the callback closed over, those of the state in [w]; the run
    reads the clock once more for the summary and once more for the last
    log entry. *)
Definition executed (w : World) : AgentState.t :=
  let st := agentState w in
  let n := List.length (AgentState.actions st) in
  {| AgentState.status := AgentStatus.completed;
     AgentState.goal := AgentState.goal st;
     AgentState.actions := mapi (finishedAction w) (AgentState.actions st);
     AgentState.logs :=
       AgentState.logs st
       ++ [ {| ExecutionLog.timestamp := toISOString (clock w (clockReads w));
               ExecutionLog.action := "Starting execution";
               ExecutionLog.status := LogStatus.info;
               ExecutionLog.details := None |} ]
       ++ mapi (stepEntry w) (AgentState.actions st)
       ++ [ {| ExecutionLog.timestamp :=
                 toISOString (clock w (clockReads w + n + 2));
               ExecutionLog.action := "Execution complete";
               ExecutionLog.status := LogStatus.success;
               ExecutionLog.details := Some "3 artifacts generated" |} ];
     AgentState.artifacts :=
       [ {| Artifact.type := ArtifactType.summary;
            Artifact.content :=
              renderSummary (toISOString (clock w (clockReads w + n + 1)))
                (orElse (AgentState.goal st) "") (AgentState.actions st);
            Artifact.filename := Some "execution-summary.md" |};
         {| Artifact.type := ArtifactType.playwright_script;
            Artifact.content :=
              generatePlaywrightScript (AgentState.actions st);
            Artifact.filename := Some "workflow.spec.ts" |};
         {| Artifact.type := ArtifactType.run_log;
            Artifact.content := generateRunLog (AgentState.logs st);
            Artifact.filename := Some "run-log.json" |} ];
     AgentState.currentStep := Some (n - 1)%nat;
     AgentState.error := AgentState.error st |}.

(** The states a run sets while it works on [len] steps from index [i]
    on, in a plan of [n] actions: each names a current step among those
    and has [n] actions. *)
Definition duringSteps (i len n : nat) (states : list AgentState.t) : Prop :=
  Forall (fun s => exists j,
              AgentState.currentStep s = Some j
              /\ (i <= j < i + len)%nat
              /\ List.length (AgentState.actions s) = n) states.

End Handlers.

(* ===================================================================== *)
(** * The view of the agent ([AgentView])                                *)
(* ===================================================================== *)

Module AgentView.

Import JS.

(** [state.currentStep ?? 0]. *)
Definition stepOrZero (state : AgentState.t) : nat :=
  match AgentState.currentStep state with Some i => i | None => 0 end.

Definition getStatusText (state : AgentState.t) : string :=
  match AgentState.status state with
  | AgentStatus.idle => "Ready for your goal"
  | AgentStatus.listening => "Listening..."
  | AgentStatus.analyzing => "Analyzing screen..."
  | AgentStatus.planning => "Generating action plan..."
  | AgentStatus.executing =>
      "Executing step " ++ showNat (stepOrZero state + 1) ++ "/"
      ++ showNat (List.length (AgentState.actions state)) ++ "..."
  | AgentStatus.completed => "Execution complete!"
  | AgentStatus.error => orElse (AgentState.error state) "Something went wrong"
  end.

(** The goal shown in the header, when the goal is not empty: at most its
    first 40 characters.  [goal.length] and [goal.slice(0, 40)] count
    UTF-16 code units, which are the characters of the [string]: an
    accented letter such as U+00E9 counts once. *)
Definition goalLabel (state : AgentState.t) : option string :=
  match AgentState.goal state with
  | Some goal =>
      if (goal =? "")%string then None
      else Some ("Goal: "
                 ++ (if (40 <? String.length goal)%nat
                     then substring 0 40 goal ++ "..."
                     else goal))
  | None => None
  end.

(** The UTF-16 code units of the JavaScript string a [string] stands
    for. *)
Definition unitsOf (s : string) : list N :=
  map N_of_ascii (list_ascii_of_string s).

(** [goal.length > 40 ? goal.slice(0, 40) + '...' : goal], the expression
    of the header, on the code units of any JavaScript string, whatever
    their values. *)
Definition shownGoal (goal : list N) : list N :=
  if (40 <? List.length goal)%nat
  then (firstn 40 goal ++ unitsOf "...")%list
  else goal.

(** Whether the form for the goal is rendered, and whether the Execute and
    Reset buttons are. *)
Definition showsGoalForm (state : AgentState.t) : bool :=
  match AgentState.status state with
  | AgentStatus.idle | AgentStatus.planning => true
  | _ => false
  end.

Definition showsButtons (state : AgentState.t) : bool :=
  match AgentState.status state with
  | AgentStatus.planning =>
      (0 <? List.length (AgentState.actions state))%nat
  | _ => false
  end.

End AgentView.

(* ===================================================================== *)
(** * Script generator of the runner ([generatePlaywrightScript])        *)
(* ===================================================================== *)

Module RunnerScript.

Import JS.

(** The lines one action contributes: its heading, the call of its type
    (none for 'select' and 'navigate') and an empty line. *)
Definition stepLines (idx : nat) (action : Action.t) : list string :=
  let comment :=
    "  // Step " ++ showNat (idx + 1) ++ ": " ++ Action.description action in
  let call :=
    match Action.type action with
    | ActionType.click =>
        ["  await page.click('#selector-" ++ showNat (idx + 1) ++ "');"]
    | ActionType.type =>
        ["  await page.fill('#selector-" ++ showNat (idx + 1) ++ "', '"
           ++ showOpt (Action.value action) ++ "');"]
    | ActionType.wait => ["  await page.waitForTimeout(1000);"]
    | ActionType.scroll =>
        ["  await page.evaluate(() => window.scrollBy(0, 300));"]
    | _ => []
    end in
  (comment :: call ++ [""])%list.

Definition scriptLines (actions : list Action.t) : list string :=
  ([ "import { test, expect } from '@playwright/test';";
     "";
     "test('Automated workflow from vision analysis', async ({ page }) => {";
     "  // Navigate to target site";
     "  await page.goto('https://demo.playwright.dev/todomvc');";
     "" ]
   ++ List.concat (App.mapi stepLines actions)
   ++ ["});"])%list.

Definition generatePlaywrightScript (actions : list Action.t) : string :=
  join nl (scriptLines actions).

(** What the script generators read of an action. *)
Definition scripted (a : Action.t)
  : ActionType.t * string * option string :=
  (Action.type a, Action.description a, Action.value a).

(** The actions the generator of the component writes a call for. *)
Definition clickOrType (a : Action.t) : bool :=
  match Action.type a with
  | ActionType.click | ActionType.type => true
  | _ => false
  end.

End RunnerScript.

(* ===================================================================== *)
(** * Checks on analysis results                                         *)
(* ===================================================================== *)

Module Checks.

Import JS.

(** No string occurs twice. *)
Fixpoint distinct (xs : list string) : bool :=
  match xs with
  | [] => true
  | x :: rest => negb (existsb (String.eqb x) rest) && distinct rest
  end.

(** The box lies inside the page, in the percentage coordinates the
    prompt asks for. *)
Definition insideViewport (b : BoundingBox.t) : bool :=
  PrimFloat.leb 0 (BoundingBox.x b)
  && PrimFloat.leb 0 (BoundingBox.y b)
  && PrimFloat.ltb 0 (BoundingBox.width b)
  && PrimFloat.ltb 0 (BoundingBox.height b)
  && PrimFloat.leb (PrimFloat.add (BoundingBox.x b) (BoundingBox.width b)) 100
  && PrimFloat.leb (PrimFloat.add (BoundingBox.y b) (BoundingBox.height b)) 100.

(** An element the runner can act on without a locator: it has a box
    inside the page, no selector of its own, and is clickable or
    inputable. *)
Definition grounded (el : UIElement.t) : bool :=
  match UIElement.boundingBox el with
  | Some b => insideViewport b
  | None => false
  end
  && match UIElement.selector el with None => true | Some _ => false end
  && match UIElement.clickable el, UIElement.inputable el with
     | Some true, _ | _, Some true => true
     | _, _ => false
     end.

(** [n] times the letter U+00E9 (e with acute accent), one code unit
    each, and the word "ECOLE" with U+00C9 for its first letter. *)
Fixpoint eAcute (n : nat) : string :=
  match n with
  | O => EmptyString
  | S k => String (ascii_of_nat 233) (eAcute k)
  end.

Definition ecoleUpper : string := String (ascii_of_nat 201) "COLE".

Definition ecoleLower : string := String (ascii_of_nat 233) "cole".

(** A property the remote model's JSON leaves out or gives a falsy value
    for. *)
Definition falsyFields (fields : list (string * value)) : Prop :=
  Forall (fun kv => truthy (snd kv) = false) fields.

End Checks.

(* ===================================================================== *)
(** * Plan text from an analysis ([generateActionPlan])                  *)
(* ===================================================================== *)

Module Planner.

Import JS Eff.
Local Open Scope eff_scope.

(** The environment of [generateActionPlan]: the module-level key and
    client it shares with [analyzeScreen], the remote model called with a
    prompt alone (it answers with the text of its response, or the call
    throws) and [JSON.stringify] of an analysis with an indentation of
    two (the text, or a throw). *)
Record Env : Type := mkEnv
  { gemini : Gemini.Env;
    generateText : string -> res string;
    JSON_stringify : AnalysisResult.t -> res string }.

(** The prompts sent to the remote model and the lines written by
    [console.error], oldest first. *)
Record World : Type := mkWorld
  { prompts : list string;
    console : list string }.

Definition callModel (env : Env) (prompt : string) : M World string :=
  fun w => (generateText env prompt, mkWorld (prompts w ++ [prompt]) (console w)).

Definition consoleError (msg : string) : M World unit :=
  modify (fun w => mkWorld (prompts w) (console w ++ [msg])).

Definition buildPrompt (analysisJson goal : string) : string :=
  lines
    [ "";
      "Given this analysis of a web page:";
      analysisJson;
      "";
      "And this user goal: " ++ dq ++ goal ++ dq;
      "";
      "Create a numbered list of specific actions to achieve this goal. ";
      "Each action should be in format: " ++ dq
        ++ "[number]. [action type] [target description]" ++ dq;
      "Action types: click, type, wait, scroll, select";
      "";
      "Keep it concise - maximum 5-6 steps.";
      "" ].

Definition generateActionPlan (env : Env) (analysis : AnalysisResult.t)
  (goal : string) : M World string :=
  if (Gemini.API_KEY (gemini env) =? "")%string then
    ret (join nl (AnalysisResult.suggestedActions analysis))
  else
    tryCatch
      (analysisJson <- lift (JSON_stringify env analysis) ;;
       let prompt := buildPrompt analysisJson goal in
       callModel env prompt)
      (fun error =>
         consoleError "Error generating action plan:" ;;;
         ret (join nl (AnalysisResult.suggestedActions analysis))).

(** The ways the remote planning fails: no key is configured, the
    analysis cannot be serialised, or the remote call throws. *)
Definition planFailure (env : Env) (analysis : AnalysisResult.t)
  (goal : string) : Prop :=
  Gemini.API_KEY (gemini env) = ""
  \/ (exists e, JSON_stringify env analysis = Throw e)
  \/ (exists json e,
        JSON_stringify env analysis = Ok json
        /\ generateText env (buildPrompt json goal) = Throw e).

(** The plan text of the fallback analysis. *)
Definition fallbackPlan : string :=
  lines
    [ "Click on first product under $50";
      "Click Add to Cart";
      "Enter coupon code";
      "Click Apply";
      "Proceed to checkout as guest" ].

End Planner.

(* ===================================================================== *)
(** * Voice read-out ([speak], [speakActions])                           *)
(* ===================================================================== *)

Module Speech.

Import JS Eff.
Local Open Scope eff_scope.

(** A [SpeechSynthesisUtterance] as [speak] sets it up; the voice is the
    name of the chosen voice, or the engine's default. *)
Record Utterance : Set := mkUtterance
  { text : string;
    rate : float;
    pitch : float;
    volume : float;
    voice : option string }.

(** The window: whether it has [speechSynthesis], and the names of the
    voices [getVoices] lists. *)
Record Window : Set := mkWindow
  { supported : bool;
    voices : list string }.

(** The utterances queued on the synthesiser and the lines written by
    [console.warn], oldest first. *)
Record World : Set := mkWorld
  { pending : list Utterance;
    console : list string }.

Definition consoleWarn (msg : string) : M World unit :=
  modify (fun w => mkWorld (pending w) (console w ++ [msg])).

(** [speechSynthesis.cancel()] removes every queued utterance;
    [speechSynthesis.speak(u)] adds [u] at the end of the queue. *)
Definition cancel : M World unit :=
  modify (fun w => mkWorld [] (console w)).

Definition enqueue (u : Utterance) : M World unit :=
  modify (fun w => mkWorld (pending w ++ [u]) (console w)).

Definition preferred (name : string) : bool :=
  includes name "Google" || includes name "Samantha"
  || includes name "Microsoft".

Definition speak (win : Window) (text : string) : M World unit :=
  if negb (supported win) then
    consoleWarn "Speech synthesis not supported"
  else
    (* Cancel any ongoing speech *)
    cancel ;;;
    let utterance := mkUtterance text 1 1 1 None in
    (* Try to get a natural-sounding voice *)
    let preferredVoice := find preferred (voices win) in
    let utterance :=
      match preferredVoice with
      | Some v =>
          mkUtterance (Speech.text utterance) (rate utterance)
            (pitch utterance) (volume utterance) (Some v)
      | None => utterance
      end in
    enqueue utterance.

Definition speakActions (win : Window) (actions : list Action.t)
  : M World unit :=
  let actionList :=
    join ". "
      (App.mapi
         (fun i a => "Step " ++ showNat (i + 1) ++ ": " ++ Action.description a)
         actions) in
  speak win
    ("I have " ++ showNat (List.length actions) ++ " steps planned. "
       ++ actionList).

(** Reading several texts out, one call of [speak] after the other. *)
Fixpoint speakAll (win : Window) (texts : list string) : M World unit :=
  match texts with
  | [] => ret tt
  | t :: rest => speak win t ;;; speakAll win rest
  end.

End Speech.

(* ===================================================================== *)
(** * Properties                                                         *)
(* ===================================================================== *)

(** ** The runtime model *)

Lemma prefix_app (p s : string) :
  prefix p s = true <-> exists r, s = p ++ r.
Proof.
  revert s; induction p as [|c p IH]; intros s; simpl.
  - destruct s; simpl; split; eauto.
  - destruct s as [|d s]; simpl.
    + split; [discriminate | intros [r H]; discriminate].
    + destruct (Ascii.ascii_dec c d) as [->|N].
      * rewrite IH. split; intros [r H]; exists r; congruence.
      * split; [discriminate | intros [r H]; congruence].
Qed.

(** [includes] is the substring test. *)
Lemma includes_spec (s sub : string) :
  JS.includes s sub = true <-> exists l r, s = l ++ sub ++ r.
Proof.
  induction s as [|c s IH]; cbn [JS.includes].
  - rewrite prefix_app. split.
    + intros [r H]. exists "", r. exact H.
    + intros [l [r H]]. destruct l; simpl in H.
      * exists r. exact H.
      * discriminate.
  - rewrite orb_true_iff, IH, prefix_app. split.
    + intros [[r H] | [l [r H]]].
      * exists "", r. exact H.
      * exists (String c l), r. simpl. congruence.
    + intros [l [r H]]. destruct l as [|d l]; simpl in H.
      * left. exists r. exact H.
      * right. exists l, r. congruence.
Qed.

(** The runtime model on known values. *)
Example toISOString_epoch : JS.toISOString 0 = "1970-01-01T00:00:00.000Z".
Proof. reflexivity. Qed.

Example toISOString_leap_day :
  JS.toISOString 1709251199999 = "2024-02-29T23:59:59.999Z".
Proof. reflexivity. Qed.

Example toISOString_before_epoch :
  JS.toISOString (-1) = "1969-12-31T23:59:59.999Z".
Proof. reflexivity. Qed.

Example stripDataUrl_png :
  JS.stripDataUrl "data:image/png;base64,iVBORw0KGgo=" = "iVBORw0KGgo=".
Proof. reflexivity. Qed.

Example stripDataUrl_other : JS.stripDataUrl "iVBORw0KGgo=" = "iVBORw0KGgo=".
Proof. reflexivity. Qed.

Example matchBraces_greedy :
  JS.matchBraces "Sure: {a} and {b}, done" = Some "{a} and {b}".
Proof. reflexivity. Qed.

Example matchBraces_unclosed : JS.matchBraces "} then {" = None.
Proof. reflexivity. Qed.

Example includes_lower_cased :
  JS.includes (JS.toLowerCase "Go To CHECKOUT now") "checkout" = true.
Proof. reflexivity. Qed.

(** ** Goal classifier *)

(** The source function computes what the table prescribes. *)
Lemma generateActionsFromGoal_classify (goal : string) :
  App.generateActionsFromGoal goal = Spec.classify goal.
Proof.
  unfold Spec.classify, Spec.vocabulary, Spec.hit.
  cbn [filter map fst snd existsb].
  unfold App.generateActionsFromGoal, App.push.
  generalize (JS.toLowerCase goal); intros goalLower.
  rewrite !orb_false_r.
  destruct (JS.includes goalLower "product" || JS.includes goalLower "find");
  destruct (JS.includes goalLower "cart" || JS.includes goalLower "add");
  destruct (JS.includes goalLower "coupon" || JS.includes goalLower "apply");
  destruct (JS.includes goalLower "checkout" || JS.includes goalLower "guest");
  reflexivity.
Qed.

Lemma classify_subseq (goal : string) :
  Spec.Subseq (Spec.classify goal) (map snd Spec.vocabulary).
Proof.
  unfold Spec.classify.
  generalize (Spec.hit (JS.toLowerCase goal)); intros f.
  induction Spec.vocabulary as [|e es IH]; simpl.
  - constructor.
  - destruct (f e); simpl; constructor; exact IH.
Qed.

(** C3.  For the demo goal the classifier returns exactly the four
    templates, in table order: click product, click add-to-cart, type
    "SAVE20", click checkout.  For every goal its output is the templates
    of the vocabulary entries that are hit, in vocabulary-table order,
    whatever the order of the keywords in the text: a goal that names the
    checkout before the product still yields the product click first. *)
Theorem C3_classifier_table_order :
  App.generateActionsFromGoal demoGoal
    = [Spec.clickProduct; Spec.clickAddToCart; Spec.typeCoupon;
       Spec.clickCheckout]
  /\ map (fun a => (Action.type a, Action.value a))
         (App.generateActionsFromGoal demoGoal)
     = [(ActionType.click, None); (ActionType.click, None);
        (ActionType.type, Some "SAVE20"); (ActionType.click, None)]
  /\ (forall goal : string,
        App.generateActionsFromGoal goal
          = map snd (filter (Spec.hit (JS.toLowerCase goal)) Spec.vocabulary)
        /\ Spec.Subseq (App.generateActionsFromGoal goal)
             [Spec.clickProduct; Spec.clickAddToCart; Spec.typeCoupon;
              Spec.clickCheckout])
  /\ App.generateActionsFromGoal "Checkout as guest after you find a product"
     = [Spec.clickProduct; Spec.clickCheckout].
Proof.
  split; [reflexivity|].
  split; [reflexivity|].
  split; [|reflexivity].
  intros goal. split.
  - apply generateActionsFromGoal_classify.
  - rewrite generateActionsFromGoal_classify. apply (classify_subseq goal).
Qed.

Lemma existsb_includes_false (goalLower : string) (kws : list string) :
  (forall kw, In kw kws -> JS.includes goalLower kw = false) ->
  existsb (JS.includes goalLower) kws = false.
Proof.
  induction kws as [|k ks IH]; intros H; simpl.
  - reflexivity.
  - rewrite (H k (or_introl eq_refl)), IH; [reflexivity|].
    intros kw Hkw. apply H. right. exact Hkw.
Qed.

(** C4.  A goal whose lower-casing contains none of the vocabulary
    substrings "product", "find", "cart", "add", "coupon", "apply",
    "checkout", "guest" is classified to the empty action list. *)
Theorem C4_no_keyword_empty_plan (goal : string) :
  (forall kw : string,
      In kw ["product"; "find"; "cart"; "add"; "coupon"; "apply";
             "checkout"; "guest"] ->
      JS.includes (JS.toLowerCase goal) kw = false) ->
  App.generateActionsFromGoal goal = [].
Proof.
  intros H. rewrite generateActionsFromGoal_classify.
  unfold Spec.classify.
  assert (E : forall e, In e Spec.vocabulary ->
                        Spec.hit (JS.toLowerCase goal) e = false).
  { intros e He. unfold Spec.hit. apply existsb_includes_false.
    intros kw Hkw. apply H.
    change (In kw Spec.keywords). unfold Spec.keywords.
    apply in_flat_map. exists e. split; assumption. }
  induction Spec.vocabulary as [|e es IH]; simpl.
  - reflexivity.
  - rewrite (E e (or_introl eq_refl)). apply IH.
    intros e' He'. apply E. right. exact He'.
Qed.

(** The empty string is such a goal. *)
Lemma C4_empty_goal_witness :
  (forall kw : string,
      In kw ["product"; "find"; "cart"; "add"; "coupon"; "apply";
             "checkout"; "guest"] ->
      JS.includes (JS.toLowerCase "") kw = false)
  /\ App.generateActionsFromGoal "" = [].
Proof.
  assert (H : forall kw : string,
      In kw ["product"; "find"; "cart"; "add"; "coupon"; "apply";
             "checkout"; "guest"] ->
      JS.includes (JS.toLowerCase "") kw = false).
  { intros kw Hkw. simpl in Hkw.
    repeat (destruct Hkw as [<- | Hkw]; [reflexivity|]).
    destruct Hkw. }
  split; [exact H | exact (C4_no_keyword_empty_plan "" H)].
Defined.

(** What a subsequence inherits from the whole list. *)
Lemma Subseq_map {A B : Type} (f : A -> B) (xs ys : list A) :
  Spec.Subseq xs ys -> Spec.Subseq (map f xs) (map f ys).
Proof.
  induction 1; cbn [map]; constructor; assumption.
Qed.

Lemma Subseq_In {A : Type} (xs ys : list A) (a : A) :
  Spec.Subseq xs ys -> In a xs -> In a ys.
Proof.
  induction 1 as [|x xs ys _ IH|x xs ys _ IH]; cbn [In]; intros Ha.
  - exact Ha.
  - right. apply IH. exact Ha.
  - destruct Ha as [E|Ha]; [left; exact E | right; apply IH; exact Ha].
Qed.

Lemma Subseq_Forall {A : Type} (P : A -> Prop) (xs ys : list A) :
  Spec.Subseq xs ys -> Forall P ys -> Forall P xs.
Proof.
  intros S F. rewrite Forall_forall in *.
  intros a Ha. apply F. exact (Subseq_In xs ys a S Ha).
Qed.

Lemma Subseq_StronglySorted {A : Type} (R : A -> A -> Prop)
  (xs ys : list A) :
  Spec.Subseq xs ys -> StronglySorted R ys -> StronglySorted R xs.
Proof.
  induction 1 as [|x xs ys S IH|x xs ys S IH]; intros St.
  - constructor.
  - inversion St; subst. apply IH. assumption.
  - inversion St; subst. constructor.
    + apply IH. assumption.
    + apply (Subseq_Forall _ xs ys S). assumption.
Qed.

Lemma Subseq_NoDup {A : Type} (xs ys : list A) :
  Spec.Subseq xs ys -> NoDup ys -> NoDup xs.
Proof.
  induction 1 as [|x xs ys S IH|x xs ys S IH]; intros N.
  - constructor.
  - inversion N; subst. apply IH. assumption.
  - inversion N; subst. constructor.
    + intros Hx. apply H1. exact (Subseq_In xs ys x S Hx).
    + apply IH. assumption.
Qed.

Lemma plan_subseq (goal : string) :
  Spec.Subseq (App.generateActionsFromGoal goal)
    [Spec.clickProduct; Spec.clickAddToCart; Spec.typeCoupon;
     Spec.clickCheckout].
Proof.
  rewrite generateActionsFromGoal_classify. apply (classify_subseq goal).
Qed.

Lemma plan_orders_sorted (goal : string) :
  StronglySorted Z.lt (map Action.order (App.generateActionsFromGoal goal)).
Proof.
  apply (Subseq_StronglySorted _ _ _
           (Subseq_map Action.order _ _ (plan_subseq goal))).
  cbn [map Spec.clickProduct Spec.clickAddToCart Spec.typeCoupon
       Spec.clickCheckout Spec.mkAction Action.order].
  repeat (constructor; [|repeat (constructor; [reflexivity|]); constructor]).
  constructor.
Qed.

(** C9.  Every action the classifier returns is pending and carries a
    target with a bounding box; the [order] fields increase strictly along
    the list and are taken, in order, from 1, 2, 3, 4; the [id] fields are
    pairwise distinct. *)
Theorem C9_classifier_output_well_formed (goal : string) :
  let plan := App.generateActionsFromGoal goal in
  Forall (fun a => Action.status a = ActionStatus.pending) plan
  /\ StronglySorted Z.lt (map Action.order plan)
  /\ Spec.Subseq (map Action.order plan) [1; 2; 3; 4]%Z
  /\ NoDup (map Action.id plan)
  /\ Forall (fun a => exists el box,
                 Action.target a = Some el
                 /\ UIElement.boundingBox el = Some box) plan.
Proof.
  intros plan. pose proof (plan_subseq goal) as S. fold plan in S.
  split; [|split; [|split; [|split]]].
  - apply (Subseq_Forall _ _ _ S). repeat (constructor; [reflexivity|]).
    constructor.
  - apply plan_orders_sorted.
  - exact (Subseq_map Action.order _ _ S).
  - apply (Subseq_NoDup _ _ (Subseq_map Action.id _ _ S)).
    cbn [map Spec.clickProduct Spec.clickAddToCart Spec.typeCoupon
         Spec.clickCheckout Spec.mkAction Action.id].
    repeat (constructor; [cbn [In]; intuition discriminate|]).
    constructor.
  - apply (Subseq_Forall _ _ _ S).
    repeat (constructor; [eexists; eexists; split; reflexivity|]).
    constructor.
Qed.

(** ** Fallback analysis *)

(** C10.  For every goal the fallback analysis has a non-empty element
    list, whose last element is the 'Cart (0)' navigation link, and exactly
    five suggested action strings; so it has for a goal without any
    keyword, for which the classifier's plan is empty. *)
Theorem C10_mock_analysis_never_empty :
  (forall goal : string,
      let r := Gemini.generateMockAnalysis goal in
      AnalysisResult.elements r <> []
      /\ (exists others,
             AnalysisResult.elements r = (others ++ [Spec.navCart])%list)
      /\ List.length (AnalysisResult.suggestedActions r) = 5%nat)
  /\ App.generateActionsFromGoal "open the settings page" = []
  /\ AnalysisResult.elements
       (Gemini.generateMockAnalysis "open the settings page") = [Spec.navCart].
Proof.
  split; [|split; reflexivity].
  intros goal r.
  assert (E : exists others,
             AnalysisResult.elements r = (others ++ [Spec.navCart])%list).
  { subst r. unfold Gemini.generateMockAnalysis, Gemini.push.
    cbn [AnalysisResult.elements]. eexists. reflexivity. }
  split; [|split].
  - destruct E as [others E]. rewrite E.
    intros C. apply app_eq_nil in C. destruct C as [_ C]. discriminate.
  - exact E.
  - reflexivity.
Qed.

(** C2, as stated, fails: for the demo goal the fallback suggests five
    actions, the classifier plans four, and the suggestions are not the
    descriptions of the plan. *)
Lemma C2_fallback_differs_from_plan :
  ~ Spec.matchesPlan (Gemini.generateMockAnalysis demoGoal)
      (App.generateActionsFromGoal demoGoal)
  /\ List.length
       (AnalysisResult.suggestedActions (Gemini.generateMockAnalysis demoGoal))
     <> List.length (App.generateActionsFromGoal demoGoal).
Proof.
  split.
  - unfold Spec.matchesPlan. intros C. vm_compute in C. discriminate.
  - vm_compute. intros C. discriminate.
Qed.

(** C2, amended.  When no API credential is configured, [analyzeScreen]
    returns [generateMockAnalysis goal] and sends nothing to the remote
    model.  For the demo goal this fallback has eight elements and five
    suggested actions; the classifier's plan for the same goal has four
    actions; the two share the product, coupon and checkout steps, in the
    same relative order. *)
Theorem C2_fallback_without_credential
  (env : Gemini.Env) (imageData : string) (w : Gemini.World) :
  Gemini.API_KEY env = "" ->
  let r := Gemini.generateMockAnalysis demoGoal in
  Gemini.analyzeScreen env imageData demoGoal w = (JS.Ok (Gemini.Typed r), w)
  /\ map UIElement.id (AnalysisResult.elements r)
     = [ "prod-1"; "prod-2"; "add-cart-btn"; "coupon-input";
         "apply-coupon-btn"; "checkout-btn"; "guest-checkout"; "nav-cart" ]
  /\ AnalysisResult.suggestedActions r
     = [ "Click on first product under $50"; "Click Add to Cart";
         "Enter coupon code"; "Click Apply";
         "Proceed to checkout as guest" ]
  /\ map Action.description (App.generateActionsFromGoal demoGoal)
     = [ "Click on first product under $50"; "Click Add to Cart button";
         "Enter coupon code"; "Proceed to checkout as guest" ]
  /\ Spec.Subseq
       [ "Click on first product under $50"; "Enter coupon code";
         "Proceed to checkout as guest" ]
       (AnalysisResult.suggestedActions r)
  /\ Spec.Subseq
       [ "Click on first product under $50"; "Enter coupon code";
         "Proceed to checkout as guest" ]
       (map Action.description (App.generateActionsFromGoal demoGoal)).
Proof.
  intros K r. split.
  - unfold Gemini.analyzeScreen. rewrite K. reflexivity.
  - split; [reflexivity|]. split; [reflexivity|]. split; [reflexivity|].
    split.
    + apply Spec.Subseq_take, Spec.Subseq_skip, Spec.Subseq_take,
        Spec.Subseq_skip, Spec.Subseq_take, Spec.Subseq_nil.
    + apply Spec.Subseq_take, Spec.Subseq_skip, Spec.Subseq_take,
        Spec.Subseq_take, Spec.Subseq_nil.
Qed.

Lemma C2_fallback_without_credential_witness :
  let env := Gemini.mkEnv "" (fun _ => JS.Throw JS.Thrown)
               (fun _ => JS.Throw JS.Thrown) in
  let w := Gemini.mkWorld [] [] in
  Gemini.API_KEY env = ""
  /\ Gemini.analyzeScreen env "data:image/png;base64,AAAA" demoGoal w
     = (JS.Ok (Gemini.Typed (Gemini.generateMockAnalysis demoGoal)), w).
Proof.
  split; [reflexivity|].
  exact (proj1 (C2_fallback_without_credential
                  (Gemini.mkEnv "" (fun _ => JS.Throw JS.Thrown)
                     (fun _ => JS.Throw JS.Thrown))
                  "data:image/png;base64,AAAA"
                  (Gemini.mkWorld [] []) eq_refl)).
Defined.

(** ** Oracle adapter *)

(** C7.  [analyzeScreen] never throws, whatever the remote model and
    [JSON.parse] do, and it sends at most one request to the remote model:
    none without a key, one otherwise.  When no key is configured, or the
    remote call throws, or the response text holds no parseable JSON block,
    it returns the fallback analysis [generateMockAnalysis goal]. *)
Theorem C7_analyzeScreen_total
  (env : Gemini.Env) (imageData goal : string) (w : Gemini.World) :
  (exists a w',
      Gemini.analyzeScreen env imageData goal w = (JS.Ok a, w')
      /\ (Gemini.requests w' = Gemini.requests w
          \/ Gemini.requests w'
             = (Gemini.requests w ++ [Spec.requestFor imageData goal])%list))
  /\ (Spec.remoteFailure env imageData goal ->
      exists w',
        Gemini.analyzeScreen env imageData goal w
        = (JS.Ok (Gemini.Typed (Gemini.generateMockAnalysis goal)), w')).
Proof.
  unfold Spec.remoteFailure, Spec.noParseableBlock, Spec.requestFor.
  unfold Gemini.analyzeScreen.
  unfold Eff.tryCatch, Eff.bind, Gemini.callModel, Eff.lift, Eff.ret,
    Gemini.consoleError, Eff.modify.
  destruct (String.eqb_spec (Gemini.API_KEY env) "") as [K|K].
  - split.
    + eexists; eexists; split; [reflexivity | left; reflexivity].
    + intros _. eexists; reflexivity.
  - destruct (Gemini.generateContent env _) as [text|e] eqn:R.
    + destruct (JS.matchBraces text) as [block|] eqn:B.
      * destruct (Gemini.JSON_parse env block) as [parsed|e] eqn:P.
        -- split.
           ++ destruct (JS.getProp parsed "elements") as [el|e1];
              [destruct (JS.getProp parsed "summary") as [su|e2];
               [destruct (JS.getProp parsed "suggestedActions") as [sa|e3]
               |]|];
              (eexists; eexists; split; [reflexivity | right; reflexivity]).
           ++ intros [F|[[e F]|[t [F1 F2]]]].
              ** contradiction.
              ** discriminate.
              ** injection F1 as <-. rewrite B in F2.
                 destruct F2 as [e F2]. congruence.
        -- split.
           ++ eexists; eexists; split; [reflexivity | right; reflexivity].
           ++ intros _. eexists; reflexivity.
      * split.
        -- eexists; eexists; split; [reflexivity | right; reflexivity].
        -- intros _. eexists; reflexivity.
    + split.
      * eexists; eexists; split; [reflexivity | right; reflexivity].
      * intros _. eexists; reflexivity.
Qed.

(** A key is configured and the model answers in prose, without any
    braces: the fallback is returned after one request. *)
Lemma C7_analyzeScreen_total_witness :
  let env := Gemini.mkEnv "key" (fun _ => JS.Ok "I cannot see a page.")
               (fun _ => JS.Throw (JS.Error "Unexpected token")) in
  Spec.remoteFailure env "data:image/png;base64,AAAA" "find a product"
  /\ exists w',
       Gemini.analyzeScreen env "data:image/png;base64,AAAA" "find a product"
         (Gemini.mkWorld [] [])
       = (JS.Ok (Gemini.Typed (Gemini.generateMockAnalysis "find a product")),
          w').
Proof.
  intros env.
  assert (F : Spec.remoteFailure env "data:image/png;base64,AAAA"
                "find a product").
  { right. right. exists "I cannot see a page.". split; reflexivity. }
  split; [exact F|].
  exact (proj2 (C7_analyzeScreen_total env "data:image/png;base64,AAAA"
                  "find a product" (Gemini.mkWorld [] [])) F).
Defined.

(** ** Artifact generator *)

Lemma append_assoc (a b c : string) : (a ++ b) ++ c = a ++ (b ++ c).
Proof.
  induction a as [|x a IH]; cbn [append]; [reflexivity | now rewrite IH].
Qed.

Lemma length_append (a b : string) :
  String.length (a ++ b) = (String.length a + String.length b)%nat.
Proof.
  induction a as [|x a IH]; cbn [append String.length Nat.add];
    [reflexivity | now rewrite IH].
Qed.

Lemma append_inj_l (a x y : string) : a ++ x = a ++ y -> x = y.
Proof.
  induction a as [|c a IH]; cbn [append]; intros H.
  - exact H.
  - injection H as H. exact (IH H).
Qed.

Lemma append_inj_r (x y c : string) : x ++ c = y ++ c -> x = y.
Proof.
  revert y; induction x as [|a x IH]; intros [|b y] H; cbn [append] in H.
  - reflexivity.
  - apply (f_equal String.length) in H.
    cbn [String.length] in H. rewrite length_append in H. lia.
  - apply (f_equal String.length) in H.
    cbn [String.length] in H. rewrite length_append in H. lia.
  - injection H as -> H. f_equal. exact (IH y H).
Qed.

(** The summary is its head followed by the timestamp and a newline. *)
Lemma renderSummary_shape (generated goal : string)
  (actions : list Action.t) :
  App.renderSummary generated goal actions
  = Spec.summaryHead goal actions ++ generated ++ JS.nl.
Proof.
  unfold App.renderSummary, Spec.summaryHead, JS.lines, JS.join.
  cbn [String.concat].
  rewrite !append_assoc. reflexivity.
Qed.

Lemma renderSummary_inj (g1 g2 goal : string) (actions : list Action.t) :
  App.renderSummary g1 goal actions = App.renderSummary g2 goal actions ->
  g1 = g2.
Proof.
  rewrite !renderSummary_shape. intros H.
  apply append_inj_l in H. apply append_inj_r in H. exact H.
Qed.

(** C1, as stated, fails: [generateSummary] prints the time of the call,
    so two calls on the same goal and actions, one millisecond apart, give
    different summaries, and so different artifact lists. *)
Lemma C1_summary_depends_on_the_clock :
  let w1 := Spec.tickingWorld 1700000000000 in
  let w2 := snd (App.generateSummary "g" [] w1) in
  fst (App.generateSummary "g" [] w1) <> fst (App.generateSummary "g" [] w2)
  /\ fst (App.generateArtifacts (Some "g") [] [] w1)
     <> fst (App.generateArtifacts (Some "g") [] [] w2).
Proof.
  split; vm_compute; intros C; discriminate.
Qed.

(** C1, amended.  The artifacts are a function of the goal, the actions,
    the log and the clock reading at the call.  The script and the run log
    do not depend on the clock.  The summary is a fixed text of goal and
    actions followed by the ISO timestamp of the call.  Two calls on the
    same goal, actions and log give identical artifacts exactly when the
    clock prints the same timestamp at both. *)
Theorem C1_artifacts_up_to_timestamp
  (goal : option string) (actions : list Action.t)
  (logs : list ExecutionLog.t) (w1 w2 : App.World) :
  let stamp w := JS.toISOString (App.clock w (App.clockReads w)) in
  (forall w, exists summary,
      fst (App.generateArtifacts goal actions logs w)
      = JS.Ok
          [ Artifact.mk ArtifactType.summary summary
              (Some "execution-summary.md");
            Artifact.mk ArtifactType.playwright_script
              (App.generatePlaywrightScript actions)
              (Some "workflow.spec.ts");
            Artifact.mk ArtifactType.run_log (App.generateRunLog logs)
              (Some "run-log.json") ]
      /\ summary
         = Spec.summaryHead (JS.orElse goal "") actions ++ stamp w ++ JS.nl)
  /\ (fst (App.generateArtifacts goal actions logs w1)
      = fst (App.generateArtifacts goal actions logs w2)
      <-> stamp w1 = stamp w2).
Proof.
  intros stamp. split.
  - intros w. eexists. split; [reflexivity|].
    apply renderSummary_shape.
  - unfold App.generateArtifacts, App.generateSummary, App.newDate,
      Eff.bind, Eff.ret. cbn [fst]. fold (stamp w1) (stamp w2). split.
    + intros H.
      apply (renderSummary_inj _ _ (JS.orElse goal "") actions).
      congruence.
    + intros ->. reflexivity.
Qed.

(** ** Locator resolver and driver executor *)

Section RunnerFacts.

Import Eff.
Local Open Scope eff_scope.

Lemma extends_refl (w : Runner.World) : Spec.extends w w.
Proof.
  repeat split. exists []. cbn [map]. now rewrite app_nil_r.
Qed.

Lemma extends_trans (w1 w2 w3 : Runner.World) :
  Spec.extends w1 w2 -> Spec.extends w2 w3 -> Spec.extends w1 w3.
Proof.
  intros (P1 & C1 & cs1 & T1) (P2 & C2 & cs2 & T2). repeat split.
  - congruence.
  - congruence.
  - exists (cs1 ++ cs2)%list. rewrite T2, T1, map_app, app_assoc.
    reflexivity.
Qed.

Lemma quiet_ret {A : Type} (a : A) : Spec.quiet (ret a).
Proof. intros w. apply extends_refl. Qed.

Lemma quiet_throw {A : Type} (e : JS.exn) :
  Spec.quiet (A := A) (throw e).
Proof. intros w. apply extends_refl. Qed.

Lemma quiet_bind {A B : Type} (m : M Runner.World A)
  (k : A -> M Runner.World B) :
  Spec.quiet m -> (forall a, Spec.quiet (k a)) -> Spec.quiet (bind m k).
Proof.
  intros Hm Hk w. unfold bind. specialize (Hm w).
  destruct (m w) as [[a|e] w1]; cbn [snd] in *.
  - exact (extends_trans _ _ _ Hm (Hk a w1)).
  - exact Hm.
Qed.

Lemma quiet_tryCatch {A : Type} (body : M Runner.World A)
  (handler : JS.exn -> M Runner.World A) :
  Spec.quiet body -> (forall e, Spec.quiet (handler e)) ->
  Spec.quiet (tryCatch body handler).
Proof.
  intros Hb Hh w. unfold tryCatch. specialize (Hb w).
  destruct (body w) as [[a|e] w1]; cbn [snd] in *.
  - exact Hb.
  - exact (extends_trans _ _ _ Hb (Hh e w1)).
Qed.

(** Reading the world and branching on its page. *)
Lemma quiet_get_page {A : Type}
  (k : Runner.World -> M Runner.World A) :
  (forall w, Spec.extends w (snd (k w w))) ->
  Spec.quiet (bind get k).
Proof. intros H w. unfold bind, get. apply H. Qed.

Lemma quiet_dateNow : Spec.quiet Runner.dateNow.
Proof.
  intros w. unfold Runner.dateNow. cbn [snd]. repeat split.
  exists []. cbn [map Runner.trace]. now rewrite app_nil_r.
Qed.

Lemma quiet_driver {A : Type} (c : Runner.call)
  (answer : Runner.Page -> nat -> JS.res A) :
  Spec.quiet (Runner.driver c answer).
Proof.
  intros w. unfold Runner.driver. destruct (Runner.page w) as [p|] eqn:P.
  - cbn [snd]. repeat split; cbn; auto. exists [c]. reflexivity.
  - apply extends_refl.
Qed.

Lemma quiet_trySelectors (selectors : list string) :
  Spec.quiet (Runner.trySelectors selectors).
Proof.
  induction selectors as [|s rest IH]; cbn [Runner.trySelectors].
  - apply quiet_ret.
  - apply quiet_bind.
    + apply quiet_tryCatch; [apply quiet_driver | intros; apply quiet_ret].
    + intros [|]; [apply quiet_ret | exact IH].
Qed.

Lemma quiet_findElement (element : option UIElement.t) :
  Spec.quiet (Runner.findElement element).
Proof.
  unfold Runner.findElement. apply quiet_get_page. intros w.
  destruct (Runner.page w); [|apply extends_refl].
  destruct element; [apply quiet_trySelectors | apply extends_refl].
Qed.

Lemma quiet_resolveSelector (action : Action.t) :
  Spec.quiet (Runner.resolveSelector action).
Proof.
  unfold Runner.resolveSelector.
  destruct (Runner.nonEmpty _); [apply quiet_ret | apply quiet_findElement].
Qed.

Lemma quiet_performAction (action : Action.t) :
  Spec.quiet (Runner.performAction action).
Proof.
  unfold Runner.performAction, Runner.waitForTimeout.
  destruct (Action.type action);
    try apply quiet_ret; try apply quiet_driver.
  - apply quiet_bind; [apply quiet_resolveSelector|]. intros sel.
    destruct (Runner.nonEmpty sel); [apply quiet_driver|].
    destruct (Runner.targetBox action);
      [apply quiet_driver | apply quiet_ret].
  - apply quiet_bind; [apply quiet_resolveSelector|]. intros sel.
    destruct (Runner.nonEmpty sel); [|apply quiet_ret].
    destruct (Runner.nonEmpty (Action.value action));
      [apply quiet_driver | apply quiet_ret].
Qed.

(** [executeAction] always returns a log entry for its action, whatever
    the driver does, and crosses no step boundary. *)
Lemma executeAction_returns (action : Action.t) (w : Runner.World) :
  exists log w',
    Runner.executeAction action w = (JS.Ok log, w')
    /\ ExecutionLog.action log = Action.description action
    /\ Spec.extends w w'.
Proof.
  unfold Runner.executeAction, bind, get.
  destruct (Runner.page w) as [p|] eqn:P.
  - pose proof (quiet_dateNow w) as E0.
    destruct (Runner.dateNow w) as [[t0|e0] w0] eqn:D0;
      [|unfold Runner.dateNow in D0; discriminate].
    cbn [snd] in E0. unfold tryCatch.
    pose proof (quiet_performAction action w0) as E1.
    destruct (Runner.performAction action w0) as [[[]|e1] w1];
      cbn [snd] in E1.
    + unfold Runner.dateNow, ret.
      eexists; eexists; split; [reflexivity|]. split; [reflexivity|].
      eapply extends_trans; [exact E0|].
      eapply extends_trans; [exact E1|].
      eapply extends_trans; apply quiet_dateNow.
    + unfold Runner.dateNow, ret.
      eexists; eexists; split; [reflexivity|]. split; [reflexivity|].
      eapply extends_trans; [exact E0|].
      eapply extends_trans; [exact E1|]. apply quiet_dateNow.
  - unfold Runner.dateNow, ret.
    eexists; eexists; split; [reflexivity|]. split; [reflexivity|].
    apply quiet_dateNow.
Qed.

Lemma quiet_pauseAfterError (log : ExecutionLog.t) :
  Spec.quiet (Runner.pauseAfterError log).
Proof.
  unfold Runner.pauseAfterError, Runner.waitForTimeout.
  destruct (ExecutionLog.status log); try apply quiet_ret.
  apply quiet_get_page. intros w.
  destruct (Runner.page w); [apply quiet_driver | apply extends_refl].
Qed.

(** Only the pause after a failed step can throw, and it throws what the
    wait of 500 ms throws. *)
Lemma pauseAfterError_throws (log : ExecutionLog.t) (w w' : Runner.World)
  (e : JS.exn) :
  Runner.pauseAfterError log w = (JS.Throw e, w') ->
  ExecutionLog.status log = LogStatus.error
  /\ exists p,
       Runner.page w = Some p
       /\ Runner.perform p (Runner.calls w) (Runner.WaitForTimeout 500)
          = JS.Throw e.
Proof.
  unfold Runner.pauseAfterError, bind, get, ret.
  destruct (ExecutionLog.status log); try discriminate.
  destruct (Runner.page w) as [p|] eqn:P; [|discriminate].
  unfold Runner.waitForTimeout, Runner.driver. rewrite P. intros E.
  split; [reflexivity|]. exists p. split; [reflexivity|].
  destruct (Runner.perform p (Runner.calls w) (Runner.WaitForTimeout 500));
    [discriminate | congruence].
Qed.

Lemma pausesResolve_page (w w' : Runner.World) :
  Runner.page w' = Runner.page w ->
  Spec.pausesResolve w -> Spec.pausesResolve w'.
Proof.
  intros E H p P. apply H. now rewrite <- E.
Qed.

Lemma pauseAfterError_returns (log : ExecutionLog.t) (w : Runner.World) :
  Spec.pausesResolve w ->
  exists w',
    Runner.pauseAfterError log w = (JS.Ok tt, w') /\ Spec.extends w w'.
Proof.
  intros R. pose proof (quiet_pauseAfterError log w) as E.
  unfold Runner.pauseAfterError, bind, get in *.
  destruct (ExecutionLog.status log);
    try (eexists; split; [reflexivity | apply extends_refl]).
  destruct (Runner.page w) as [p|] eqn:P.
  - unfold Runner.waitForTimeout, Runner.driver in *.
    rewrite P, (R p P) in *.
    eexists; split; [reflexivity | exact E].
  - eexists; split; [reflexivity | apply extends_refl].
Qed.

Lemma markers_app (t u : list Runner.event) :
  Spec.markers (t ++ u) = (Spec.markers t ++ Spec.markers u)%list.
Proof. apply filter_app. Qed.

Lemma markers_calls (cs : list Runner.call) :
  Spec.markers (map Runner.Call cs) = [].
Proof. induction cs as [|c cs IH]; [reflexivity | exact IH]. Qed.

Lemma markers_extends (w w' : Runner.World) :
  Spec.extends w w' ->
  Spec.markers (Runner.trace w') = Spec.markers (Runner.trace w).
Proof.
  intros (_ & _ & cs & T).
  now rewrite T, markers_app, markers_calls, app_nil_r.
Qed.

(** The loop of [executeWorkflow] runs the steps one after the other, in
    list order, each to its log entry, whatever the entries say, as long
    as the pauses after failed steps resolve. *)
Lemma workflowLoop_sequential (actions : list Action.t) :
  forall (i : nat) (logs : list ExecutionLog.t) (w : Runner.World),
  Spec.pausesResolve w ->
  exists newLogs w',
    Runner.workflowLoop i actions logs w = (JS.Ok (logs ++ newLogs)%list, w')
    /\ Forall2 (fun a l => ExecutionLog.action l = Action.description a)
         actions newLogs
    /\ Runner.page w' = Runner.page w
    /\ Spec.markers (Runner.trace w')
       = (Spec.markers (Runner.trace w)
          ++ Spec.sequential i actions newLogs)%list.
Proof.
  induction actions as [|a rest IH]; intros i logs w R.
  - exists [], w. cbn. rewrite !app_nil_r. repeat split. constructor.
  - cbn [Runner.workflowLoop]. unfold bind at 1.
    unfold Runner.emit at 1, modify.
    set (w1 := Runner.mkWorld _ _ _ _ _ _).
    unfold bind at 1.
    destruct (executeAction_returns a w1) as (log & w2 & E & D & X2).
    rewrite E. unfold bind at 1. unfold Runner.emit at 1, modify.
    set (w3 := Runner.mkWorld _ _ _ _ _ _).
    unfold bind at 1.
    assert (P3 : Runner.page w3 = Runner.page w).
    { subst w3. cbn [Runner.page]. destruct X2 as (-> & _). reflexivity. }
    destruct (pauseAfterError_returns log w3 (pausesResolve_page _ _ P3 R))
      as (w4 & E4 & X4).
    rewrite E4.
    assert (P4 : Runner.page w4 = Runner.page w).
    { destruct X4 as (-> & _). exact P3. }
    destruct (IH (S i) (logs ++ [log])%list w4 (pausesResolve_page _ _ P4 R))
      as (more & w5 & E5 & F5 & P5 & M5).
    exists (log :: more), w5. rewrite E5, <- app_assoc. cbn [app].
    split; [reflexivity|]. split; [constructor; assumption|]. split.
    + now rewrite P5.
    + rewrite M5, (markers_extends _ _ X4). subst w3. cbn [Runner.trace].
      rewrite markers_app, (markers_extends _ _ X2). subst w1.
      cbn [Runner.trace]. rewrite markers_app. cbn.
      rewrite <- !app_assoc. reflexivity.
Qed.

(** Whatever the driver does, the steps the loop begins are the first
    steps of the list, in list order, each begun after the entry of the
    step before it was logged.  The loop returns when it has run the whole
    list; it throws only when the pause after a step logged as an error is
    rejected, and then throws what that wait throws. *)
Lemma workflowLoop_prefix (actions : list Action.t) :
  forall (i : nat) (logs : list ExecutionLog.t) (w : Runner.World),
  exists done rest newLogs r w',
    Runner.workflowLoop i actions logs w = (r, w')
    /\ actions = (done ++ rest)%list
    /\ Forall2 (fun a l => ExecutionLog.action l = Action.description a)
         done newLogs
    /\ Runner.page w' = Runner.page w
    /\ Spec.markers (Runner.trace w')
       = (Spec.markers (Runner.trace w)
          ++ Spec.sequential i done newLogs)%list
    /\ match r with
       | JS.Ok all => rest = [] /\ all = (logs ++ newLogs)%list
       | JS.Throw e =>
           exists before l p k,
             newLogs = (before ++ [l])%list
             /\ ExecutionLog.status l = LogStatus.error
             /\ Runner.page w = Some p
             /\ Runner.perform p k (Runner.WaitForTimeout 500) = JS.Throw e
       end.
Proof.
  induction actions as [|a rest IH]; intros i logs w.
  - exists [], [], [], (JS.Ok logs), w. cbn. rewrite !app_nil_r.
    repeat split. constructor.
  - cbn [Runner.workflowLoop]. unfold bind at 1.
    unfold Runner.emit at 1, modify.
    set (w1 := Runner.mkWorld _ _ _ _ _ _).
    unfold bind at 1.
    destruct (executeAction_returns a w1) as (log & w2 & E & D & X2).
    rewrite E. unfold bind at 1. unfold Runner.emit at 1, modify.
    set (w3 := Runner.mkWorld _ _ _ _ _ _).
    unfold bind at 1.
    pose proof (quiet_pauseAfterError log w3) as X4.
    assert (P3 : Runner.page w3 = Runner.page w).
    { subst w3. cbn [Runner.page]. destruct X2 as (-> & _). reflexivity. }
    assert (M3 : Spec.markers (Runner.trace w3)
                 = (Spec.markers (Runner.trace w)
                    ++ [Runner.Began i a; Runner.Logged i log])%list).
    { subst w3. cbn [Runner.trace].
      rewrite markers_app, (markers_extends _ _ X2). subst w1.
      cbn [Runner.trace]. rewrite markers_app. cbn.
      rewrite <- !app_assoc. reflexivity. }
    destruct (Runner.pauseAfterError log w3) as [[[]|e] w4] eqn:E4;
      cbn [snd] in X4.
    + assert (P4 : Runner.page w4 = Runner.page w).
      { destruct X4 as (-> & _). exact P3. }
      destruct (IH (S i) (logs ++ [log])%list w4)
        as (done & rest' & more & r & w5 & E5 & A & F & P5 & Mk & R).
      exists (a :: done), rest', (log :: more), r, w5.
      split; [exact E5|].
      split; [cbn [app]; now rewrite A|].
      split; [constructor; assumption|].
      split; [now rewrite P5|]. split.
      * rewrite Mk, (markers_extends _ _ X4), M3. cbn [Spec.sequential].
        rewrite <- !app_assoc. reflexivity.
      * destruct r as [all|e'].
        -- destruct R as (-> & ->). split; [reflexivity|].
           now rewrite <- app_assoc.
        -- destruct R as (before & l & p & k & -> & St & Pg & Th).
           exists (log :: before), l, p, k. split; [reflexivity|].
           split; [exact St|]. split; [now rewrite <- P4 | exact Th].
    + destruct (pauseAfterError_throws _ _ _ _ E4) as (St & p & Pg & Th).
      exists [a], rest, [log], (JS.Throw e), w4.
      split; [reflexivity|]. split; [reflexivity|].
      split; [constructor; [exact D | constructor]|].
      split; [destruct X4 as (-> & _); exact P3|]. split.
      * now rewrite (markers_extends _ _ X4), M3.
      * exists [], log, p, (Runner.calls w3). split; [reflexivity|].
        split; [exact St|]. split; [now rewrite <- P3 | exact Th].
Qed.

Lemma begun_markers (t : list Runner.event) :
  Spec.begun (Spec.markers t) = Spec.begun t.
Proof.
  unfold Spec.markers.
  induction t as [|[c|i a|i l] t IH]; cbn; congruence.
Qed.

Lemma begun_app (t u : list Runner.event) :
  Spec.begun (t ++ u) = (Spec.begun t ++ Spec.begun u)%list.
Proof.
  induction t as [|[c|i a|i l] t IH]; cbn; congruence.
Qed.

Lemma begun_sequential (actions : list Action.t) :
  forall (i : nat) (logs : list ExecutionLog.t),
    List.length logs = List.length actions ->
    Spec.begun (Spec.sequential i actions logs) = actions.
Proof.
  induction actions as [|a rest IH]; intros i [|l logs] L;
    cbn in *; try discriminate; try reflexivity.
  f_equal. apply IH. lia.
Qed.

(** The final screenshot never throws and crosses no step boundary. *)
Lemma quiet_finalScreenshot :
  Spec.quiet
    (tryCatch (s <- Runner.captureScreen ;; ret (Some s))
       (fun _ => ret None)).
Proof.
  apply quiet_tryCatch; [|intros; apply quiet_ret].
  apply quiet_bind; [|intros; apply quiet_ret].
  unfold Runner.captureScreen. apply quiet_get_page. intros w0.
  destruct (Runner.page w0); [|apply extends_refl].
  apply quiet_bind; [apply quiet_driver|]. intros bytes.
  apply quiet_bind; [|intros; apply quiet_ret].
  unfold Runner.fromCharCode. apply quiet_get_page. intros w1.
  destruct (_ <=? _)%nat; apply extends_refl.
Qed.

Lemma finalScreenshot_returns (w : Runner.World) :
  exists shot w',
    tryCatch (s <- Runner.captureScreen ;; ret (Some s))
      (fun _ => ret None) w = (JS.Ok shot, w')
    /\ Spec.extends w w'.
Proof.
  pose proof (quiet_finalScreenshot w) as Q.
  destruct (tryCatch _ _ w) as [[shot|e] w'] eqn:C; cbn [snd] in Q.
  - exists shot, w'. split; [reflexivity | exact Q].
  - exfalso. unfold tryCatch, bind, ret in C.
    destruct (Runner.captureScreen w) as [[s|e1] w3]; discriminate.
Qed.

(** When the pauses after failed steps resolve, [executeWorkflow]
    returns: it runs every step, in list order, each to its log entry,
    then takes the screenshot. *)
Lemma executeWorkflow_returns (actions : list Action.t) (w : Runner.World) :
  Spec.pausesResolve w ->
  exists logs shot w',
    Runner.executeWorkflow actions w
    = (JS.Ok (ExecutionResult.mk
                (forallb (fun l => LogStatus.notError (ExecutionLog.status l))
                   logs)
                logs shot), w')
    /\ Forall2 (fun a l => ExecutionLog.action l = Action.description a)
         actions logs
    /\ Spec.markers (Runner.trace w')
       = (Spec.markers (Runner.trace w)
          ++ Spec.sequential 0 actions logs)%list.
Proof.
  intros R. unfold Runner.executeWorkflow. unfold bind at 1.
  destruct (workflowLoop_sequential actions 0 [] w R)
    as (logs & w1 & E & F & P & Mk).
  rewrite E. cbn [app]. unfold bind at 1.
  destruct (finalScreenshot_returns w1) as (shot & w2 & C & Q).
  rewrite C. exists logs, shot, w2.
  split; [reflexivity|]. split; [exact F|].
  now rewrite (markers_extends _ _ Q).
Qed.

(** Whatever the driver does, the steps [executeWorkflow] begins are the
    first steps of the list, in list order, each begun after the entry of
    the step before it was logged.  It returns when it has run the whole
    list, and throws only when the pause after a step logged as an error
    is rejected. *)
Lemma executeWorkflow_prefix (actions : list Action.t) (w : Runner.World) :
  exists done rest logs r w',
    Runner.executeWorkflow actions w = (r, w')
    /\ actions = (done ++ rest)%list
    /\ Forall2 (fun a l => ExecutionLog.action l = Action.description a)
         done logs
    /\ Spec.markers (Runner.trace w')
       = (Spec.markers (Runner.trace w)
          ++ Spec.sequential 0 done logs)%list
    /\ match r with
       | JS.Ok x =>
           rest = []
           /\ exists shot,
                x = ExecutionResult.mk
                      (forallb
                         (fun l => LogStatus.notError (ExecutionLog.status l))
                         logs)
                      logs shot
       | JS.Throw e =>
           exists before l p k,
             logs = (before ++ [l])%list
             /\ ExecutionLog.status l = LogStatus.error
             /\ Runner.page w = Some p
             /\ Runner.perform p k (Runner.WaitForTimeout 500) = JS.Throw e
       end.
Proof.
  destruct (workflowLoop_prefix actions 0 [] w)
    as (done & rest & logs & r & w1 & E & A & F & P & Mk & R).
  unfold Runner.executeWorkflow. unfold bind at 1. rewrite E.
  destruct r as [all|e].
  - destruct R as (-> & ->). cbn [app]. unfold bind at 1.
    destruct (finalScreenshot_returns w1) as (shot & w2 & C & Q).
    rewrite C. unfold ret.
    eexists done, [], logs, _, w2. split; [reflexivity|].
    split; [exact A|]. split; [exact F|]. split.
    + now rewrite (markers_extends _ _ Q).
    + split; [reflexivity|]. exists shot. reflexivity.
  - exists done, rest, logs, (JS.Throw e), w1. split; [reflexivity|].
    split; [exact A|]. split; [exact F|]. split; [exact Mk | exact R].
Qed.

Lemma forallb_notError (logs : list ExecutionLog.t) :
  forallb (fun l => LogStatus.notError (ExecutionLog.status l)) logs = true
  <-> Forall (fun l => ExecutionLog.status l <> LogStatus.error) logs.
Proof.
  rewrite forallb_forall, Forall_forall.
  split; intros H l Hl; specialize (H l Hl);
    destruct (ExecutionLog.status l); cbn in *; congruence.
Qed.

(** When none of the strategies finds a match where it is tried,
    [trySelectors] tries them all, in order, and returns [null]. *)
Lemma trySelectors_none (p : Runner.Page) (selectors : list string) :
  forall w, Runner.page w = Some p ->
    Facts.noneMatches p (Runner.calls w) selectors ->
    Runner.trySelectors selectors w
    = (JS.Ok None, Facts.queried w selectors).
Proof.
  unfold Facts.queried.
  induction selectors as [|s rest IH]; intros w P N.
  - cbn. unfold ret. rewrite app_nil_r, Nat.add_0_r.
    destruct w; reflexivity.
  - cbn [Runner.trySelectors]. unfold bind at 1.
    unfold tryCatch, Runner.driver. rewrite P.
    set (w1 := Runner.mkWorld _ _ _ _ _ _).
    assert (E : Runner.trySelectors rest w1
                = (JS.Ok None,
                   Runner.mkWorld (Runner.page w)
                     (Runner.trace w
                      ++ map Runner.Call (map Runner.Query (s :: rest)))%list
                     (Runner.calls w + List.length (s :: rest))
                     (Runner.clock w) (Runner.clockReads w)
                     (Runner.maxArguments w))).
    { rewrite (IH w1).
      - subst w1. cbn [Runner.page Runner.trace Runner.calls Runner.clock
                       Runner.clockReads Runner.maxArguments map List.length].
        rewrite <- app_assoc, P. cbn [app].
        replace (S (Runner.calls w) + List.length rest)%nat
          with (Runner.calls w + S (List.length rest))%nat by lia.
        reflexivity.
      - subst w1. reflexivity.
      - subst w1. cbn [Runner.calls]. intros i t Hi.
        replace (S (Runner.calls w) + i)%nat
          with (Runner.calls w + S i)%nat by lia.
        apply (N (S i) t). exact Hi. }
    assert (Q0 : Runner.query p (Runner.calls w) s <> JS.Ok true).
    { rewrite <- (Nat.add_0_r (Runner.calls w)). apply (N 0%nat s).
      reflexivity. }
    destruct (Runner.query p (Runner.calls w) s) as [[|]|e] eqn:Q.
    + exfalso. apply Q0. reflexivity.
    + unfold ret. rewrite P in E. exact E.
    + unfold ret. rewrite P in E. exact E.
Qed.

End RunnerFacts.

(** The first step of the demo plan fails, the other three still run. *)
Example executeWorkflow_after_failure :
  let r := fst (Runner.executeWorkflow (App.generateActionsFromGoal demoGoal)
                  (Spec.freshWorld (Some Spec.flakyPage))) in
  option_map
    (fun x => (map ExecutionLog.status (ExecutionResult.logs x),
               ExecutionResult.success x))
    (match r with JS.Ok x => Some x | JS.Throw _ => None end)
  = Some ([LogStatus.error; LogStatus.success; LogStatus.success;
           LogStatus.success], false).
Proof. vm_compute. reflexivity. Qed.

(** C6.  The code breaks the claim where the pause after a failed step is
    itself rejected: [await page?.waitForTimeout(500)] stands outside every
    [try].  On a page that has been closed, the first step of the demo plan
    is logged as an error, the pause after it is rejected, and
    [executeWorkflow] rejects with that error: it returns no result and
    begins none of the three steps that follow.  That is the only way in
    which a run ends early: for every action list and every driver,
    [executeWorkflow] either returns, having begun every action in list
    order and logged each, whatever the statuses of the entries, with
    [success] true if and only if no entry has status 'error'; or it throws
    what a rejected pause threw, right after an entry with status 'error'.
    So wherever the pauses resolve the claim holds. *)
Theorem C6_rejected_pause_aborts_workflow :
  (let run :=
     Runner.executeWorkflow (App.generateActionsFromGoal demoGoal)
       (Spec.freshWorld (Some Spec.closedPage)) in
   fst run
   = JS.Throw (JS.Error "Target page, context or browser has been closed")
   /\ Spec.begun (Runner.trace (snd run)) = [Spec.clickProduct]
   /\ (exists log,
          Spec.markers (Runner.trace (snd run))
          = [Runner.Began 0 Spec.clickProduct; Runner.Logged 0 log]
          /\ ExecutionLog.status log = LogStatus.error)
   /\ last (Runner.trace (snd run)) (Runner.Call Runner.Screenshot)
      = Runner.Call (Runner.WaitForTimeout 500))
  /\ (forall (actions : list Action.t) (w : Runner.World),
      exists done rest logs r w',
        Runner.executeWorkflow actions w = (r, w')
        /\ actions = (done ++ rest)%list
        /\ Forall2 (fun a l => ExecutionLog.action l = Action.description a)
             done logs
        /\ Spec.markers (Runner.trace w')
           = (Spec.markers (Runner.trace w)
              ++ Spec.sequential 0 done logs)%list
        /\ match r with
           | JS.Ok x =>
               rest = []
               /\ ExecutionResult.logs x = logs
               /\ (ExecutionResult.success x = true
                   <-> Forall
                         (fun l => ExecutionLog.status l <> LogStatus.error)
                         logs)
           | JS.Throw e =>
               exists before l p k,
                 logs = (before ++ [l])%list
                 /\ ExecutionLog.status l = LogStatus.error
                 /\ Runner.page w = Some p
                 /\ Runner.perform p k (Runner.WaitForTimeout 500)
                    = JS.Throw e
           end)
  /\ (forall (actions : list Action.t) (w : Runner.World),
      Spec.pausesResolve w ->
      exists r w',
        Runner.executeWorkflow actions w = (JS.Ok r, w')
        /\ Forall2 (fun a l => ExecutionLog.action l = Action.description a)
             actions (ExecutionResult.logs r)
        /\ Spec.begun (Runner.trace w')
           = (Spec.begun (Runner.trace w) ++ actions)%list
        /\ Spec.markers (Runner.trace w')
           = (Spec.markers (Runner.trace w)
              ++ Spec.sequential 0 actions (ExecutionResult.logs r))%list
        /\ (ExecutionResult.success r = true
            <-> Forall (fun l => ExecutionLog.status l <> LogStatus.error)
                  (ExecutionResult.logs r))).
Proof.
  split; [|split].
  - cbv zeta. split; [vm_compute; reflexivity|].
    split; [vm_compute; reflexivity|]. split; [|vm_compute; reflexivity].
    eexists. split; [vm_compute; reflexivity | reflexivity].
  - intros actions w.
    destruct (executeWorkflow_prefix actions w)
      as (done & rest & logs & r & w' & E & A & F & Mk & R).
    exists done, rest, logs, r, w'. split; [exact E|].
    split; [exact A|]. split; [exact F|]. split; [exact Mk|].
    destruct r as [x|e]; [|exact R].
    destruct R as (-> & shot & ->).
    cbn [ExecutionResult.logs ExecutionResult.success].
    split; [reflexivity|]. split; [reflexivity|]. apply forallb_notError.
  - intros actions w R.
    destruct (executeWorkflow_returns actions w R)
      as (logs & shot & w' & E & F & Mk).
    eexists; exists w'. split; [exact E|].
    cbn [ExecutionResult.logs ExecutionResult.success].
    split; [exact F|]. split; [|split; [exact Mk|]].
    + rewrite <- (begun_markers (Runner.trace w')), Mk, begun_app,
        begun_markers, begun_sequential; [reflexivity|].
      symmetry. exact (Forall2_length F).
    + apply forallb_notError.
Qed.


(** C8.  A click whose target has no selector of its own and for which
    none of the five strategies of [findElement] finds a match where it is
    tried (the page answers no, or the query throws; what the page holds
    for other selectors does not matter) is performed as a mouse click
    at the centre of the bounding box, scaled to 800 by 600 pixels, for
    every box, in IEEE arithmetic; [executeAction] returns a log entry,
    with status 'error' if the driver rejects the click. *)
Theorem C8_coordinate_click
  (action : Action.t) (el : UIElement.t) (box : BoundingBox.t)
  (p : Runner.Page) (w : Runner.World) :
  Action.type action = ActionType.click ->
  Action.target action = Some el ->
  Runner.nonEmpty (UIElement.selector el) = None ->
  UIElement.boundingBox el = Some box ->
  Runner.page w = Some p ->
  Facts.noneMatches p (Runner.calls w)
    (Runner.selectorsFor (UIElement.text el)) ->
  let x := ((BoundingBox.x box + BoundingBox.width box / 2) / 100 * 800)%float in
  let y := ((BoundingBox.y box + BoundingBox.height box / 2) / 100 * 600)%float in
  exists log w',
    Runner.executeAction action w = (JS.Ok log, w')
    /\ Runner.trace w'
       = (Runner.trace w
          ++ map Runner.Call
               (map Runner.Query (Runner.selectorsFor (UIElement.text el))
                ++ [Runner.MouseClick x y]))%list
    /\ ExecutionLog.action log = Action.description action
    /\ ExecutionLog.status log
       = match Runner.perform p (Runner.calls w + 5) (Runner.MouseClick x y) with
         | JS.Ok _ => LogStatus.success
         | JS.Throw _ => LogStatus.error
         end.
Proof.
  intros Ht Hg Hs Hb P N x y.
  unfold Runner.executeAction, Eff.bind, Eff.get. rewrite P.
  unfold Runner.dateNow at 1. unfold Eff.tryCatch.
  set (w0 := Runner.mkWorld _ _ _ _ _ _).
  assert (E : Runner.performAction action w0
              = (Runner.perform p (Runner.calls w + 5) (Runner.MouseClick x y),
                 Runner.mkWorld (Some p)
                   (Runner.trace w
                    ++ map Runner.Call
                         (map Runner.Query
                            (Runner.selectorsFor (UIElement.text el))
                          ++ [Runner.MouseClick x y]))%list
                   (Runner.calls w + 6) (Runner.clock w)
                   (S (Runner.clockReads w)) (Runner.maxArguments w))).
  { unfold Runner.performAction. rewrite Ht. unfold Eff.bind.
    unfold Runner.resolveSelector, App.targetSelector. rewrite Hg, Hs.
    unfold Runner.findElement, Eff.bind, Eff.get.
    assert (P0 : Runner.page w0 = Some p) by (subst w0; exact P).
    assert (N0 : Facts.noneMatches p (Runner.calls w0)
                   (Runner.selectorsFor (UIElement.text el)))
      by (subst w0; exact N).
    rewrite P0, (trySelectors_none p _ w0 P0 N0). unfold Facts.queried.
    cbn [Runner.nonEmpty]. unfold Runner.targetBox. rewrite Hg, Hb.
    unfold Runner.driver.
    cbn [Runner.page Runner.trace Runner.calls Runner.clock
         Runner.clockReads Runner.maxArguments].
    rewrite P0. subst w0.
    cbn [Runner.page Runner.trace Runner.calls Runner.clock
         Runner.clockReads Runner.maxArguments].
    change (List.length (Runner.selectorsFor (UIElement.text el)))
      with 5%nat.
    unfold Runner.clickPoint. cbn [fst snd]. fold x y.
    rewrite map_app, <- app_assoc. cbn [map].
    replace (S (Runner.calls w + 5)) with (Runner.calls w + 6)%nat by lia.
    reflexivity. }
  rewrite E.
  destruct (Runner.perform p (Runner.calls w + 5) (Runner.MouseClick x y)) as [[]|e].
  - unfold Eff.bind, Runner.dateNow, Eff.ret. cbn.
    eexists; eexists. split; [reflexivity|]. cbn. repeat split.
  - unfold Eff.bind, Runner.dateNow, Eff.ret. cbn.
    eexists; eexists. split; [reflexivity|]. cbn. repeat split.
Qed.

(** The box of width and height 0 at (10, 20) is clicked at (80, 120), on
    a page that has matches, but none for the five strategies. *)
Lemma C8_degenerate_box_witness :
  Facts.noneMatches Spec.bodyPage 0 (Runner.selectorsFor "Dot")
  /\ Runner.query Spec.bodyPage 0 "body" = JS.Ok true
  /\ exists log w',
       Runner.executeAction Spec.degenerateClick
         (Spec.freshWorld (Some Spec.bodyPage))
       = (JS.Ok log, w')
       /\ Runner.trace w'
          = map Runner.Call
              (map Runner.Query (Runner.selectorsFor "Dot")
               ++ [Runner.MouseClick 80 120])
       /\ ExecutionLog.action log = "Click the dot"
       /\ ExecutionLog.status log = LogStatus.success.
Proof.
  assert (N : Facts.noneMatches Spec.bodyPage 0 (Runner.selectorsFor "Dot")).
  { intros i sel H C.
    do 5 (destruct i as [|i];
          [injection H as <-; vm_compute in C; discriminate C|]).
    destruct i; discriminate H. }
  split; [exact N|]. split; [reflexivity|].
  exact (C8_coordinate_click Spec.degenerateClick Spec.degenerateTarget
           (BoundingBox.mk 10 20 0 0) Spec.bodyPage
           (Spec.freshWorld (Some Spec.bodyPage))
           eq_refl eq_refl eq_refl eq_refl eq_refl N).
Defined.

(** ** Step executor of the UI *)

Section AppFacts.

Import Eff.
Local Open Scope eff_scope.

(** Updating the element at one index leaves the others as they are. *)
Lemma mapiFrom_at {A : Type} (f : A -> A) (l1 : list A) (a : A)
  (l2 : list A) :
  forall start,
    App.mapiFrom start
      (fun idx x => if (idx =? start + List.length l1)%nat then f x else x)
      (l1 ++ a :: l2)
    = (l1 ++ f a :: l2)%list.
Proof.
  induction l1 as [|b l1 IH]; intros start; cbn [app List.length App.mapiFrom].
  - rewrite Nat.add_0_r, Nat.eqb_refl. f_equal.
    assert (G : forall l k, (start < k)%nat ->
                App.mapiFrom k
                  (fun idx x => if (idx =? start)%nat then f x else x) l = l).
    { induction l as [|c l IHl]; intros k Hk; cbn [App.mapiFrom].
      - reflexivity.
      - destruct (Nat.eqb_spec k start); [lia|].
        f_equal. apply IHl. lia. }
    replace (fun idx x => if (idx =? start + 0)%nat then f x else x)
      with (fun idx x => if (idx =? start)%nat then f x else x).
    + apply G. lia.
    + rewrite Nat.add_0_r. reflexivity.
  - destruct (Nat.eqb_spec start (start + S (List.length l1))); [lia|].
    f_equal.
    replace (start + S (List.length l1))%nat
      with (S start + List.length l1)%nat by lia.
    apply IH.
Qed.

Lemma mapi_at {A : Type} (f : A -> A) (l1 : list A) (a : A) (l2 : list A)
  (i : nat) :
  List.length l1 = i ->
  App.mapi (fun idx x => if (idx =? i)%nat then f x else x) (l1 ++ a :: l2)
  = (l1 ++ f a :: l2)%list.
Proof.
  intros <-. unfold App.mapi. exact (mapiFrom_at f l1 a l2 0).
Qed.

(** One iteration of the loop of [handleExecute] sets its step to
    executing, then to completed or failed, and touches no other step. *)
Lemma executeStep_spec (n i : nat) (action : Action.t) (w : App.World)
  (before : list Action.t) (a : Action.t) (after : list Action.t) :
  AgentState.actions (App.agentState w) = (before ++ a :: after)%list ->
  List.length before = i ->
  exists st1 st2 running finished w',
    App.executeStep n i action w = (JS.Ok tt, w')
    /\ App.history w' = (App.history w ++ [st1; st2])%list
    /\ App.agentState w' = st2
    /\ AgentState.actions st1 = (before ++ running :: after)%list
    /\ Action.status running = ActionStatus.executing
    /\ AgentState.actions st2 = (before ++ finished :: after)%list
    /\ Spec.isTerminal finished
    /\ Action.id finished = Action.id a.
Proof.
  intros Ha Hi. unfold App.executeStep.
  unfold bind, App.setAgentState, App.mathRandom, App.newDate, App.sleep, ret.
  cbn [App.agentState App.history App.clock App.clockReads App.random
       App.randomDraws AgentState.actions].
  rewrite Ha, (mapi_at _ before a after i Hi).
  rewrite (mapi_at _ before _ after i Hi).
  destruct (PrimFloat.ltb _ _) eqn:S;
    destruct (negb _ && _);
    (do 5 eexists; split; [reflexivity|];
     cbn [App.agentState App.history AgentState.actions];
     rewrite <- app_assoc; cbn [app];
     repeat split; reflexivity).
Qed.

(** The loop: started on a plan whose first [i] steps are finished and
    whose other steps are pending, every state it sets has its steps run
    one at a time, and it ends with every step finished. *)
Lemma executeSteps_spec (n : nat) (rest : list Action.t) :
  forall (i : nat) (w : App.World) (before : list Action.t),
    AgentState.actions (App.agentState w) = (before ++ rest)%list ->
    List.length before = i ->
    Forall Spec.isTerminal before ->
    Forall Spec.isPending rest ->
    exists states finished w',
      App.executeSteps n i rest w = (JS.Ok tt, w')
      /\ App.history w' = (App.history w ++ states)%list
      /\ AgentState.actions (App.agentState w') = (before ++ finished)%list
      /\ Forall Spec.isTerminal finished
      /\ map Action.id finished = map Action.id rest
      /\ Forall (fun st => Spec.oneAtATime (AgentState.actions st)) states.
Proof.
  induction rest as [|a rest IH]; intros i w before Ha Hi Hb Hr.
  - exists [], [], w. cbn [App.executeSteps]. unfold ret.
    rewrite !app_nil_r. repeat split; try constructor.
    rewrite Ha, app_nil_r. reflexivity.
  - cbn [App.executeSteps]. unfold bind at 1.
    destruct (executeStep_spec n i a w before a rest Ha Hi)
      as (st1 & st2 & running & fin & w1 & E & H1 & S2 & A1 & R1 & A2 & T2 & I2).
    rewrite E.
    pose proof (Forall_inv_tail Hr) as Pr.
    destruct (IH (S i) w1 (before ++ [fin])%list)
      as (states & finished & w2 & E2 & H2 & A3 & T3 & I3 & O3).
    + rewrite S2, A2, <- app_assoc. reflexivity.
    + rewrite length_app. cbn. lia.
    + apply Forall_app. split; [exact Hb | constructor; [exact T2|constructor]].
    + exact Pr.
    + exists (st1 :: st2 :: states), (fin :: finished), w2.
      split; [exact E2|]. split; [|split; [|split; [|split]]].
      * rewrite H2, H1, <- app_assoc. reflexivity.
      * rewrite A3, <- app_assoc. reflexivity.
      * constructor; assumption.
      * cbn [map]. congruence.
      * constructor; [|constructor; [|exact O3]].
        -- exists before, (running :: rest). split; [exact A1|].
           split; [exact Hb|]. right. exists running, rest. auto.
        -- exists (before ++ [fin])%list, rest. split.
           ++ rewrite A2, <- app_assoc. reflexivity.
           ++ split; [|left; exact Pr].
              apply Forall_app. split; [exact Hb|].
              constructor; [exact T2 | constructor].
Qed.

(** [handleExecute] on a pending plan. *)
Lemma handleExecute_spec (w : App.World) :
  Forall Spec.isPending (AgentState.actions (App.agentState w)) ->
  exists states w',
    App.handleExecute w = (JS.Ok tt, w')
    /\ App.history w' = (App.history w ++ states)%list
    /\ Forall (fun st => Spec.oneAtATime (AgentState.actions st)) states
    /\ Forall Spec.isTerminal (AgentState.actions (App.agentState w'))
    /\ map Action.id (AgentState.actions (App.agentState w'))
       = map Action.id (AgentState.actions (App.agentState w)).
Proof.
  intros Hp. unfold App.handleExecute.
  unfold bind at 1. unfold get at 1.
  unfold bind at 1. unfold App.newDate at 1.
  unfold bind at 1. unfold App.setAgentState at 1.
  set (st0 := AgentState.mk _ _ _ _ _ _ _).
  set (w0 := App.mkWorld _ _ _ _ _ _).
  unfold bind at 1.
  destruct (executeSteps_spec
              (List.length (AgentState.actions (App.agentState w)))
              (AgentState.actions (App.agentState w)) 0 w0 [])
    as (states & finished & w1 & E & H1 & A1 & T1 & I1 & O1);
    [reflexivity | reflexivity | constructor | exact Hp |].
  rewrite E. cbn [app] in A1.
  unfold App.generateArtifacts, App.generateSummary.
  unfold bind, App.newDate, App.setAgentState, ret.
  cbn [App.agentState App.history App.clock App.clockReads App.random
       App.randomDraws].
  set (st2 := AgentState.mk _ _ _ _ _ _ _).
  exists ((st0 :: states) ++ [st2])%list. eexists.
  split; [reflexivity|].
  cbn [App.agentState App.history].
  split; [|split; [|split]].
  - rewrite H1. subst w0. cbn [App.history].
    rewrite <- !app_assoc. reflexivity.
  - apply Forall_app. split; [constructor; [|exact O1]|constructor; [|constructor]].
    + exists [], (AgentState.actions (App.agentState w)).
      split; [reflexivity|]. split; [constructor | left; exact Hp].
    + exists finished, []. subst st2. cbn [AgentState.actions].
      rewrite A1, app_nil_r. split; [reflexivity|].
      split; [exact T1 | left; constructor].
  - subst st2. cbn [AgentState.actions]. rewrite A1. exact T1.
  - subst st2. cbn [AgentState.actions]. rewrite A1. exact I1.
Qed.
End AppFacts.




(* ===================================================================== *)
(** * Further properties of the runner                                   *)
(* ===================================================================== *)

Section FindElement.

Import Eff.
Local Open Scope eff_scope.

Lemma queried_nil (w : Runner.World) : Facts.queried w [] = w.
Proof.
  unfold Facts.queried. cbn [map List.length].
  rewrite app_nil_r, Nat.add_0_r. destruct w; reflexivity.
Qed.

Lemma queried_cons (w : Runner.World) (s : string) (rest : list string) :
  Facts.queried
    (Runner.mkWorld (Runner.page w)
       (Runner.trace w ++ [Runner.Call (Runner.Query s)])
       (S (Runner.calls w)) (Runner.clock w) (Runner.clockReads w)
       (Runner.maxArguments w)) rest
  = Facts.queried w (s :: rest).
Proof.
  unfold Facts.queried.
  cbn [Runner.page Runner.trace Runner.calls Runner.clock Runner.clockReads
       map List.length].
  rewrite <- app_assoc. cbn [app]. f_equal. lia.
Qed.

Lemma trySelectors_step (p : Runner.Page) (s : string) (rest : list string)
  (w : Runner.World) :
  Runner.page w = Some p ->
  Runner.trySelectors (s :: rest) w
  = let w1 := Runner.mkWorld (Some p)
                (Runner.trace w ++ [Runner.Call (Runner.Query s)])
                (S (Runner.calls w)) (Runner.clock w) (Runner.clockReads w)
                (Runner.maxArguments w) in
    match Runner.query p (Runner.calls w) s with
    | JS.Ok true => (JS.Ok (Some s), w1)
    | _ => Runner.trySelectors rest w1
    end.
Proof.
  intros P. cbn [Runner.trySelectors]. unfold bind at 1.
  unfold tryCatch, Runner.driver. rewrite P.
  destruct (Runner.query p (Runner.calls w) s) as [[|]|e]; reflexivity.
Qed.

(** [trySelectors] returns the first selector for which the page has a
    match and asks for no selector after it; it returns [null] after asking
    for all of them when none has a match. *)
Lemma trySelectors_first_match (p : Runner.Page) (selectors : list string) :
  forall w, Runner.page w = Some p ->
    (exists before s after,
        selectors = (before ++ s :: after)%list
        /\ Facts.noneMatches p (Runner.calls w) before
        /\ Runner.query p (Runner.calls w + List.length before) s = JS.Ok true
        /\ Runner.trySelectors selectors w
           = (JS.Ok (Some s), Facts.queried w (before ++ [s])))
    \/ (Facts.noneMatches p (Runner.calls w) selectors
        /\ Runner.trySelectors selectors w
           = (JS.Ok None, Facts.queried w selectors)).
Proof.
  induction selectors as [|s rest IH]; intros w P.
  - right. split.
    + intros i t H. destruct i; discriminate.
    + cbn. unfold ret. now rewrite queried_nil.
  - rewrite (trySelectors_step p s rest w P).
    set (w1 := Runner.mkWorld _ _ _ _ _ _).
    assert (P1 : Runner.page w1 = Some p) by reflexivity.
    assert (Skip :
      Runner.query p (Runner.calls w) s <> JS.Ok true ->
      (exists before s0 after,
          (s :: rest) = (before ++ s0 :: after)%list
          /\ Facts.noneMatches p (Runner.calls w) before
          /\ Runner.query p (Runner.calls w + List.length before) s0
             = JS.Ok true
          /\ Runner.trySelectors rest w1
             = (JS.Ok (Some s0), Facts.queried w (before ++ [s0])))
      \/ (Facts.noneMatches p (Runner.calls w) (s :: rest)
          /\ Runner.trySelectors rest w1
             = (JS.Ok None, Facts.queried w (s :: rest)))).
    { intros N.
      destruct (IH w1 P1) as [(before & s0 & after & E & Nb & Q & R)|[Nn R]].
      - left. exists (s :: before), s0, after. split; [cbn; congruence|].
        split; [|split].
        + intros [|i] t H; cbn in H.
          * injection H as <-. now rewrite Nat.add_0_r.
          * replace (Runner.calls w + S i)%nat
              with (Runner.calls w1 + i)%nat by (subst w1; cbn; lia).
            exact (Nb i t H).
        + replace (Runner.calls w + List.length (s :: before))%nat
            with (Runner.calls w1 + List.length before)%nat
            by (subst w1; cbn; lia).
          exact Q.
        + rewrite R. subst w1. rewrite <- P. cbn [app].
          now rewrite queried_cons.
      - right. split.
        + intros [|i] t H; cbn in H.
          * injection H as <-. now rewrite Nat.add_0_r.
          * replace (Runner.calls w + S i)%nat
              with (Runner.calls w1 + i)%nat by (subst w1; cbn; lia).
            exact (Nn i t H).
        + rewrite R. subst w1. rewrite <- P. now rewrite queried_cons. }
    destruct (Runner.query p (Runner.calls w) s) as [[|]|e] eqn:Q.
    + left. exists [], s, rest. split; [reflexivity|]. split; [|split].
      * intros i t H. destruct i; discriminate.
      * cbn. now rewrite Nat.add_0_r.
      * subst w1. rewrite <- P. cbn [app].
        rewrite <- (queried_nil (Runner.mkWorld _ _ _ _ _ _)).
        now rewrite queried_cons.
    + apply Skip. discriminate.
    + apply Skip. discriminate.
Qed.

(** With a page open, [executeAction] is its operation followed by the
    log entry for the outcome. *)
Lemma executeAction_on_page (action : Action.t) (w : Runner.World)
  (p : Runner.Page) (outcome : JS.res unit) (w1 : Runner.World) :
  Runner.page w = Some p ->
  Runner.performAction action (Facts.tick w) = (outcome, w1) ->
  Runner.executeAction action w
  = (JS.Ok (Facts.logFor action (Runner.clock w (Runner.clockReads w))
              outcome w1),
     match outcome with
     | JS.Ok _ => Facts.tick (Facts.tick w1)
     | JS.Throw _ => Facts.tick w1
     end).
Proof.
  intros P E. unfold Runner.executeAction, bind, get. rewrite P.
  unfold Runner.dateNow at 1. unfold tryCatch.
  fold (Facts.tick w). rewrite E.
  destruct outcome as [[]|e]; reflexivity.
Qed.

Lemma executeAction_no_page (action : Action.t) (w : Runner.World) :
  Runner.page w = None ->
  Runner.executeAction action w
  = (JS.Ok (Facts.noPageLog action (Runner.clock w (Runner.clockReads w))),
     Facts.tick w).
Proof.
  intros P. unfold Runner.executeAction, bind, get. rewrite P. reflexivity.
Qed.

Lemma tick_extends (w : Runner.World) : Spec.extends w (Facts.tick w).
Proof.
  repeat split. exists []. cbn. now rewrite app_nil_r.
Qed.

Lemma trySelectors_none_match (p : Runner.Page) (selectors : list string)
  (w : Runner.World) :
  Runner.page w = Some p ->
  Facts.noneMatches p (Runner.calls w) selectors ->
  Runner.trySelectors selectors w
  = (JS.Ok None, Facts.queried w selectors).
Proof.
  intros P N.
  destruct (trySelectors_first_match p selectors w P)
    as [(before & s & after & E & _ & Q & _)|[_ R]]; [|exact R].
  exfalso. apply (N (List.length before) s); [|exact Q].
  rewrite E, nth_error_app2, Nat.sub_diag; [reflexivity | lia].
Qed.

End FindElement.

(** X1.  [findElement] without a page returns [null] and asks nothing.
    With a page it asks for the five selector strategies in order and
    returns the first one for which the page has a match, asking for none
    after it; a strategy whose query throws counts as no match; when no
    strategy has a match it returns [null] after asking for all five. *)
Theorem findElement_first_match (el : UIElement.t) (w : Runner.World) :
  match Runner.page w with
  | None => Runner.findElement (Some el) w = (JS.Ok None, w)
  | Some p =>
      let selectors := Runner.selectorsFor (UIElement.text el) in
      (exists before s after,
          selectors = (before ++ s :: after)%list
          /\ Facts.noneMatches p (Runner.calls w) before
          /\ Runner.query p (Runner.calls w + List.length before) s
             = JS.Ok true
          /\ Runner.findElement (Some el) w
             = (JS.Ok (Some s), Facts.queried w (before ++ [s])))
      \/ (Facts.noneMatches p (Runner.calls w) selectors
          /\ Runner.findElement (Some el) w
             = (JS.Ok None, Facts.queried w selectors))
  end.
Proof.
  destruct (Runner.page w) as [p|] eqn:P.
  - assert (E : Runner.findElement (Some el) w
                = Runner.trySelectors
                    (Runner.selectorsFor (UIElement.text el)) w).
    { unfold Runner.findElement, Eff.bind, Eff.get. now rewrite P. }
    rewrite E.
    exact (trySelectors_first_match p _ w P).
  - unfold Runner.findElement, Eff.bind, Eff.get. now rewrite P.
Qed.

(** X2.  [executeAction] never throws: whatever the action and whatever
    the driver does, it returns a log entry for the action, with status
    'success' or 'error' and with details; it leaves the page and the
    clock as they are and only adds driver calls to the events.  Without a
    page the entry is the 'No page initialized' error and the driver is not
    called. *)
Theorem executeAction_never_throws (action : Action.t) (w : Runner.World) :
  exists log w',
    Runner.executeAction action w = (JS.Ok log, w')
    /\ ExecutionLog.action log = Action.description action
    /\ ExecutionLog.status log <> LogStatus.info
    /\ ExecutionLog.details log <> None
    /\ Spec.extends w w'
    /\ (Runner.page w = None ->
        log = Facts.noPageLog action (Runner.clock w (Runner.clockReads w))
        /\ Runner.trace w' = Runner.trace w
        /\ Runner.calls w' = Runner.calls w).
Proof.
  destruct (Runner.page w) as [p|] eqn:P.
  - destruct (Runner.performAction action (Facts.tick w))
      as [outcome w1] eqn:E.
    pose proof (quiet_performAction action (Facts.tick w)) as Q.
    rewrite E in Q. cbn [snd] in Q.
    rewrite (executeAction_on_page action w p outcome w1 P E).
    eexists; eexists. split; [reflexivity|].
    assert (X : Spec.extends w w1)
      by exact (extends_trans _ _ _ (tick_extends w) Q).
    destruct outcome as [[]|e]; cbn [Facts.logFor ExecutionLog.action
      ExecutionLog.status ExecutionLog.details];
      (split; [reflexivity|]); (split; [discriminate|]);
      (split; [discriminate|]); (split; [|discriminate]).
    + exact (extends_trans _ _ _ X
               (extends_trans _ _ _ (tick_extends w1)
                  (tick_extends (Facts.tick w1)))).
    + exact (extends_trans _ _ _ X (tick_extends w1)).
  - rewrite (executeAction_no_page action w P).
    eexists; eexists. split; [reflexivity|]. cbn.
    split; [reflexivity|]. split; [discriminate|]. split; [discriminate|].
    split; [exact (tick_extends w)|]. intros _. repeat split.
Qed.

Section Workflow.

Import Eff.
Local Open Scope eff_scope.

(** The loop of [executeWorkflow] when no page is open. *)
Lemma workflowLoop_no_page (actions : list Action.t) :
  forall (i : nat) (logs0 : list ExecutionLog.t) (w : Runner.World),
    Runner.page w = None ->
    exists logs w',
      Runner.workflowLoop i actions logs0 w = (JS.Ok (logs0 ++ logs)%list, w')
      /\ Forall2 (fun a l => exists now, l = Facts.noPageLog a now)
           actions logs
      /\ Runner.page w' = None
      /\ Runner.calls w' = Runner.calls w
      /\ Runner.trace w'
         = (Runner.trace w ++ Spec.sequential i actions logs)%list.
Proof.
  induction actions as [|a rest IH]; intros i logs0 w P.
  - exists [], w. cbn. rewrite !app_nil_r. repeat split; auto.
  - cbn [Runner.workflowLoop]. unfold bind at 1.
    unfold Runner.emit at 1, modify.
    set (w1 := Runner.mkWorld _ _ _ _ _ _).
    assert (P1 : Runner.page w1 = None) by exact P.
    unfold bind at 1. rewrite (executeAction_no_page a w1 P1).
    set (log := Facts.noPageLog a _).
    unfold bind at 1. unfold Runner.emit at 1, modify.
    set (w2 := Runner.mkWorld _ _ _ _ _ _).
    assert (P2 : Runner.page w2 = None) by exact P.
    unfold bind at 1.
    assert (E : Runner.pauseAfterError log w2 = (JS.Ok tt, w2)).
    { unfold Runner.pauseAfterError, bind, get. subst log.
      cbn [Facts.noPageLog ExecutionLog.status]. now rewrite P2. }
    rewrite E.
    destruct (IH (S i) (logs0 ++ [log])%list w2 P2)
      as (logs & w' & R & F & P' & C' & T').
    exists (log :: logs), w'. rewrite R, <- app_assoc. cbn [app].
    split; [reflexivity|]. split; [|split; [exact P'|split]].
    + constructor; [eexists; reflexivity | exact F].
    + rewrite C'. reflexivity.
    + rewrite T'. subst w2 w1. cbn [Runner.trace Facts.tick].
      rewrite <- !app_assoc. reflexivity.
Qed.

End Workflow.

(** Without a page [executeWorkflow] still returns a result: every
    action gets the 'No page initialized' error entry, in list order, the
    driver is never called, no screenshot is taken, and [success] is true
    only for the empty list. *)
Lemma executeWorkflow_no_page
  (actions : list Action.t) (w : Runner.World) :
  Runner.page w = None ->
  exists logs w',
    Runner.executeWorkflow actions w
    = (JS.Ok (ExecutionResult.mk
                (match actions with [] => true | _ :: _ => false end)
                logs None), w')
    /\ Forall2 (fun a l => exists now, l = Facts.noPageLog a now)
         actions logs
    /\ Runner.calls w' = Runner.calls w
    /\ Runner.trace w'
       = (Runner.trace w ++ Spec.sequential 0 actions logs)%list.
Proof.
  intros P.
  destruct (workflowLoop_no_page actions 0 [] w P)
    as (logs & w' & R & F & P' & C' & T').
  exists logs, w'. unfold Runner.executeWorkflow, Eff.bind.
  rewrite R. cbn [app].
  unfold Eff.tryCatch, Runner.captureScreen, Eff.bind, Eff.get, Eff.throw,
    Eff.ret.
  rewrite P'.
  replace (forallb (fun l => LogStatus.notError (ExecutionLog.status l)) logs)
    with (match actions with [] => true | _ :: _ => false end).
  - repeat split; assumption.
  - destruct F as [|a l actions' logs' [now ->] _]; reflexivity.
Qed.

(** X3.  Without a page [executeWorkflow] still returns a result: every
    action gets the 'No page initialized' error entry, in list order, the
    driver is never called, no screenshot is taken, and [success] is true
    only for the empty list. *)
Theorem executeWorkflow_without_page
  (actions : list Action.t) (w : Runner.World) :
  Runner.page w = None ->
  exists logs w',
    Runner.executeWorkflow actions w
    = (JS.Ok (ExecutionResult.mk
                (match actions with [] => true | _ :: _ => false end)
                logs None), w')
    /\ Forall2 (fun a l => exists now, l = Facts.noPageLog a now)
         actions logs
    /\ Runner.calls w' = Runner.calls w
    /\ Runner.trace w'
       = (Runner.trace w ++ Spec.sequential 0 actions logs)%list.
Proof. exact (executeWorkflow_no_page actions w). Qed.

Lemma executeWorkflow_without_page_witness :
  Runner.page (Spec.freshWorld None) = None
  /\ exists logs w',
       Runner.executeWorkflow Spec.swappedPlan (Spec.freshWorld None)
       = (JS.Ok (ExecutionResult.mk false logs None), w')
       /\ Forall2 (fun a l => exists now, l = Facts.noPageLog a now)
            Spec.swappedPlan logs
       /\ Runner.calls w' = 0%nat
       /\ Runner.trace w' = Spec.sequential 0 Spec.swappedPlan logs.
Proof.
  split; [reflexivity|].
  exact (executeWorkflow_without_page Spec.swappedPlan
           (Spec.freshWorld None) eq_refl).
Defined.

(** X4.  An action that [executeAction] has no operation for is logged as
    a success without any driver call: a 'select', a 'navigate', and a
    'type' whose target carries a selector but whose value is missing or
    empty. *)
Theorem executeAction_inert_success
  (action : Action.t) (p : Runner.Page) (w : Runner.World) :
  Runner.page w = Some p ->
  Facts.inert action ->
  exists log w',
    Runner.executeAction action w = (JS.Ok log, w')
    /\ ExecutionLog.status log = LogStatus.success
    /\ Runner.trace w' = Runner.trace w
    /\ Runner.calls w' = Runner.calls w.
Proof.
  intros P I.
  assert (E : Runner.performAction action (Facts.tick w)
              = (JS.Ok tt, Facts.tick w)).
  { unfold Runner.performAction.
    destruct I as [T|[T|(T & S & V)]]; rewrite T; try reflexivity.
    unfold Eff.bind, Runner.resolveSelector.
    destruct (Runner.nonEmpty (App.targetSelector action)) as [s|] eqn:Sel;
      [|contradiction].
    unfold Eff.ret. cbn [Runner.nonEmpty].
    assert (N : s <> "").
    { unfold Runner.nonEmpty in Sel.
      destruct (App.targetSelector action) as [t|]; [|discriminate].
      destruct (String.eqb_spec t ""); [discriminate|]. congruence. }
    destruct (String.eqb_spec s ""); [contradiction|].
    rewrite V. reflexivity. }
  rewrite (executeAction_on_page action w p _ _ P E).
  eexists; eexists. split; [reflexivity|]. repeat split.
Qed.

Lemma executeAction_inert_success_witness :
  let action :=
    Spec.mkAction "9" ActionType.navigate "Open the cart page" 9 None
      Spec.degenerateTarget in
  let w := Spec.freshWorld (Some Spec.blankPage) in
  Facts.inert action
  /\ exists log w',
       Runner.executeAction action w = (JS.Ok log, w')
       /\ ExecutionLog.status log = LogStatus.success
       /\ Runner.trace w' = []
       /\ Runner.calls w' = 0%nat.
Proof.
  intros action w.
  assert (I : Facts.inert action) by (right; left; reflexivity).
  split; [exact I|].
  exact (executeAction_inert_success action Spec.blankPage w eq_refl I).
Defined.

(** X5.  When the target of a click or a type cannot be reached (no
    selector of its own, no match for any strategy and, for a click, no
    bounding box), [executeAction] asks for the five strategies, performs
    no click and no fill, and logs the action as a success. *)
Theorem executeAction_unreachable_success
  (action : Action.t) (el : UIElement.t) (p : Runner.Page)
  (w : Runner.World) :
  Runner.page w = Some p ->
  Facts.unreachable action el p (Runner.calls w) ->
  exists log w',
    Runner.executeAction action w = (JS.Ok log, w')
    /\ ExecutionLog.status log = LogStatus.success
    /\ Runner.trace w'
       = (Runner.trace w
          ++ map Runner.Call
               (map Runner.Query
                  (Runner.selectorsFor (UIElement.text el))))%list.
Proof.
  intros P (G & S & N & K).
  assert (R : Runner.resolveSelector action (Facts.tick w)
              = (JS.Ok None,
                 Facts.queried (Facts.tick w)
                   (Runner.selectorsFor (UIElement.text el)))).
  { unfold Runner.resolveSelector, App.targetSelector. rewrite G, S.
    unfold Runner.findElement, Eff.bind, Eff.get.
    cbn [Facts.tick Runner.page]. rewrite P.
    exact (trySelectors_none_match p _ (Facts.tick w) P N). }
  assert (E : Runner.performAction action (Facts.tick w)
              = (JS.Ok tt,
                 Facts.queried (Facts.tick w)
                   (Runner.selectorsFor (UIElement.text el)))).
  { unfold Runner.performAction.
    destruct K as [[T B]|T]; rewrite T; unfold Eff.bind; rewrite R;
      cbn [Runner.nonEmpty].
    - unfold Runner.targetBox. rewrite G, B. reflexivity.
    - reflexivity. }
  rewrite (executeAction_on_page action w p _ _ P E).
  eexists; eexists. split; [reflexivity|]. split; reflexivity.
Qed.

Lemma executeAction_unreachable_success_witness :
  let el := {| UIElement.id := "ghost"; UIElement.tag := "button";
               UIElement.text := "Ghost"; UIElement.boundingBox := None;
               UIElement.selector := None; UIElement.clickable := None;
               UIElement.inputable := None |} in
  let action :=
    Spec.mkAction "7" ActionType.click "Click the ghost" 7 None el in
  let w := Spec.freshWorld (Some Spec.blankPage) in
  Facts.unreachable action el Spec.blankPage (Runner.calls w)
  /\ exists log w',
       Runner.executeAction action w = (JS.Ok log, w')
       /\ ExecutionLog.status log = LogStatus.success
       /\ Runner.trace w'
          = map Runner.Call (map Runner.Query (Runner.selectorsFor "Ghost")).
Proof.
  intros el action w.
  assert (U : Facts.unreachable action el Spec.blankPage (Runner.calls w)).
  { split; [reflexivity|]. split; [reflexivity|]. split.
    - intros i s _ C. discriminate.
    - left. split; reflexivity. }
  split; [exact U|].
  exact (executeAction_unreachable_success action el Spec.blankPage w
           eq_refl U).
Defined.

(** X6.  A click or a type whose target carries its own selector goes to
    the driver with that selector, without any lookup: one [page.click],
    or one [page.fill] with the value.  The log entry has status 'success'
    if the driver accepts the call; if it throws an [Error], the entry has
    status 'error' and the message of the error as details. *)
Theorem executeAction_own_selector
  (action : Action.t) (el : UIElement.t) (s : string) (c : Runner.call)
  (p : Runner.Page) (w : Runner.World) :
  Runner.page w = Some p ->
  Action.target action = Some el ->
  UIElement.selector el = Some s ->
  s <> "" ->
  (Action.type action = ActionType.click /\ c = Runner.Click s)
  \/ (exists v, Action.type action = ActionType.type
                /\ Runner.nonEmpty (Action.value action) = Some v
                /\ c = Runner.Fill s v) ->
  exists log w',
    Runner.executeAction action w = (JS.Ok log, w')
    /\ Runner.trace w' = (Runner.trace w ++ [Runner.Call c])%list
    /\ match Runner.perform p (Runner.calls w) c with
       | JS.Ok _ => ExecutionLog.status log = LogStatus.success
       | JS.Throw e =>
           ExecutionLog.status log = LogStatus.error
           /\ forall m, e = JS.Error m -> ExecutionLog.details log = Some m
       end.
Proof.
  intros P G S N K.
  assert (R : Runner.resolveSelector action (Facts.tick w)
              = (JS.Ok (Some s), Facts.tick w)).
  { unfold Runner.resolveSelector, App.targetSelector. rewrite G, S.
    cbn [Runner.nonEmpty]. destruct (String.eqb_spec s ""); [contradiction|].
    reflexivity. }
  assert (E : Runner.performAction action (Facts.tick w)
              = (Runner.perform p (Runner.calls w) c,
                 Facts.called (Facts.tick w) c)).
  { unfold Runner.performAction.
    destruct K as [[T ->]|(v & T & V & ->)]; rewrite T; unfold Eff.bind;
      rewrite R; cbn [Runner.nonEmpty];
      (destruct (String.eqb_spec s ""); [contradiction|]).
    - unfold Runner.driver. cbn [Facts.tick Runner.page]. rewrite P.
      unfold Facts.called. cbn [Facts.tick Runner.page Runner.trace
        Runner.calls Runner.clock Runner.clockReads]. now rewrite P.
    - rewrite V. unfold Runner.driver. cbn [Facts.tick Runner.page].
      rewrite P. unfold Facts.called. cbn [Facts.tick Runner.page
        Runner.trace Runner.calls Runner.clock Runner.clockReads].
      now rewrite P. }
  rewrite (executeAction_on_page action w p _ _ P E).
  eexists; eexists. split; [reflexivity|].
  destruct (Runner.perform p (Runner.calls w) c) as [[]|e]; cbn.
  - split; reflexivity.
  - split; [reflexivity|]. split; [reflexivity|]. intros m ->. reflexivity.
Qed.

Lemma executeAction_own_selector_witness :
  let el := {| UIElement.id := "buy"; UIElement.tag := "button";
               UIElement.text := "Buy"; UIElement.boundingBox := None;
               UIElement.selector := Some "#buy";
               UIElement.clickable := Some true;
               UIElement.inputable := None |} in
  let action := Spec.mkAction "1" ActionType.click "Click Buy" 1 None el in
  exists log w',
    Runner.executeAction action (Spec.freshWorld (Some Spec.blankPage))
    = (JS.Ok log, w')
    /\ Runner.trace w' = [Runner.Call (Runner.Click "#buy")]
    /\ ExecutionLog.status log = LogStatus.success.
Proof.
  intros el action.
  exact (executeAction_own_selector action el "#buy" (Runner.Click "#buy")
           Spec.blankPage (Spec.freshWorld (Some Spec.blankPage))
           eq_refl eq_refl eq_refl
           (fun C : "#buy" = "" => ltac:(discriminate C))
           (or_introl (conj eq_refl eq_refl))).
Defined.

(* ===================================================================== *)
(** * Screenshots: from the runner to the oracle adapter                 *)
(* ===================================================================== *)

Lemma substring_whole (s : string) : substring 0 (String.length s) s = s.
Proof.
  induction s as [|c s IH]; cbn [String.length substring];
    [reflexivity | now rewrite IH].
Qed.

Lemma dropPrefix_append (p r : string) : JS.dropPrefix p (p ++ r) = Some r.
Proof.
  unfold JS.dropPrefix.
  replace (prefix p (p ++ r)) with true
    by (symmetry; apply prefix_app; exists r; reflexivity).
  f_equal. rewrite length_append.
  replace (String.length p + String.length r - String.length p)%nat
    with (String.length r) by lia.
  induction p as [|c p IH]; cbn [append String.length substring].
  - apply substring_whole.
  - exact IH.
Qed.

(** The regular expression of [analyzeScreen] undoes the prefix that
    [captureScreen] puts before the encoded image. *)
Lemma stripDataUrl_capture (base64 : string) :
  JS.stripDataUrl ("data:image/png;base64," ++ base64) = base64.
Proof.
  unfold JS.stripDataUrl.
  change ("data:image/png;base64," ++ base64)
    with ("data:image/" ++ ("png;base64," ++ base64)).
  rewrite dropPrefix_append.
  change ("png;base64," ++ base64)
    with (String "p" (String "n" (String "g" (";base64," ++ base64)))).
  change (JS.isWord "p") with true. cbv iota.
  change (JS.dropWord
            (String "p" (String "n" (String "g" (";base64," ++ base64)))))
    with (";base64," ++ base64).
  now rewrite dropPrefix_append.
Qed.

(** With a key, [analyzeScreen] sends exactly one request, whatever comes
    back. *)
Lemma analyzeScreen_requests (env : Gemini.Env) (imageData goal : string)
  (w : Gemini.World) :
  Gemini.API_KEY env <> "" ->
  Gemini.requests (snd (Gemini.analyzeScreen env imageData goal w))
  = (Gemini.requests w ++ [Spec.requestFor imageData goal])%list.
Proof.
  intros K. unfold Gemini.analyzeScreen, Spec.requestFor.
  destruct (String.eqb_spec (Gemini.API_KEY env) ""); [contradiction|].
  unfold Eff.tryCatch, Eff.bind, Gemini.callModel, Eff.lift, Eff.ret,
    Gemini.consoleError, Eff.modify.
  destruct (Gemini.generateContent env _) as [text|e]; [|reflexivity].
  destruct (JS.matchBraces text) as [block|]; [|reflexivity].
  destruct (Gemini.JSON_parse env block) as [parsed|e]; [|reflexivity].
  destruct (JS.getProp parsed "elements") as [el|e1]; [|reflexivity].
  destruct (JS.getProp parsed "summary") as [su|e2]; [|reflexivity].
  destruct (JS.getProp parsed "suggestedActions") as [sa|e3]; reflexivity.
Qed.

(** [btoa] on the test vectors of RFC 4648 and on the first bytes of a
    PNG file. *)
Example btoa_rfc4648 :
  map JS.btoa ["f"; "fo"; "foo"; "foob"; "fooba"; "foobar"]
  = ["Zg=="; "Zm8="; "Zm9v"; "Zm9vYg=="; "Zm9vYmE="; "Zm9vYmFy"].
Proof. reflexivity. Qed.

Example btoa_pngSignature : JS.btoa Spec.pngSignature = "iVBORw0KGgo=".
Proof. reflexivity. Qed.

(** X7.  [captureScreen] throws 'No page initialized' without a page and
    passes on what the driver throws.  When the driver gives the bytes of
    the screenshot, it spreads them into one call of [String.fromCharCode]:
    if there are more bytes than the engine takes arguments, that call
    throws a [RangeError] and so does [captureScreen], although the driver
    succeeded.  Otherwise it returns the base-64 text of the bytes behind
    the prefix [data:image/png;base64,].  The regular expression of
    [analyzeScreen] removes exactly that prefix, so the image of the
    request sent to the remote model is the base-64 text of the driver's
    bytes. *)
Theorem captureScreen_round_trip (w : Runner.World) :
  match Runner.page w with
  | None =>
      Runner.captureScreen w = (JS.Throw (JS.Error "No page initialized"), w)
  | Some p =>
      match Runner.capture p (Runner.calls w) with
      | JS.Throw e =>
          Runner.captureScreen w
          = (JS.Throw e, Facts.called w Runner.Screenshot)
      | JS.Ok bytes =>
          if (String.length bytes <=? Runner.maxArguments w)%nat then
            Runner.captureScreen w
            = (JS.Ok ("data:image/png;base64," ++ JS.btoa bytes),
               Facts.called w Runner.Screenshot)
            /\ JS.stripDataUrl ("data:image/png;base64," ++ JS.btoa bytes)
               = JS.btoa bytes
            /\ forall (env : Gemini.Env) (goal : string) (gw : Gemini.World),
                 Gemini.API_KEY env <> "" ->
                 Gemini.requests
                   (snd (Gemini.analyzeScreen env
                           ("data:image/png;base64," ++ JS.btoa bytes)
                           goal gw))
                 = (Gemini.requests gw
                    ++ [Gemini.mkRequest (JS.btoa bytes)
                          (Gemini.buildPrompt goal)])%list
          else
            Runner.captureScreen w
            = (JS.Throw (JS.Error "Maximum call stack size exceeded"),
               Facts.called w Runner.Screenshot)
      end
  end.
Proof.
  unfold Runner.captureScreen, Runner.fromCharCode, Eff.bind, Eff.get,
    Eff.throw, Eff.ret, Runner.driver, Facts.called.
  destruct (Runner.page w) as [p|] eqn:P; [|reflexivity].
  rewrite P.
  destruct (Runner.capture p (Runner.calls w)) as [bytes|e]; [|reflexivity].
  cbn [Runner.maxArguments].
  destruct (String.length bytes <=? Runner.maxArguments w)%nat;
    [|reflexivity].
  split; [reflexivity|]. split; [apply stripDataUrl_capture|].
  intros env goal gw K.
  rewrite (analyzeScreen_requests env _ goal gw K).
  unfold Spec.requestFor. now rewrite stripDataUrl_capture.
Qed.

(* ===================================================================== *)
(** * Browser life cycle                                                 *)
(* ===================================================================== *)

Section LifecycleFacts.

Import Eff.
Local Open Scope eff_scope.

Lemma initBrowser_spec (w : Lifecycle.World) :
  Lifecycle.initBrowser w
  = match Lifecycle.browser w with
    | Some _ => (JS.Ok tt, w)
    | None =>
        match Lifecycle.launch w (Lifecycle.launches w) with
        | JS.Ok b =>
            (JS.Ok tt,
             Lifecycle.mkWorld (Some b) (Lifecycle.runner w)
               (Lifecycle.launch w) (S (Lifecycle.launches w))
               (Lifecycle.opened w))
        | JS.Throw e =>
            (JS.Throw e,
             Lifecycle.mkWorld None (Lifecycle.runner w)
               (Lifecycle.launch w) (S (Lifecycle.launches w))
               (Lifecycle.opened w))
        end
    end.
Proof.
  unfold Lifecycle.initBrowser, bind, get.
  destruct (Lifecycle.browser w) as [b|] eqn:B; [reflexivity|].
  unfold Lifecycle.chromiumLaunch. rewrite B.
  destruct (Lifecycle.launch w (Lifecycle.launches w)); reflexivity.
Qed.

(** What [navigateTo] does once a browser is held. *)
Lemma navigateTo_with_browser (url : string) (w : Lifecycle.World)
  (b : Lifecycle.Browser) :
  Lifecycle.browser w = Some b ->
  Lifecycle.navigateTo url w
  = match Lifecycle.newPage b (Lifecycle.opened w) with
    | JS.Ok p =>
        (Lifecycle.goto b (Lifecycle.opened w) url,
         Lifecycle.mkWorld (Some b)
           (Runner.mkWorld (Some p) (Runner.trace (Lifecycle.runner w))
              (Runner.calls (Lifecycle.runner w))
              (Runner.clock (Lifecycle.runner w))
              (Runner.clockReads (Lifecycle.runner w))
              (Runner.maxArguments (Lifecycle.runner w)))
           (Lifecycle.launch w) (Lifecycle.launches w)
           (S (Lifecycle.opened w)))
    | JS.Throw e =>
        (JS.Throw e,
         Lifecycle.mkWorld (Some b) (Lifecycle.runner w)
           (Lifecycle.launch w) (Lifecycle.launches w)
           (S (Lifecycle.opened w)))
    end.
Proof.
  intros B. unfold Lifecycle.navigateTo, bind, get. rewrite B.
  unfold ret, Lifecycle.browserNewPage. rewrite B.
  destruct (Lifecycle.newPage b (Lifecycle.opened w)) as [p|e];
    [|reflexivity].
  unfold Lifecycle.setPage, modify, Lifecycle.pageGoto.
  cbn [Lifecycle.browser Lifecycle.runner Lifecycle.launch
       Lifecycle.launches Lifecycle.opened].
  rewrite ?B. cbn [Nat.sub]. rewrite ?Nat.sub_0_r. reflexivity.
Qed.

Lemma navigateTo_without_browser (url : string) (w : Lifecycle.World) :
  Lifecycle.browser w = None ->
  Lifecycle.navigateTo url w
  = match Lifecycle.launch w (Lifecycle.launches w) with
    | JS.Ok b =>
        Lifecycle.navigateTo url
          (Lifecycle.mkWorld (Some b) (Lifecycle.runner w)
             (Lifecycle.launch w) (S (Lifecycle.launches w))
             (Lifecycle.opened w))
    | JS.Throw e =>
        (JS.Throw e,
         Lifecycle.mkWorld None (Lifecycle.runner w)
           (Lifecycle.launch w) (S (Lifecycle.launches w))
           (Lifecycle.opened w))
    end.
Proof.
  intros B. unfold Lifecycle.navigateTo at 1. unfold bind at 1 2.
  unfold get at 1. rewrite B, initBrowser_spec, B.
  destruct (Lifecycle.launch w (Lifecycle.launches w)) as [b|e];
    [|reflexivity].
  set (w1 := Lifecycle.mkWorld _ _ _ _ _).
  unfold Lifecycle.navigateTo, bind, get, ret.
  reflexivity.
Qed.

End LifecycleFacts.

Section LifecycleInvariant.

Import Eff.

Lemma navigateTo_consistent (url : string) (w : Lifecycle.World) :
  Lifecycle.consistent w ->
  Lifecycle.consistent (snd (Lifecycle.navigateTo url w)).
Proof.
  intros C.
  assert (H : forall w0 b, Lifecycle.browser w0 = Some b ->
                Lifecycle.consistent (snd (Lifecycle.navigateTo url w0))).
  { intros w0 b B. rewrite (navigateTo_with_browser url w0 b B).
    destruct (Lifecycle.newPage b (Lifecycle.opened w0));
      cbn [snd]; intros _; discriminate. }
  destruct (Lifecycle.browser w) as [b|] eqn:B.
  - exact (H w b B).
  - rewrite (navigateTo_without_browser url w B).
    destruct (Lifecycle.launch w (Lifecycle.launches w)) as [b|e].
    + apply (H _ b). reflexivity.
    + cbn [snd]. intros P. exfalso. apply P.
      cbn [Lifecycle.runner].
      destruct (Runner.page (Lifecycle.runner w)) eqn:E; [|reflexivity].
      exfalso. apply C; [rewrite E; discriminate | exact B].
Qed.

End LifecycleInvariant.

(** X8.  A page is open only while a browser is held: [initBrowser],
    [navigateTo] and [closeBrowser] keep this, whether they return or
    throw. *)
Theorem lifecycle_page_needs_browser (w : Lifecycle.World) :
  Lifecycle.consistent w ->
  Lifecycle.consistent (snd (Lifecycle.initBrowser w))
  /\ (forall url, Lifecycle.consistent (snd (Lifecycle.navigateTo url w)))
  /\ Lifecycle.consistent (snd (Lifecycle.closeBrowser w)).
Proof.
  intros C. split; [|split].
  - rewrite initBrowser_spec.
    destruct (Lifecycle.browser w) as [b|] eqn:B; [exact C|].
    destruct (Lifecycle.launch w (Lifecycle.launches w)) as [b|e];
      cbn [snd]; intros P.
    + discriminate.
    + exfalso. unfold Lifecycle.consistent in C. rewrite B in C.
      exact (C P eq_refl).
  - intros url. exact (navigateTo_consistent url w C).
  - unfold Lifecycle.closeBrowser, Eff.bind, Eff.get.
    destruct (Lifecycle.browser w) as [b|] eqn:B; [|exact C].
    unfold Eff.lift. destruct (Lifecycle.close b) as [[]|e]; cbn [snd].
    + intros P. exfalso. apply P. reflexivity.
    + unfold Lifecycle.consistent. rewrite B. discriminate.
Qed.

Lemma lifecycle_page_needs_browser_witness :
  let w := Lifecycle.loaded Lifecycle.steadyBrowser in
  Lifecycle.consistent w
  /\ Lifecycle.consistent
       (snd (Lifecycle.navigateTo "https://demo.playwright.dev/todomvc" w)).
Proof.
  intros w.
  assert (C : Lifecycle.consistent w) by (intros P; exfalso; apply P; reflexivity).
  split; [exact C|].
  exact (proj1 (proj2 (lifecycle_page_needs_browser w C))
           "https://demo.playwright.dev/todomvc").
Defined.

Section LifecycleCounts.

Import Eff.
Local Open Scope eff_scope.

(** What a navigation that returns has done. *)
Lemma navigateTo_returns (url : string) (w : Lifecycle.World) :
  fst (Lifecycle.navigateTo url w) = JS.Ok tt ->
  let w' := snd (Lifecycle.navigateTo url w) in
  Lifecycle.opened w' = S (Lifecycle.opened w)
  /\ Lifecycle.browser w' <> None
  /\ Runner.page (Lifecycle.runner w') <> None
  /\ Lifecycle.launches w'
     = (Lifecycle.launches w
        + match Lifecycle.browser w with None => 1 | Some _ => 0 end)%nat.
Proof.
  assert (H : forall w0 b, Lifecycle.browser w0 = Some b ->
                fst (Lifecycle.navigateTo url w0) = JS.Ok tt ->
                let w' := snd (Lifecycle.navigateTo url w0) in
                Lifecycle.opened w' = S (Lifecycle.opened w0)
                /\ Lifecycle.browser w' <> None
                /\ Runner.page (Lifecycle.runner w') <> None
                /\ Lifecycle.launches w' = Lifecycle.launches w0).
  { intros w0 b B. rewrite (navigateTo_with_browser url w0 b B).
    destruct (Lifecycle.newPage b (Lifecycle.opened w0)); cbn;
      [|discriminate].
    intros _. repeat split; discriminate. }
  destruct (Lifecycle.browser w) as [b|] eqn:B.
  - intros R. destruct (H w b B R) as (O & Br & P & L).
    repeat split; try assumption. cbn zeta. rewrite L. lia.
  - rewrite (navigateTo_without_browser url w B).
    destruct (Lifecycle.launch w (Lifecycle.launches w)) as [b|e];
      [|discriminate].
    intros R.
    set (w1 := Lifecycle.mkWorld _ _ _ _ _) in *.
    destruct (H w1 b eq_refl R) as (O & Br & P & L).
    repeat split; try assumption. cbn zeta. rewrite L.
    subst w1. cbn [Lifecycle.launches]. lia.
Qed.

End LifecycleCounts.

(** X9.  A run of navigations that all return opens one new page per
    navigation and launches the browser once at most: once if none was
    held at the first navigation, never otherwise. *)
Theorem navigateAll_one_page_each (urls : list string) :
  forall w : Lifecycle.World,
    fst (Lifecycle.navigateAll urls w) = JS.Ok tt ->
    let w' := snd (Lifecycle.navigateAll urls w) in
    Lifecycle.opened w' = (Lifecycle.opened w + List.length urls)%nat
    /\ Lifecycle.launches w'
       = (Lifecycle.launches w
          + match Lifecycle.browser w, urls with
            | None, _ :: _ => 1
            | _, _ => 0
            end)%nat.
Proof.
  induction urls as [|url rest IH]; intros w R.
  - cbn. destruct (Lifecycle.browser w); lia.
  - cbn [Lifecycle.navigateAll] in *. unfold Eff.bind in *.
    pose proof (navigateTo_returns url w) as N.
    destruct (Lifecycle.navigateTo url w) as [[[]|e] w1] eqn:E;
      [|discriminate].
    cbn [fst snd] in N. destruct (N eq_refl) as (O & B & _ & L).
    specialize (IH w1 R). cbn zeta in IH. destruct IH as (O' & L').
    cbn zeta. cbn [List.length]. rewrite O', L', O, L.
    destruct (Lifecycle.browser w1) as [b1|]; [|contradiction].
    destruct (Lifecycle.browser w), rest; lia.
Qed.

Lemma navigateAll_one_page_each_witness :
  let w := Lifecycle.loaded Lifecycle.steadyBrowser in
  let w' := snd (Lifecycle.navigateAll ["https://a.example"; "https://b.example";
                                        "https://c.example"] w) in
  fst (Lifecycle.navigateAll ["https://a.example"; "https://b.example";
                              "https://c.example"] w) = JS.Ok tt
  /\ Lifecycle.opened w' = 3%nat
  /\ Lifecycle.launches w' = 1%nat.
Proof.
  intros w w'. split; [reflexivity|].
  exact (navigateAll_one_page_each
           ["https://a.example"; "https://b.example"; "https://c.example"]
           w eq_refl).
Defined.

(** X10.  When the browser opens the page but the navigation throws,
    [navigateTo] throws the same error and leaves the variable [page] set
    to the new, un-navigated page: it has replaced the page held before. *)
Theorem navigateTo_failed_goto_keeps_new_page
  (url : string) (w : Lifecycle.World) (b : Lifecycle.Browser)
  (p : Runner.Page) (e : JS.exn) :
  Lifecycle.browser w = Some b ->
  Lifecycle.newPage b (Lifecycle.opened w) = JS.Ok p ->
  Lifecycle.goto b (Lifecycle.opened w) url = JS.Throw e ->
  fst (Lifecycle.navigateTo url w) = JS.Throw e
  /\ Runner.page (Lifecycle.runner (snd (Lifecycle.navigateTo url w)))
     = Some p
  /\ Lifecycle.browser (snd (Lifecycle.navigateTo url w)) = Some b.
Proof.
  intros B N G. rewrite (navigateTo_with_browser url w b B), N, G.
  repeat split.
Qed.

Lemma navigateTo_failed_goto_keeps_new_page_witness :
  let w := Lifecycle.mkWorld (Some Lifecycle.offlineBrowser)
             (Spec.freshWorld None) (fun _ => JS.Ok Lifecycle.offlineBrowser)
             1 0 in
  fst (Lifecycle.navigateTo "https://demo.playwright.dev/todomvc" w)
  = JS.Throw (JS.Error "net::ERR_INTERNET_DISCONNECTED")
  /\ Runner.page
       (Lifecycle.runner
          (snd (Lifecycle.navigateTo "https://demo.playwright.dev/todomvc" w)))
     = Some Spec.blankPage
  /\ Lifecycle.browser
       (snd (Lifecycle.navigateTo "https://demo.playwright.dev/todomvc" w))
     = Some Lifecycle.offlineBrowser.
Proof.
  intros w.
  exact (navigateTo_failed_goto_keeps_new_page
           "https://demo.playwright.dev/todomvc" w Lifecycle.offlineBrowser
           Spec.blankPage (JS.Error "net::ERR_INTERNET_DISCONNECTED")
           eq_refl eq_refl eq_refl).
Defined.

(** X11.  [closeBrowser] without a browser does nothing.  With a browser,
    if [browser.close()] throws, the error is passed on and [browser] and
    [page] stay set; if it returns, both are [null], a second
    [closeBrowser] does nothing, and [executeWorkflow] on any actions then
    logs 'No page initialized' for each of them without calling the
    driver. *)
Theorem closeBrowser_then_no_page (w : Lifecycle.World) :
  match Lifecycle.browser w with
  | None => Lifecycle.closeBrowser w = (JS.Ok tt, w)
  | Some b =>
      match Lifecycle.close b with
      | JS.Throw e => Lifecycle.closeBrowser w = (JS.Throw e, w)
      | JS.Ok _ =>
          let w' := snd (Lifecycle.closeBrowser w) in
          fst (Lifecycle.closeBrowser w) = JS.Ok tt
          /\ Lifecycle.browser w' = None
          /\ Runner.page (Lifecycle.runner w') = None
          /\ Lifecycle.closeBrowser w' = (JS.Ok tt, w')
          /\ forall actions : list Action.t,
               exists logs w'',
                 Lifecycle.run (Runner.executeWorkflow actions) w'
                 = (JS.Ok (ExecutionResult.mk
                             (match actions with
                              | [] => true
                              | _ :: _ => false
                              end) logs None), w'')
                 /\ Forall2 (fun a l => exists now, l = Facts.noPageLog a now)
                      actions logs
                 /\ Runner.calls (Lifecycle.runner w'')
                    = Runner.calls (Lifecycle.runner w)
      end
  end.
Proof.
  unfold Lifecycle.closeBrowser, Eff.bind, Eff.get.
  destruct (Lifecycle.browser w) as [b|] eqn:B; [|reflexivity].
  unfold Eff.lift. destruct (Lifecycle.close b) as [[]|e]; [|reflexivity].
  cbn [fst snd Lifecycle.setBrowser Lifecycle.setPage Eff.modify
       Lifecycle.browser Lifecycle.runner Lifecycle.launch
       Lifecycle.launches Lifecycle.opened Runner.page].
  split; [reflexivity|]. split; [reflexivity|]. split; [reflexivity|].
  split; [reflexivity|].
  intros actions. unfold Lifecycle.run. cbn [Lifecycle.runner].
  set (rw := Runner.mkWorld None _ _ _ _ _).
  destruct (executeWorkflow_no_page actions rw eq_refl)
    as (logs & rw' & E & F & C & _).
  rewrite E. eexists; eexists. split; [reflexivity|].
  split; [exact F|]. cbn [Lifecycle.runner]. exact C.
Qed.

(* ===================================================================== *)
(** * Further properties of the component                                *)
(* ===================================================================== *)

Section HandleExecuteClosed.

Import Eff.
Local Open Scope eff_scope.

(** One iteration of the loop, evaluated. *)
Lemma executeStep_eval (n i : nat) (action : Action.t) (w : App.World) :
  let st := App.agentState w in
  let ok := PrimFloat.ltb 0x1.999999999999ap-4
              (App.random w (S (App.randomDraws w))) in
  let st1 :=
    AgentState.mk (AgentState.status st) (AgentState.goal st)
      (App.mapi (fun idx a =>
                   if (idx =? i)%nat
                   then App.withStatus a ActionStatus.executing
                          (Action.reason a)
                   else a) (AgentState.actions st))
      (AgentState.logs st) (AgentState.artifacts st) (Some i)
      (AgentState.error st) in
  let st2 :=
    AgentState.mk (AgentState.status st) (AgentState.goal st)
      (App.mapi (fun idx a =>
                   if (idx =? i)%nat
                   then App.withStatus a
                          (if ok then ActionStatus.completed
                           else ActionStatus.failed)
                          (Some (if ok then "Action completed successfully"
                                 else "Element not found"))
                   else a) (AgentState.actions st1))
      (AgentState.logs st ++
       [ ExecutionLog.mk
           (JS.toISOString (App.clock w (App.clockReads w)))
           (ActionType.show (Action.type action) ++ ": "
            ++ Action.description action)
           (if ok then LogStatus.success else LogStatus.error)
           (Some (if ok then "Target element clicked"
                  else "Retrying...")) ])%list
      (AgentState.artifacts st) (Some i) (AgentState.error st) in
  App.executeStep n i action w
  = (JS.Ok tt,
     App.mkWorld st2 (App.history w ++ [st1; st2])%list (App.clock w)
       (S (App.clockReads w)) (App.random w) (S (S (App.randomDraws w)))).
Proof.
  intros st ok st1 st2. unfold App.executeStep.
  unfold bind, App.setAgentState, App.mathRandom, App.newDate, App.sleep, ret.
  cbn [App.agentState App.history App.clock App.clockReads App.random
       App.randomDraws].
  fold st. fold ok.
  destruct (negb ok && _); rewrite <- app_assoc; reflexivity.
Qed.

End HandleExecuteClosed.

Section HandleExecuteLoop.

Import Eff.
Local Open Scope eff_scope.

Lemma mapiFrom_length {A B : Type} (f : nat -> A -> B) (xs : list A) :
  forall k, List.length (App.mapiFrom k f xs) = List.length xs.
Proof.
  induction xs as [|x xs IH]; intros k; cbn; [reflexivity | now rewrite IH].
Qed.

(** The loop of [handleExecute] in closed form: it leaves the action at
    index [j] as [finishedAction w0 j] and appends [stepEntry w0 j] to the
    log, for each step in list order. *)
Lemma executeSteps_closed (w0 : App.World) (n : nat) (rest : list Action.t) :
  forall (i : nat) (w : App.World) (before : list Action.t),
    AgentState.actions (App.agentState w) = (before ++ rest)%list ->
    List.length before = i ->
    App.random w = App.random w0 ->
    App.clock w = App.clock w0 ->
    App.randomDraws w = (App.randomDraws w0 + 2 * i)%nat ->
    App.clockReads w = (App.clockReads w0 + 1 + i)%nat ->
    exists states,
      App.executeSteps n i rest w
      = (JS.Ok tt,
         App.mkWorld
           (AgentState.mk
              (AgentState.status (App.agentState w))
              (AgentState.goal (App.agentState w))
              (before ++ App.mapiFrom i (Handlers.finishedAction w0) rest)
              (AgentState.logs (App.agentState w)
               ++ App.mapiFrom i (Handlers.stepEntry w0) rest)
              (AgentState.artifacts (App.agentState w))
              (match rest with
               | [] => AgentState.currentStep (App.agentState w)
               | _ :: _ => Some (i + List.length rest - 1)%nat
               end)
              (AgentState.error (App.agentState w)))
           (App.history w ++ states) (App.clock w)
           (App.clockReads w + List.length rest) (App.random w)
           (App.randomDraws w + 2 * List.length rest))
      /\ Handlers.duringSteps i (List.length rest) (List.length (before ++ rest))
           states.
Proof.
  induction rest as [|a rest IH]; intros i w before Ha Hi Hr Hc Hd Hk.
  - exists []. split; [|constructor].
    cbn [App.executeSteps App.mapiFrom List.length]. unfold ret.
    rewrite app_nil_r in Ha. rewrite <- Ha.
    replace (App.randomDraws w + 2 * 0)%nat with (App.randomDraws w) by lia.
    replace (App.clockReads w + 0)%nat with (App.clockReads w) by lia.
    rewrite !app_nil_r.
    destruct w as [st h c cr r rd]; destruct st; reflexivity.
  - cbn [App.executeSteps]. unfold bind at 1.
    rewrite (executeStep_eval n i a w). cbv zeta.
    cbn [AgentState.actions].
    rewrite Ha, (mapi_at _ before a rest i Hi).
    rewrite (mapi_at _ before _ rest i Hi).
    set (ok := PrimFloat.ltb _ _).
    assert (Ok : ok = Handlers.stepSucceeds w0 i).
    { subst ok. unfold Handlers.stepSucceeds. rewrite Hr, Hd.
      f_equal. f_equal. lia. }
    set (fin := App.withStatus _ _ _).
    assert (Fin : fin = Handlers.finishedAction w0 i a).
    { subst fin. unfold Handlers.finishedAction. rewrite <- Ok. reflexivity. }
    set (entry := ExecutionLog.mk _ _ _ _).
    assert (Ent : entry = Handlers.stepEntry w0 i a).
    { subst entry. unfold Handlers.stepEntry. rewrite <- Ok, Hc, Hk.
      reflexivity. }
    set (st2 := AgentState.mk _ _ (before ++ fin :: rest) _ _ _ _).
    set (st1 := AgentState.mk _ _ (before ++ _ :: rest) _ _ _ _).
    set (w1 := App.mkWorld _ _ _ _ _ _).
    destruct (IH (S i) w1 (before ++ [fin])%list) as (states & E & D).
    + subst w1 st2. cbn. now rewrite <- app_assoc.
    + rewrite length_app. cbn. lia.
    + exact Hr.
    + exact Hc.
    + subst w1. cbn [App.randomDraws]. lia.
    + subst w1. cbn [App.clockReads]. lia.
    + exists (st1 :: st2 :: states). split.
      * rewrite E. subst w1 st2.
        cbn [App.agentState App.history App.clock App.clockReads App.random
             App.randomDraws AgentState.status AgentState.goal
             AgentState.logs AgentState.artifacts AgentState.error
             AgentState.currentStep App.mapiFrom List.length].
        rewrite <- !app_assoc. cbn [app]. rewrite Fin, Ent.
        replace (match rest with
                 | [] => Some i
                 | _ :: _ => Some (S i + List.length rest - 1)%nat
                 end)
          with (Some (i + S (List.length rest) - 1)%nat)
          by (destruct rest; cbn [List.length]; f_equal; lia).
        replace (S (App.clockReads w) + List.length rest)%nat
          with (App.clockReads w + S (List.length rest))%nat by lia.
        replace (S (S (App.randomDraws w)) + 2 * List.length rest)%nat
          with (App.randomDraws w + 2 * S (List.length rest))%nat by lia.
        reflexivity.
      * assert (L : forall x, List.length (before ++ x :: rest)
                              = List.length (before ++ a :: rest))
          by (intros x; rewrite !length_app; reflexivity).
        constructor; [|constructor].
        -- exists i. subst st1. cbn [AgentState.currentStep
             AgentState.actions List.length]. rewrite L.
           repeat split; lia.
        -- exists i. subst st2. cbn [AgentState.currentStep
             AgentState.actions List.length]. rewrite L.
           repeat split; lia.
        -- unfold Handlers.duringSteps in *. rewrite Forall_forall in *.
           intros s Hs. destruct (D s Hs) as (j & C & B & Ln).
           exists j. split; [exact C|]. split; [cbn [List.length]; lia|].
           rewrite Ln, <- app_assoc. cbn [app]. apply L.
Qed.

End HandleExecuteLoop.

Section HandleExecuteRun.

Import Eff.
Local Open Scope eff_scope.

(** [handleExecute] in closed form: it ends in the state [executed w],
    after one reading of the clock per step and three more, and two random
    draws per step.  Every state it sets on a plan that is not empty names
    a current step of the plan. *)
Lemma handleExecute_closed (w : App.World) :
  let n := List.length (AgentState.actions (App.agentState w)) in
  exists states,
    App.handleExecute w
    = (JS.Ok tt,
       App.mkWorld (Handlers.executed w) (App.history w ++ states)
         (App.clock w) (App.clockReads w + n + 3) (App.random w)
         (App.randomDraws w + 2 * n))
    /\ (n <> 0%nat -> Handlers.duringSteps 0 n n states).
Proof.
  intros n. subst n. unfold App.handleExecute.
  unfold bind at 1. unfold get at 1.
  unfold bind at 1. unfold App.newDate at 1.
  unfold bind at 1. unfold App.setAgentState at 1.
  cbn [App.agentState App.history App.clock App.clockReads App.random
       App.randomDraws].
  set (st0 := AgentState.mk _ _ _ _ _ _ _).
  set (w1 := App.mkWorld _ _ _ _ _ _).
  unfold bind at 1.
  destruct (executeSteps_closed w
              (List.length (AgentState.actions (App.agentState w)))
              (AgentState.actions (App.agentState w))
              0 w1 []) as (states & E & D);
    [reflexivity | reflexivity | reflexivity | reflexivity
    | subst w1; cbn; lia | subst w1; cbn; lia |].
  rewrite E. clear E.
  set (n := List.length (AgentState.actions (App.agentState w))) in *.
  unfold App.generateArtifacts, App.generateSummary.
  unfold bind, App.newDate, App.setAgentState, ret.
  subst w1.
  cbn [App.agentState App.history App.clock App.clockReads App.random
       App.randomDraws AgentState.status AgentState.goal AgentState.actions
       AgentState.logs AgentState.artifacts AgentState.error
       AgentState.currentStep app List.length].
  set (final := AgentState.mk _ _ _ _ _ _ _).
  assert (F : final = Handlers.executed w).
  { subst final st0. unfold Handlers.executed, App.mapi. fold n.
    cbn [AgentState.goal AgentState.logs AgentState.currentStep
         AgentState.error AgentState.artifacts AgentState.actions
         AgentState.status].
    replace (S (S (App.clockReads w) + n))
      with (App.clockReads w + n + 2)%nat by lia.
    replace (S (App.clockReads w) + n)%nat
      with (App.clockReads w + n + 1)%nat by lia.
    replace (match AgentState.actions (App.agentState w) with
             | [] => Some 0%nat
             | _ :: _ => Some (0 + n - 1)%nat
             end)
      with (Some (n - 1)%nat)
      by (unfold n; destruct (AgentState.actions (App.agentState w));
          cbn [List.length]; f_equal; lia).
    rewrite <- !app_assoc. reflexivity. }
  exists ((st0 :: states) ++ [final])%list. split.
  - rewrite F.
    replace (S (S (S (App.clockReads w) + n)))
      with (App.clockReads w + n + 3)%nat by lia.
    rewrite <- !app_assoc. reflexivity.
  - intros Hn. unfold Handlers.duringSteps in *. cbn [app] in D.
    apply Forall_app. split; [constructor; [|exact D]|constructor;
      [|constructor]].
    + exists 0%nat. subst st0. cbn [AgentState.currentStep
        AgentState.actions]. fold n. repeat split; lia.
    + exists (n - 1)%nat. rewrite F. unfold Handlers.executed.
      cbn [AgentState.currentStep AgentState.actions]. fold n.
      unfold App.mapi. rewrite mapiFrom_length. fold n.
      repeat split; lia.
Qed.

End HandleExecuteRun.

Lemma Forall2_mapiFrom {A B C : Type} (R : B -> C -> Prop)
  (f : nat -> A -> B) (g : nat -> A -> C) (xs : list A) :
  (forall j a, R (f j a) (g j a)) ->
  forall k, Forall2 R (App.mapiFrom k f xs) (App.mapiFrom k g xs).
Proof.
  intros H. induction xs as [|x xs IH]; intros k; cbn [App.mapiFrom];
    constructor; auto.
Qed.

Lemma Forall_mapiFrom {A B : Type} (P : B -> Prop) (f : nat -> A -> B)
  (xs : list A) :
  (forall j a, P (f j a)) -> forall k, Forall P (App.mapiFrom k f xs).
Proof.
  intros H. induction xs as [|x xs IH]; intros k; cbn [App.mapiFrom];
    constructor; auto.
Qed.

Lemma map_mapiFrom {A B C : Type} (h : B -> C) (f : nat -> A -> B)
  (g : A -> C) (xs : list A) :
  (forall j a, h (f j a) = g a) ->
  forall k, map h (App.mapiFrom k f xs) = map g xs.
Proof.
  intros H. induction xs as [|x xs IH]; intros k; cbn [App.mapiFrom map];
    [reflexivity | now rewrite H, IH].
Qed.

(** X12.  [handleExecute] always runs to the end: it sets the status
    'completed' and leaves every action of the plan, in the same order,
    completed or failed.  It appends to the log one 'Starting execution'
    entry, one entry per action in list order, and one 'Execution
    complete' entry.  The entry of an action agrees with its final status:
    'success' for a completed action, 'error' for a failed one. *)
Theorem handleExecute_log_agrees_with_statuses (w : App.World) :
  let st := App.agentState w in
  let st' := App.agentState (snd (App.handleExecute w)) in
  fst (App.handleExecute w) = JS.Ok tt
  /\ AgentState.status st' = AgentStatus.completed
  /\ map Action.id (AgentState.actions st')
     = map Action.id (AgentState.actions st)
  /\ Forall Spec.isTerminal (AgentState.actions st')
  /\ exists start entries finish,
       AgentState.logs st'
       = (AgentState.logs st ++ [start] ++ entries ++ [finish])%list
       /\ ExecutionLog.action start = "Starting execution"
       /\ ExecutionLog.action finish = "Execution complete"
       /\ Forall2
            (fun a e =>
               ((Action.status a = ActionStatus.completed
                 /\ ExecutionLog.status e = LogStatus.success)
                \/ (Action.status a = ActionStatus.failed
                    /\ ExecutionLog.status e = LogStatus.error))
               /\ ExecutionLog.action e
                  = ActionType.show (Action.type a) ++ ": "
                    ++ Action.description a)
            (AgentState.actions st') entries.
Proof.
  destruct (handleExecute_closed w) as (states & E & _).
  cbv zeta. rewrite E. cbn [fst snd App.agentState].
  unfold Handlers.executed. cbn [AgentState.status AgentState.actions
    AgentState.logs]. unfold App.mapi.
  split; [reflexivity|]. split; [reflexivity|]. split; [|split].
  - apply map_mapiFrom. intros j a. reflexivity.
  - apply Forall_mapiFrom. intros j a.
    unfold Spec.isTerminal, Handlers.finishedAction.
    destruct (Handlers.stepSucceeds w j); reflexivity.
  - eexists; eexists; eexists. split; [reflexivity|].
    split; [reflexivity|]. split; [reflexivity|].
    apply Forall2_mapiFrom. intros j a.
    unfold Handlers.finishedAction, Handlers.stepEntry.
    destruct (Handlers.stepSucceeds w j); cbn; split; auto.
Qed.

(** X13.  The artifacts of a run are made from the state in which the run
    started: the summary lists the actions with the statuses they had then
    and the run log is the log as it was then, although the run has since
    finished every action and added an entry per action and two more to
    the log. *)
Theorem handleExecute_artifacts_from_start (w : App.World) :
  let st := App.agentState w in
  let st' := App.agentState (snd (App.handleExecute w)) in
  (exists stamp,
      AgentState.artifacts st'
      = [ Artifact.mk ArtifactType.summary
            (App.renderSummary stamp (JS.orElse (AgentState.goal st) "")
               (AgentState.actions st))
            (Some "execution-summary.md");
          Artifact.mk ArtifactType.playwright_script
            (App.generatePlaywrightScript (AgentState.actions st))
            (Some "workflow.spec.ts");
          Artifact.mk ArtifactType.run_log
            (App.generateRunLog (AgentState.logs st))
            (Some "run-log.json") ])
  /\ Forall Spec.isTerminal (AgentState.actions st')
  /\ List.length (AgentState.logs st')
     = (List.length (AgentState.logs st)
        + List.length (AgentState.actions st) + 2)%nat.
Proof.
  destruct (handleExecute_closed w) as (states & E & _).
  cbv zeta. rewrite E. cbn [fst snd App.agentState].
  unfold Handlers.executed. cbn [AgentState.artifacts AgentState.actions
    AgentState.logs]. unfold App.mapi.
  split; [eexists; reflexivity|]. split.
  - apply Forall_mapiFrom. intros j a.
    unfold Spec.isTerminal, Handlers.finishedAction.
    destruct (Handlers.stepSucceeds w j); reflexivity.
  - rewrite !length_app, mapiFrom_length. cbn [List.length]. lia.
Qed.

(** X14.  While [handleExecute] runs a plan that is not empty, every state
    it sets in which the status is 'executing' makes the status line read
    "Executing step k/n...", with n the number of actions and k between 1
    and n. *)
Theorem status_line_within_plan (w : App.World) :
  let n := List.length (AgentState.actions (App.agentState w)) in
  n <> 0%nat ->
  exists states,
    App.history (snd (App.handleExecute w)) = (App.history w ++ states)%list
    /\ Forall
         (fun s =>
            AgentState.status s = AgentStatus.executing ->
            exists k, (1 <= k <= n)%nat
                      /\ AgentView.getStatusText s
                         = "Executing step " ++ JS.showNat k ++ "/"
                           ++ JS.showNat n ++ "...")
         states.
Proof.
  intros n Hn. destruct (handleExecute_closed w) as (states & E & D).
  exists states. rewrite E. split; [reflexivity|].
  specialize (D Hn). unfold Handlers.duringSteps in D. fold n in D.
  rewrite Forall_forall in *. intros s Hs X.
  destruct (D s Hs) as (j & C & B & L).
  exists (j + 1)%nat. split; [lia|].
  unfold AgentView.getStatusText, AgentView.stepOrZero.
  now rewrite X, C, L.
Qed.

Lemma status_line_within_plan_witness :
  let w := Spec.planningWorld 1700000000000
             (App.generateActionsFromGoal demoGoal) in
  exists states,
    App.history (snd (App.handleExecute w)) = (App.history w ++ states)%list
    /\ Forall
         (fun s =>
            AgentState.status s = AgentStatus.executing ->
            exists k, (1 <= k <= 4)%nat
                      /\ AgentView.getStatusText s
                         = "Executing step " ++ JS.showNat k ++ "/"
                           ++ JS.showNat 4 ++ "...")
         states.
Proof.
  intros w.
  exact (status_line_within_plan w (fun C : 4%nat = 0%nat =>
                                      ltac:(discriminate C))).
Defined.

(** X15.  When a run has completed, the view renders neither the form for
    a goal nor the Execute and Reset buttons: from the state that
    [handleExecute] ends in, the view offers no way to start again. *)
Theorem view_after_run_offers_nothing (w : App.World) :
  let st' := App.agentState (snd (App.handleExecute w)) in
  AgentView.showsGoalForm st' = false
  /\ AgentView.showsButtons st' = false
  /\ AgentView.getStatusText st' = "Execution complete!".
Proof.
  destruct (handleExecute_closed w) as (states & E & _).
  cbv zeta. rewrite E. repeat split.
Qed.

Lemma substring_length (n : nat) (s : string) :
  String.length (substring 0 n s) = Nat.min n (String.length s).
Proof.
  revert s; induction n as [|n IH]; intros [|c s];
    cbn [substring String.length Nat.min]; try reflexivity.
  now rewrite IH.
Qed.

(** Thirty accented letters are thirty code units and are shown whole;
    forty-one are cut after the fortieth. *)
Example goalLabel_accented :
  AgentView.goalLabel
    (AgentState.mk AgentStatus.planning (Some (Checks.eAcute 30)) [] [] []
       None None)
  = Some ("Goal: " ++ Checks.eAcute 30)
  /\ AgentView.goalLabel
       (AgentState.mk AgentStatus.planning (Some (Checks.eAcute 41)) [] [] []
          None None)
     = Some ("Goal: " ++ Checks.eAcute 40 ++ "...").
Proof. split; reflexivity. Qed.

Lemma unitsOf_append (s t : string) :
  AgentView.unitsOf (s ++ t)
  = (AgentView.unitsOf s ++ AgentView.unitsOf t)%list.
Proof.
  unfold AgentView.unitsOf.
  induction s as [|c s IH]; cbn [append list_ascii_of_string map app];
    [reflexivity | now rewrite IH].
Qed.

Lemma unitsOf_length (s : string) :
  List.length (AgentView.unitsOf s) = String.length s.
Proof.
  unfold AgentView.unitsOf.
  induction s as [|c s IH]; cbn [list_ascii_of_string map List.length
                                 String.length]; [reflexivity | now rewrite IH].
Qed.

Lemma unitsOf_substring (n : nat) (s : string) :
  AgentView.unitsOf (substring 0 n s) = firstn n (AgentView.unitsOf s).
Proof.
  unfold AgentView.unitsOf.
  revert s; induction n as [|n IH]; intros [|c s];
    cbn [substring list_ascii_of_string map firstn]; try reflexivity.
  now rewrite IH.
Qed.

(** The same expression on a goal of ideographs (U+4E2D, a code unit above
    255): thirty are shown whole, forty-one are cut to forty and three
    dots. *)
Example shownGoal_ideographs :
  AgentView.shownGoal (repeat 20013%N 30) = repeat 20013%N 30
  /\ AgentView.shownGoal (repeat 20013%N 41)
     = (repeat 20013%N 40 ++ [46; 46; 46]%N)%list.
Proof. split; reflexivity. Qed.

(** X16.  The goal in the header is the goal itself when it has at most 40
    UTF-16 code units, and otherwise its first 40 code units followed by
    three dots, so that after "Goal: " the label never has more than 43
    code units: this holds of the expression of the header on the code
    units of every JavaScript string, whatever their values, and the label
    that [goalLabel] computes on a [string] (a goal with code units below
    256) is "Goal: " followed by what that expression gives on the code
    units of the goal. *)
Theorem goalLabel_bounded :
  (forall goal : list N,
      (List.length (AgentView.shownGoal goal) <= 43)%nat
      /\ ((List.length goal <= 40)%nat -> AgentView.shownGoal goal = goal)
      /\ ((40 < List.length goal)%nat ->
          AgentView.shownGoal goal
          = (firstn 40 goal ++ AgentView.unitsOf "...")%list
          /\ List.length (AgentView.shownGoal goal) = 43%nat))
  /\ (forall (state : AgentState.t) (label : string),
      AgentView.goalLabel state = Some label ->
      exists goal,
        AgentState.goal state = Some goal
        /\ AgentView.unitsOf label
           = (AgentView.unitsOf "Goal: "
              ++ AgentView.shownGoal (AgentView.unitsOf goal))%list).
Proof.
  split.
  - intros goal. unfold AgentView.shownGoal.
    destruct (Nat.ltb_spec 40 (List.length goal)) as [L|L].
    + assert (E : List.length (firstn 40 goal ++ AgentView.unitsOf "...")
                  = 43%nat).
      { rewrite length_app, length_firstn. cbn [List.length AgentView.unitsOf
          list_ascii_of_string map]. lia. }
      split; [lia|]. split; [lia|]. intros _. split; [reflexivity | exact E].
    + split; [lia|]. split; [reflexivity|]. lia.
  - unfold AgentView.goalLabel. intros state label H.
    destruct (AgentState.goal state) as [goal|]; [|discriminate].
    destruct (goal =? "")%string; [discriminate|].
    exists goal. split; [reflexivity|].
    assert (L : label
                = "Goal: "
                  ++ (if (40 <? String.length goal)%nat
                      then substring 0 40 goal ++ "..."
                      else goal)) by congruence.
    rewrite L, unitsOf_append. f_equal. unfold AgentView.shownGoal.
    rewrite unitsOf_length.
    destruct (40 <? String.length goal)%nat; [|reflexivity].
    now rewrite unitsOf_append, unitsOf_substring.
Qed.

(** [handleGoalSubmit], evaluated: it reads the clock three times and
    leaves the plan of the classifier in the state. *)
Lemma handleGoalSubmit_state (goal : string) (w : App.World) :
  fst (Handlers.handleGoalSubmit goal w) = JS.Ok tt
  /\ let st' := App.agentState (snd (Handlers.handleGoalSubmit goal w)) in
     AgentState.status st' = AgentStatus.planning
     /\ AgentState.goal st' = Some goal
     /\ AgentState.actions st' = App.generateActionsFromGoal goal
     /\ List.length (AgentState.logs st')
        = (List.length (AgentState.logs (App.agentState w)) + 3)%nat
     /\ AgentState.artifacts st' = AgentState.artifacts (App.agentState w).
Proof.
  unfold Handlers.handleGoalSubmit, Eff.bind, App.newDate, App.setAgentState.
  cbn [fst snd App.agentState App.history App.clock App.clockReads
       App.random App.randomDraws AgentState.status AgentState.goal
       AgentState.actions AgentState.logs AgentState.artifacts].
  repeat split. rewrite !length_app. cbn [List.length]. lia.
Qed.

Lemma plan_pending (goal : string) :
  Forall Spec.isPending (App.generateActionsFromGoal goal).
Proof.
  apply (Subseq_Forall _ _ _ (plan_subseq goal)).
  repeat (constructor; [reflexivity|]). constructor.
Qed.

(** X17.  Submitting a goal and then executing always ends well: the
    submission leaves status 'planning' and the plan of the classifier, and
    the Execute button is rendered exactly when that plan is not empty; the
    execution then ends with status 'completed', the same goal, the actions
    of the plan in the same order, each completed or failed, three
    artifacts, and five log entries more than actions; and every state it
    sets on the way has its steps run one at a time. *)
Theorem submit_then_execute (goal : string) (w : App.World) :
  let plan := App.generateActionsFromGoal goal in
  let w1 := snd (Handlers.handleGoalSubmit goal w) in
  let w2 := snd (App.handleExecute w1) in
  fst (Handlers.handleGoalSubmit goal w) = JS.Ok tt
  /\ AgentState.status (App.agentState w1) = AgentStatus.planning
  /\ AgentState.actions (App.agentState w1) = plan
  /\ AgentView.showsButtons (App.agentState w1)
     = match plan with [] => false | _ :: _ => true end
  /\ fst (App.handleExecute w1) = JS.Ok tt
  /\ AgentState.status (App.agentState w2) = AgentStatus.completed
  /\ AgentState.goal (App.agentState w2) = Some goal
  /\ map Action.id (AgentState.actions (App.agentState w2))
     = map Action.id plan
  /\ Forall Spec.isTerminal (AgentState.actions (App.agentState w2))
  /\ List.length (AgentState.artifacts (App.agentState w2)) = 3%nat
  /\ List.length (AgentState.logs (App.agentState w2))
     = (List.length (AgentState.logs (App.agentState w))
        + List.length plan + 5)%nat
  /\ exists states,
       App.history w2 = (App.history w1 ++ states)%list
       /\ Forall (fun st => Spec.oneAtATime (AgentState.actions st)) states.
Proof.
  intros plan w1 w2.
  destruct (handleGoalSubmit_state goal w) as (R1 & S1 & G1 & A1 & L1 & _).
  fold w1 in S1, G1, A1, L1. cbv zeta in S1, G1, A1, L1.
  assert (P : Forall Spec.isPending (AgentState.actions (App.agentState w1)))
    by (rewrite A1; apply plan_pending).
  destruct (handleExecute_spec w1 P) as (states & w2' & E & H & O & T & I).
  assert (W : w2 = w2') by (subst w2; now rewrite E).
  destruct (handleExecute_closed w1) as (states' & E' & _).
  split; [exact R1|]. split; [exact S1|]. split; [exact A1|].
  split.
  { unfold AgentView.showsButtons. rewrite S1, A1. fold plan.
    destruct plan; reflexivity. }
  split; [now rewrite E|].
  subst w2. rewrite E'. cbn [snd App.agentState App.history].
  unfold Handlers.executed.
  cbn [AgentState.status AgentState.goal AgentState.actions
       AgentState.artifacts AgentState.logs List.length].
  split; [reflexivity|]. split; [exact G1|]. rewrite A1. fold plan.
  split; [apply map_mapiFrom; intros j a; reflexivity|].
  split.
  { apply Forall_mapiFrom. intros j a.
    unfold Spec.isTerminal, Handlers.finishedAction.
    destruct (Handlers.stepSucceeds w1 j); reflexivity. }
  split; [reflexivity|]. split.
  { rewrite !length_app. unfold App.mapi. rewrite mapiFrom_length.
    cbn [List.length]. lia. }
  rewrite E' in W. rewrite <- W in H. cbn [App.history] in H.
  exists states. split; [exact H | exact O].
Qed.

(** ** Goal classifier: what the text of the goal can change *)

Lemma lowerChar_idem (c : ascii) :
  JS.lowerChar (JS.lowerChar c) = JS.lowerChar c.
Proof.
  destruct c as [[] [] [] [] [] [] [] []]; reflexivity.
Qed.

Lemma toLowerCase_idem (s : string) :
  JS.toLowerCase (JS.toLowerCase s) = JS.toLowerCase s.
Proof.
  induction s as [|c s IH]; cbn [JS.toLowerCase].
  - reflexivity.
  - now rewrite lowerChar_idem, IH.
Qed.

Lemma toLowerCase_app (s t : string) :
  JS.toLowerCase (s ++ t) = JS.toLowerCase s ++ JS.toLowerCase t.
Proof.
  induction s as [|c s IH]; cbn [JS.toLowerCase append].
  - reflexivity.
  - now rewrite IH.
Qed.

Lemma includes_embedded (before s after sub : string) :
  JS.includes s sub = true ->
  JS.includes (before ++ s ++ after) sub = true.
Proof.
  rewrite !includes_spec. intros (l & r & ->).
  exists (before ++ l), (r ++ after). now rewrite !append_assoc.
Qed.

Lemma filter_Subseq {A : Type} (f g : A -> bool) (xs : list A) :
  (forall x, f x = true -> g x = true) ->
  Spec.Subseq (filter f xs) (filter g xs).
Proof.
  intros H. induction xs as [|x xs IH]; cbn [filter].
  - constructor.
  - destruct (f x) eqn:F.
    + rewrite (H x F). apply Spec.Subseq_take. exact IH.
    + destruct (g x); [apply Spec.Subseq_skip|]; exact IH.
Qed.

(** The lower-casing of the code units U+00C0 to U+00DE. *)
Example toLowerCase_latin1 :
  JS.toLowerCase Checks.ecoleUpper = Checks.ecoleLower
  /\ JS.toLowerCase (String (ascii_of_nat 215) (String (ascii_of_nat 223) ""))
     = String (ascii_of_nat 215) (String (ascii_of_nat 223) "").
Proof. split; reflexivity. Qed.

(** X18.  For goals and added text whose UTF-16 code units are all below
    256 (the strings this model represents; on them [JS.toLowerCase] is
    JavaScript's [toLowerCase], which there maps each code unit by itself):
    text added around a goal never removes a step from its plan and never
    reorders it, the plan of a goal is the plan of the longer goal with
    some actions left out. *)
Theorem classifier_monotone (before goal after : string) :
  Spec.Subseq (App.generateActionsFromGoal goal)
              (App.generateActionsFromGoal (before ++ goal ++ after)).
Proof.
  rewrite !generateActionsFromGoal_classify. unfold Spec.classify.
  apply Subseq_map, filter_Subseq. intros entry.
  unfold Spec.hit. rewrite !existsb_exists.
  intros (kw & I & H). exists kw. split; [exact I|].
  rewrite !toLowerCase_app. apply includes_embedded. exact H.
Qed.

(** X19.  For goals whose UTF-16 code units are all below 256 (the
    strings this model represents; on them [JS.toLowerCase] is JavaScript's
    [toLowerCase]): the classifier and the fallback analysis read the goal
    only through its lower-cased text, so two goals that differ in the
    case of their letters, accented ones included, get the same plan and
    the same fallback analysis, and lower-casing a goal first changes
    neither. *)
Theorem goal_case_is_ignored (goal other : string) :
  JS.toLowerCase goal = JS.toLowerCase other ->
  App.generateActionsFromGoal goal = App.generateActionsFromGoal other
  /\ Gemini.generateMockAnalysis goal = Gemini.generateMockAnalysis other
  /\ App.generateActionsFromGoal (JS.toLowerCase goal)
     = App.generateActionsFromGoal goal
  /\ Gemini.generateMockAnalysis (JS.toLowerCase goal)
     = Gemini.generateMockAnalysis goal.
Proof.
  intros E. unfold App.generateActionsFromGoal, Gemini.generateMockAnalysis.
  rewrite toLowerCase_idem, E. repeat split.
Qed.

Lemma goal_case_is_ignored_witness :
  let goal := "ADD " ++ Checks.ecoleUpper in
  let other := "add " ++ Checks.ecoleLower in
  JS.toLowerCase goal = JS.toLowerCase other
  /\ App.generateActionsFromGoal goal = App.generateActionsFromGoal other.
Proof.
  split; [reflexivity|].
  exact (proj1 (goal_case_is_ignored ("ADD " ++ Checks.ecoleUpper)
                  ("add " ++ Checks.ecoleLower) eq_refl)).
Defined.

(** ** Fallback analysis *)

Lemma distinct_NoDup (xs : list string) :
  Checks.distinct xs = true -> NoDup xs.
Proof.
  induction xs as [|x xs IH]; cbn [Checks.distinct]; intros H.
  - constructor.
  - apply andb_true_iff in H as [N D]. constructor; [|apply IH; exact D].
    intros I. apply negb_true_iff in N.
    assert (T : existsb (String.eqb x) xs = true).
    { apply existsb_exists. exists x. split; [exact I | apply String.eqb_refl]. }
    congruence.
Qed.

(** X20.  Whatever the goal, the elements of the fallback analysis have
    distinct ids, and each of them has a bounding box inside the page (in
    percent), no selector, and is clickable or inputable; there are at
    most eight of them. *)
Theorem generateMockAnalysis_elements_grounded (goal : string) :
  let elements := AnalysisResult.elements (Gemini.generateMockAnalysis goal) in
  NoDup (map UIElement.id elements)
  /\ Forall (fun el => Checks.grounded el = true) elements
  /\ (1 <= List.length elements <= 8)%nat.
Proof.
  unfold Gemini.generateMockAnalysis.
  generalize (JS.toLowerCase goal); intros goalLower.
  destruct (JS.includes goalLower "product" || JS.includes goalLower "find");
  destruct (JS.includes goalLower "cart" || JS.includes goalLower "add");
  destruct (JS.includes goalLower "coupon");
  destruct (JS.includes goalLower "checkout");
  (split; [apply distinct_NoDup; vm_compute; reflexivity|];
   split; [apply Forall_forall; apply forallb_forall; vm_compute; reflexivity
          | vm_compute; lia]).
Qed.

(** ** Oracle adapter: a reply without usable fields *)

Lemma getProp_falsy (fields : list (string * JS.value)) (key : string) :
  Checks.falsyFields fields ->
  exists v, JS.getProp (JS.JObject fields) key = JS.Ok v
            /\ forall d, JS.orDefault v d = d.
Proof.
  intros F. cbn [JS.getProp].
  destruct (find (fun kv => (fst kv =? key)%string) (rev fields))
    as [kv|] eqn:E.
  - exists (Some (snd kv)). split; [reflexivity|]. intros d.
    apply find_some in E as [I _]. apply in_rev in I.
    unfold Checks.falsyFields in F. rewrite Forall_forall in F.
    cbn [JS.orDefault]. now rewrite (F kv I).
  - exists None. split; reflexivity.
Qed.

(** X21.  When a key is configured and the remote model answers with a
    brace block that parses to an object none of whose properties is
    truthy (the empty object, or one whose values are null, false, 0 or
    the empty string), [analyzeScreen] returns an analysis with no
    elements, an empty summary and no suggested actions: the fallback
    analysis is not used and nothing is written to the console. *)
Theorem analyzeScreen_falsy_reply_is_empty
  (env : Gemini.Env) (imageData goal : string) (w : Gemini.World)
  (text block : string) (fields : list (string * JS.value)) :
  Gemini.API_KEY env <> "" ->
  Gemini.generateContent env (Spec.requestFor imageData goal) = JS.Ok text ->
  JS.matchBraces text = Some block ->
  Gemini.JSON_parse env block = JS.Ok (JS.JObject fields) ->
  Checks.falsyFields fields ->
  Gemini.analyzeScreen env imageData goal w
  = (JS.Ok (Gemini.Untyped (JS.JArray []) (JS.JString "") (JS.JArray [])),
     Gemini.mkWorld
       (Gemini.requests w ++ [Spec.requestFor imageData goal])%list
       (Gemini.console w)).
Proof.
  intros K R B P F. unfold Spec.requestFor in *.
  unfold Gemini.analyzeScreen.
  destruct (String.eqb_spec (Gemini.API_KEY env) "") as [K'|_];
    [contradiction|].
  destruct (getProp_falsy fields "elements" F) as (v1 & G1 & D1).
  destruct (getProp_falsy fields "summary" F) as (v2 & G2 & D2).
  destruct (getProp_falsy fields "suggestedActions" F) as (v3 & G3 & D3).
  unfold Eff.tryCatch, Eff.bind, Gemini.callModel, Eff.lift, Eff.ret.
  rewrite R. cbn [fst snd]. rewrite B, P. cbn [fst snd].
  rewrite G1. cbn [fst snd]. rewrite G2. cbn [fst snd].
  rewrite G3. cbn [fst snd]. now rewrite D1, D2, D3.
Qed.

Lemma analyzeScreen_falsy_reply_is_empty_witness :
  let env := Gemini.mkEnv "key" (fun _ => JS.Ok "Here you go: {}")
               (fun _ => JS.Ok (JS.JObject [("elements", JS.JNull)])) in
  let w := Gemini.mkWorld [] [] in
  Gemini.API_KEY env <> ""
  /\ fst (Gemini.analyzeScreen env "data:image/png;base64,AAAA" demoGoal w)
     = JS.Ok (Gemini.Untyped (JS.JArray []) (JS.JString "") (JS.JArray [])).
Proof.
  assert (K : "key" <> "") by discriminate.
  assert (F : Checks.falsyFields [("elements", JS.JNull)])
    by (constructor; [reflexivity | constructor]).
  split; [exact K|].
  rewrite (analyzeScreen_falsy_reply_is_empty
             (Gemini.mkEnv "key" (fun _ => JS.Ok "Here you go: {}")
                (fun _ => JS.Ok (JS.JObject [("elements", JS.JNull)])))
             "data:image/png;base64,AAAA" demoGoal (Gemini.mkWorld [] [])
             "Here you go: {}" "{}" [("elements", JS.JNull)]
             K eq_refl eq_refl eq_refl F).
  reflexivity.
Defined.

(** ** Script generators *)

Lemma stepLines_scripted (i : nat) (a b : Action.t) :
  RunnerScript.scripted a = RunnerScript.scripted b ->
  RunnerScript.stepLines i a = RunnerScript.stepLines i b.
Proof.
  unfold RunnerScript.scripted, RunnerScript.stepLines. intros E.
  injection E as T D V. now rewrite T, D, V.
Qed.

Lemma mapiFrom_stepLines_scripted (xs ys : list Action.t) (i : nat) :
  map RunnerScript.scripted xs = map RunnerScript.scripted ys ->
  App.mapiFrom i RunnerScript.stepLines xs
  = App.mapiFrom i RunnerScript.stepLines ys.
Proof.
  revert ys i. induction xs as [|a xs IH]; intros [|b ys] i E;
    cbn [map] in E; try discriminate.
  - reflexivity.
  - assert (Ea : RunnerScript.scripted a = RunnerScript.scripted b)
      by congruence.
    assert (Er : map RunnerScript.scripted xs = map RunnerScript.scripted ys)
      by congruence.
    cbn [App.mapiFrom].
    now rewrite (stepLines_scripted i a b Ea), (IH ys (S i) Er).
Qed.

Lemma stepLines_length (i : nat) (a : Action.t) :
  (2 <= List.length (RunnerScript.stepLines i a) <= 3)%nat.
Proof.
  unfold RunnerScript.stepLines.
  destruct (Action.type a); cbn [List.length app]; lia.
Qed.

Lemma concat_mapiFrom_length (xs : list Action.t) (i : nat) :
  (2 * List.length xs
   <= List.length (List.concat (App.mapiFrom i RunnerScript.stepLines xs))
   <= 3 * List.length xs)%nat.
Proof.
  revert i. induction xs as [|a xs IH]; intros i;
    cbn [App.mapiFrom List.concat List.length].
  - lia.
  - rewrite length_app.
    pose proof (stepLines_length i a). pose proof (IH (S i)). lia.
Qed.

(** X22.  The script the runner writes never uses what the vision model
    found: it is determined by the type, description and value of each
    action, so two plans that agree on those and differ in targets,
    bounding boxes, ids or statuses give the same script.  Each action
    contributes two or three lines to it, after six lines of header and
    before the closing line. *)
Theorem runner_script_ignores_targets (plan other : list Action.t) :
  map RunnerScript.scripted plan = map RunnerScript.scripted other ->
  RunnerScript.generatePlaywrightScript plan
  = RunnerScript.generatePlaywrightScript other
  /\ (7 + 2 * List.length plan
      <= List.length (RunnerScript.scriptLines plan)
      <= 7 + 3 * List.length plan)%nat.
Proof.
  intros E. split.
  - unfold RunnerScript.generatePlaywrightScript, RunnerScript.scriptLines,
      App.mapi.
    now rewrite (mapiFrom_stepLines_scripted plan other 0 E).
  - unfold RunnerScript.scriptLines, App.mapi.
    rewrite !length_app. cbn [List.length].
    pose proof (concat_mapiFrom_length plan 0). lia.
Qed.

Lemma runner_script_ignores_targets_witness :
  let bare :=
    Action.mk "9" ActionType.click None (Action.value Spec.clickProduct)
      (Action.description Spec.clickProduct) 7 ActionStatus.failed None in
  map RunnerScript.scripted [Spec.clickProduct]
    = map RunnerScript.scripted [bare]
  /\ RunnerScript.generatePlaywrightScript [Spec.clickProduct]
     = RunnerScript.generatePlaywrightScript [bare].
Proof.
  split; [reflexivity|].
  exact (proj1 (runner_script_ignores_targets [Spec.clickProduct]
                  [Action.mk "9" ActionType.click None
                     (Action.value Spec.clickProduct)
                     (Action.description Spec.clickProduct)
                     7 ActionStatus.failed None]
                  eq_refl)).
Defined.

Lemma append_empty_r (s : string) : s ++ "" = s.
Proof.
  induction s as [|c s IH]; cbn [append]; [reflexivity | now rewrite IH].
Qed.

Lemma join_empty_cons (x : string) (xs : list string) :
  JS.join "" (x :: xs) = x ++ JS.join "" xs.
Proof.
  unfold JS.join. destruct xs as [|y ys]; cbn [String.concat append].
  - now rewrite append_empty_r.
  - reflexivity.
Qed.

Lemma join_map_filter {A : Type} (f : A -> string) (p : A -> bool)
  (xs : list A) :
  (forall a, p a = false -> f a = "") ->
  JS.join "" (map f xs) = JS.join "" (map f (filter p xs)).
Proof.
  intros H. induction xs as [|a xs IH]; cbn [map filter].
  - reflexivity.
  - destruct (p a) eqn:P; cbn [map]; rewrite !join_empty_cons, IH.
    + reflexivity.
    + now rewrite (H a P).
Qed.

(** X23.  The script the component writes holds a call for the click and
    type actions only: any wait, scroll, select or navigate action of the
    plan leaves no trace in it, not even its description. *)
Theorem component_script_only_clicks_and_types (actions : list Action.t) :
  App.generatePlaywrightScript actions
  = App.generatePlaywrightScript (filter RunnerScript.clickOrType actions).
Proof.
  unfold App.generatePlaywrightScript.
  rewrite (join_map_filter _ RunnerScript.clickOrType actions);
    [reflexivity|].
  intros a. unfold RunnerScript.clickOrType.
  destruct (Action.type a); (discriminate || reflexivity).
Qed.

(** ** Plan text *)

(** X24.  [generateActionPlan] never throws and sends at most one prompt.
    When no key is configured, the analysis cannot be serialised or the
    remote call throws, it returns the suggested actions of the analysis,
    one per line; without a key it does so without touching the world.
    Otherwise it returns the text of the remote model as it is. *)
Theorem generateActionPlan_total
  (env : Planner.Env) (analysis : AnalysisResult.t) (goal : string)
  (w : Planner.World) :
  (exists text w',
      Planner.generateActionPlan env analysis goal w = (JS.Ok text, w')
      /\ (List.length (Planner.prompts w')
          <= List.length (Planner.prompts w) + 1)%nat)
  /\ (Planner.planFailure env analysis goal ->
      exists w',
        Planner.generateActionPlan env analysis goal w
        = (JS.Ok (JS.join JS.nl (AnalysisResult.suggestedActions analysis)),
           w')
        /\ (Gemini.API_KEY (Planner.gemini env) = "" -> w' = w))
  /\ (forall json text,
        Gemini.API_KEY (Planner.gemini env) <> "" ->
        Planner.JSON_stringify env analysis = JS.Ok json ->
        Planner.generateText env (Planner.buildPrompt json goal)
        = JS.Ok text ->
        Planner.generateActionPlan env analysis goal w
        = (JS.Ok text,
           Planner.mkWorld
             (Planner.prompts w ++ [Planner.buildPrompt json goal])%list
             (Planner.console w))).
Proof.
  unfold Planner.planFailure, Planner.generateActionPlan.
  unfold Eff.tryCatch, Eff.bind, Planner.callModel, Eff.lift, Eff.ret,
    Planner.consoleError, Eff.modify.
  destruct (String.eqb_spec (Gemini.API_KEY (Planner.gemini env)) "")
    as [K|K].
  - split; [|split].
    + exists (JS.join JS.nl (AnalysisResult.suggestedActions analysis)), w.
      split; [reflexivity | lia].
    + intros _. exists w. split; [reflexivity | reflexivity].
    + intros json text K'. contradiction.
  - destruct (Planner.JSON_stringify env analysis) as [json|e] eqn:S;
      cbn [fst snd].
    + destruct (Planner.generateText env (Planner.buildPrompt json goal))
        as [text|e] eqn:R; cbn [fst snd Planner.prompts Planner.console].
      * split; [|split].
        -- eexists; eexists. split; [reflexivity|].
           cbn [Planner.prompts]. rewrite length_app. cbn [List.length]. lia.
        -- intros [F|[[e F]|(j & e & F1 & F2)]];
             [contradiction | discriminate |].
           injection F1 as <-. congruence.
        -- intros j t _ Ej Et. injection Ej as <-. rewrite R in Et.
           injection Et as <-. reflexivity.
      * split; [|split].
        -- eexists; eexists. split; [reflexivity|].
           cbn [Planner.prompts]. rewrite length_app. cbn [List.length]. lia.
        -- intros _. eexists. split; [reflexivity | intros K'; contradiction].
        -- intros j t _ Ej Et. injection Ej as <-. congruence.
    + split; [|split].
      * eexists; eexists. split; [reflexivity|]. cbn [Planner.prompts]. lia.
      * intros _. eexists. split; [reflexivity | intros K'; contradiction].
      * intros j t _ Ej. discriminate.
Qed.

(** X25.  Without a key the two remote functions together give the same
    plan text for every screenshot and every goal: [analyzeScreen] returns
    the fallback analysis, and [generateActionPlan] turns it into the five
    fixed lines, sending nothing and writing nothing.  That text is never
    the list of the descriptions of the plan the classifier of the
    component makes for the same goal. *)
Theorem plan_without_key_is_fixed
  (env : Planner.Env) (imageData goal : string)
  (wa : Gemini.World) (w : Planner.World) :
  Gemini.API_KEY (Planner.gemini env) = "" ->
  exists r,
    Gemini.analyzeScreen (Planner.gemini env) imageData goal wa
    = (JS.Ok (Gemini.Typed r), wa)
    /\ Planner.generateActionPlan env r goal w
       = (JS.Ok Planner.fallbackPlan, w)
    /\ Planner.fallbackPlan <> JS.join JS.nl
         (map Action.description (App.generateActionsFromGoal goal)).
Proof.
  intros K. exists (Gemini.generateMockAnalysis goal).
  unfold Gemini.analyzeScreen, Planner.generateActionPlan.
  rewrite K. cbn [String.eqb]. unfold Eff.ret.
  split; [reflexivity|]. split; [reflexivity|].
  rewrite generateActionsFromGoal_classify.
  unfold Spec.classify, Spec.vocabulary. cbn [filter].
  destruct (Spec.hit _ _); destruct (Spec.hit _ _);
    destruct (Spec.hit _ _); destruct (Spec.hit _ _);
    vm_compute; discriminate.
Qed.

Lemma plan_without_key_is_fixed_witness :
  let env :=
    Planner.mkEnv
      (Gemini.mkEnv "" (fun _ => JS.Throw JS.Thrown)
         (fun _ => JS.Throw JS.Thrown))
      (fun _ => JS.Throw JS.Thrown) (fun _ => JS.Throw JS.Thrown) in
  Gemini.API_KEY (Planner.gemini env) = ""
  /\ exists r,
       Gemini.analyzeScreen (Planner.gemini env) "" "open the settings page"
         (Gemini.mkWorld [] [])
       = (JS.Ok (Gemini.Typed r), Gemini.mkWorld [] [])
       /\ Planner.generateActionPlan env r "open the settings page"
            (Planner.mkWorld [] [])
          = (JS.Ok Planner.fallbackPlan, Planner.mkWorld [] [])
       /\ Planner.fallbackPlan <> JS.join JS.nl
            (map Action.description
               (App.generateActionsFromGoal "open the settings page")).
Proof.
  split; [reflexivity|].
  exact (plan_without_key_is_fixed
           (Planner.mkEnv
              (Gemini.mkEnv "" (fun _ => JS.Throw JS.Thrown)
                 (fun _ => JS.Throw JS.Thrown))
              (fun _ => JS.Throw JS.Thrown) (fun _ => JS.Throw JS.Thrown))
           "" "open the settings page"
           (Gemini.mkWorld [] []) (Planner.mkWorld [] []) eq_refl).
Defined.

(** ** Voice read-out *)

Lemma speak_supported (win : Speech.Window) (t : string) (w : Speech.World) :
  Speech.supported win = true ->
  Speech.speak win t w
  = (JS.Ok tt,
     Speech.mkWorld
       [Speech.mkUtterance t 1 1 1 (find Speech.preferred (Speech.voices win))]
       (Speech.console w)).
Proof.
  intros S. unfold Speech.speak. rewrite S. cbn [negb].
  unfold Eff.bind, Speech.cancel, Speech.enqueue, Eff.modify.
  cbn [fst snd Speech.pending Speech.console app].
  destruct (find Speech.preferred (Speech.voices win)); reflexivity.
Qed.

Lemma speak_unsupported (win : Speech.Window) (t : string) (w : Speech.World) :
  Speech.supported win = false ->
  Speech.speak win t w
  = (JS.Ok tt,
     Speech.mkWorld (Speech.pending w)
       (Speech.console w ++ ["Speech synthesis not supported"])%list).
Proof.
  intros S. unfold Speech.speak. rewrite S. reflexivity.
Qed.

(** X26.  [speak] never lets read-outs pile up: on a window with speech
    synthesis, after any number of calls exactly one utterance is queued,
    the one of the last text, whatever was queued before; its voice is the
    first listed voice whose name contains Google, Samantha or Microsoft,
    and the default voice only when no listed voice does.  On a window
    without speech synthesis nothing is ever queued and every call writes
    one warning. *)
Theorem speak_keeps_only_the_last
  (win : Speech.Window) (texts : list string) (t : string)
  (w : Speech.World) :
  let w' := snd (Speech.speakAll win (texts ++ [t]) w) in
  fst (Speech.speakAll win (texts ++ [t]) w) = JS.Ok tt
  /\ (Speech.supported win = true ->
      exists u,
        w' = Speech.mkWorld [u] (Speech.console w)
        /\ Speech.text u = t
        /\ match Speech.voice u with
           | Some v =>
               exists before after,
                 Speech.voices win = (before ++ v :: after)%list
                 /\ Speech.preferred v = true
                 /\ Forall (fun x => Speech.preferred x = false) before
           | None =>
               Forall (fun x => Speech.preferred x = false)
                      (Speech.voices win)
           end)
  /\ (Speech.supported win = false ->
      Speech.pending w' = Speech.pending w
      /\ Speech.console w'
         = (Speech.console w
            ++ repeat "Speech synthesis not supported"
                 (List.length texts + 1))%list).
Proof.
  revert w. induction texts as [|x texts IH]; intros w.
  - cbn [app Speech.speakAll]. unfold Eff.bind, Eff.ret.
    destruct (Speech.supported win) eqn:S.
    + rewrite (speak_supported win t w S). cbn [fst snd].
      split; [reflexivity|]. split; [|discriminate]. intros _.
      eexists. split; [reflexivity|]. cbn [Speech.text Speech.voice].
      split; [reflexivity|].
      induction (Speech.voices win) as [|v vs IHv]; cbn [find].
      * constructor.
      * destruct (Speech.preferred v) eqn:P.
        -- exists [], vs. split; [reflexivity|]. split; [exact P|constructor].
        -- destruct (find Speech.preferred vs) as [v'|].
           ++ destruct IHv as (before & after & E & P' & F).
              exists (v :: before), after. rewrite E.
              split; [reflexivity|]. split; [exact P'|].
              constructor; assumption.
           ++ constructor; assumption.
    + rewrite (speak_unsupported win t w S). cbn [fst snd].
      split; [reflexivity|]. split; [discriminate|]. intros _.
      split; reflexivity.
  - cbn [app Speech.speakAll]. unfold Eff.bind.
    destruct (Speech.supported win) eqn:S.
    + rewrite (speak_supported win x w S). cbn [fst snd].
      match goal with |- context [Speech.speakAll win _ ?w1] =>
        destruct (IH w1) as (R & Hs & _) end.
      split; [exact R|]. split; [|discriminate]. intros _.
      destruct (Hs eq_refl) as (u & E & T & V).
      exists u. cbn [Speech.console] in E. split; [exact E|].
      split; [exact T | exact V].
    + rewrite (speak_unsupported win x w S). cbn [fst snd].
      match goal with |- context [Speech.speakAll win _ ?w1] =>
        destruct (IH w1) as (R & _ & Hu) end.
      split; [exact R|]. split; [discriminate|]. intros _.
      destruct (Hu eq_refl) as (P & C).
      cbn [Speech.pending Speech.console] in P, C.
      split; [exact P|]. rewrite C. rewrite <- app_assoc.
      cbn [List.length Nat.add repeat app]. reflexivity.
Qed.

Lemma nth_error_mapiFrom {A B : Type} (f : nat -> A -> B) (xs : list A) :
  forall k i,
    nth_error (App.mapiFrom k f xs) i
    = option_map (f (k + i)%nat) (nth_error xs i).
Proof.
  induction xs as [|x xs IH]; intros k [|i];
    cbn [App.mapiFrom nth_error option_map]; try reflexivity.
  - now rewrite Nat.add_0_r.
  - rewrite IH. now replace (S k + i)%nat with (k + S i)%nat by lia.
Qed.

Lemma join_nth (sep : string) (xs : list string) :
  forall i x,
    nth_error xs i = Some x -> exists l r, JS.join sep xs = l ++ x ++ r.
Proof.
  unfold JS.join.
  induction xs as [|y ys IH]; intros [|i] x E; cbn [nth_error] in E;
    try discriminate.
  - injection E as <-. destruct ys as [|z zs]; cbn [String.concat].
    + exists "", "". now rewrite append_empty_r.
    + exists "", (sep ++ String.concat sep (z :: zs)). reflexivity.
  - destruct (IH i x E) as (l & r & H).
    destruct ys as [|z zs]; [destruct i; discriminate|].
    cbn [String.concat] in *. rewrite H.
    exists (y ++ sep ++ l), r. now rewrite !append_assoc.
Qed.

(** X27.  On a window with speech synthesis [speakActions] leaves one
    utterance queued; its text opens with the number of steps and holds,
    for every action of the plan, its description under its own step
    number, counted from one. *)
Theorem speakActions_reads_every_step
  (win : Speech.Window) (actions : list Action.t) (w : Speech.World) :
  Speech.supported win = true ->
  exists u,
    snd (Speech.speakActions win actions w)
    = Speech.mkWorld [u] (Speech.console w)
    /\ prefix ("I have " ++ JS.showNat (List.length actions)
                 ++ " steps planned. ") (Speech.text u) = true
    /\ forall i a,
         nth_error actions i = Some a ->
         JS.includes (Speech.text u)
           ("Step " ++ JS.showNat (i + 1) ++ ": " ++ Action.description a)
         = true.
Proof.
  intros S. unfold Speech.speakActions.
  rewrite (speak_supported win _ w S). cbn [snd].
  eexists. split; [reflexivity|]. cbn [Speech.text]. split.
  - apply prefix_app. eexists. now rewrite !append_assoc.
  - intros i a E. apply includes_spec.
    destruct (join_nth ". "
                (App.mapi
                   (fun i a => "Step " ++ JS.showNat (i + 1) ++ ": "
                                 ++ Action.description a) actions)
                i ("Step " ++ JS.showNat (i + 1) ++ ": "
                     ++ Action.description a)) as (l & r & H).
    { unfold App.mapi. now rewrite nth_error_mapiFrom, E. }
    rewrite H.
    exists ("I have " ++ JS.showNat (List.length actions)
              ++ " steps planned. " ++ l), r.
    now rewrite !append_assoc.
Qed.

Lemma speakActions_reads_every_step_witness :
  let win := Speech.mkWindow true ["Alex"; "Google US English"] in
  Speech.supported win = true
  /\ exists u,
       snd (Speech.speakActions win (App.generateActionsFromGoal demoGoal)
              (Speech.mkWorld [] []))
       = Speech.mkWorld [u] []
       /\ prefix "I have 4 steps planned. " (Speech.text u) = true
       /\ forall i a,
            nth_error (App.generateActionsFromGoal demoGoal) i = Some a ->
            JS.includes (Speech.text u)
              ("Step " ++ JS.showNat (i + 1) ++ ": " ++ Action.description a)
            = true.
Proof.
  split; [reflexivity|].
  exact (speakActions_reads_every_step
           (Speech.mkWindow true ["Alex"; "Google US English"])
           (App.generateActionsFromGoal demoGoal)
           (Speech.mkWorld [] []) eq_refl).
Defined.
